(** * Financial Instruments JSON Viewer: the ingestion, normalisation and
    filtering core of [upstox_financial_instruments_viewer.py]

    The development follows the Python source function by function:
    [load_json_file], [convert_timestamp], [format_currency] and the sidebar
    filter section of [main].  Library calls the source relies on (the
    [json] decoder, [float], [str.strip], pandas' column operations) are
    given executable definitions; what belongs to the machine the program
    runs on (local time zone, the [re] engine on patterns with
    metacharacters, the shortest [repr] of a float, wide text codecs) is
    collected in the class [Host] and every statement holds for every host.

    Conventions.  A Python [str] is represented by the bytes of its UTF-8
    encoding, so string equality, code point order, splitting at a line feed
    and substring search coincide with the operations on [string].  A Python
    [float] is a binary64 value of [SpecFloat]. *)

From Stdlib Require Import ZArith NArith List String Ascii Bool Lia SpecFloat.
From stdpp Require Import base option list gmap strings sorting.

Set Warnings "-register-all,-at-level-200-changed".

Local Open Scope string_scope.
Local Open Scope Z_scope.

(** ** Python strings *)

Module PyStr.

Definition code (c : ascii) : N := N_of_ascii c.

Definition of_bytes (l : list N) : string :=
  string_of_list_ascii (map ascii_of_N l).

Definition is_ascii_char (c : ascii) : bool := (code c <? 128)%N.

Fixpoint is_ascii (s : string) : bool :=
  match s with
  | EmptyString => true
  | String c s' => is_ascii_char c && is_ascii s'
  end.

(** The characters for which [str.isspace] holds, each as its UTF-8
    encoding: U+0009..U+000D, U+001C..U+0020, U+0085, U+00A0, U+1680,
    U+2000..U+200A, U+2028, U+2029, U+202F, U+205F and U+3000. *)
Definition whitespace : list string :=
  map of_bytes
    [ [9]; [10]; [11]; [12]; [13]; [28]; [29]; [30]; [31]; [32];
      [194; 133]; [194; 160]; [225; 154; 128];
      [226; 128; 128]; [226; 128; 129]; [226; 128; 130]; [226; 128; 131];
      [226; 128; 132]; [226; 128; 133]; [226; 128; 134]; [226; 128; 135];
      [226; 128; 136]; [226; 128; 137]; [226; 128; 138];
      [226; 128; 168]; [226; 128; 169]; [226; 128; 175];
      [226; 129; 159]; [227; 128; 128] ]%N.

(** [strip_prefix p s] is the rest of [s] after the prefix [p]. *)
Fixpoint strip_prefix (p s : string) : option string :=
  match p, s with
  | EmptyString, _ => Some s
  | String a p', String b s' =>
      if Ascii.eqb a b then strip_prefix p' s' else None
  | String _ _, EmptyString => None
  end.

Fixpoint drop_one (table : list string) (s : string) : option string :=
  match table with
  | [] => None
  | w :: table' =>
      match strip_prefix w s with
      | Some rest => Some rest
      | None => drop_one table' s
      end
  end.

Fixpoint drop_while (table : list string) (fuel : nat) (s : string) : string :=
  match fuel with
  | O => s
  | S fuel' =>
      match drop_one table s with
      | Some rest => drop_while table fuel' rest
      | None => s
      end
  end.

Definition lstrip (s : string) : string :=
  drop_while whitespace (String.length s) s.

Definition rstrip (s : string) : string :=
  String.rev (drop_while (map String.rev whitespace) (String.length s) (String.rev s)).

(** [str.strip()] *)
Definition strip (s : string) : string := rstrip (lstrip s).

(** [str.split(sep)] for a one-character separator: never empty. *)
Fixpoint split (sep : ascii) (s : string) : list string :=
  match s with
  | EmptyString => [EmptyString]
  | String c s' =>
      if Ascii.eqb c sep then EmptyString :: split sep s'
      else match split sep s' with
           | [] => [String c EmptyString]
           | w :: ws => String c w :: ws
           end
  end.

Definition line_feed : ascii := ascii_of_N 10.
Definition double_quote : ascii := ascii_of_N 34.

Definition lower_char (c : ascii) : ascii :=
  if ((65 <=? code c) && (code c <=? 90))%N then ascii_of_N (code c + 32) else c.

Fixpoint lower (s : string) : string :=
  match s with
  | EmptyString => EmptyString
  | String c s' => String (lower_char c) (lower s')
  end.

(** [needle in hay] *)
Fixpoint contains (needle hay : string) : bool :=
  match strip_prefix needle hay with
  | Some _ => true
  | None =>
      match hay with
      | EmptyString => false
      | String _ hay' => contains needle hay'
      end
  end.

Definition digit_char (d : Z) : ascii := ascii_of_N (48 + Z.to_N d).

(** The decimal digits of a natural number, most significant first. *)
Fixpoint digits_fuel (fuel : nat) (n : Z) (acc : string) : string :=
  match fuel with
  | O => acc
  | S fuel' =>
      let acc' := String (digit_char (n mod 10)) acc in
      if n <? 10 then acc' else digits_fuel fuel' (n / 10) acc'
  end.

Definition digits (n : Z) : string :=
  digits_fuel (S (Z.to_nat (Z.log2 n))) n EmptyString.

(** [str(n)] for an [int] *)
Definition of_Z (z : Z) : string :=
  if z <? 0 then String "-" (digits (- z)) else digits z.

(** Left padding with zeros to a width, as [%02d] and the like. *)
Fixpoint zeros (n : nat) : string :=
  match n with O => EmptyString | S n' => String "0" (zeros n') end.

Definition zfill (width : nat) (s : string) : string :=
  zeros (width - String.length s) +:+ s.

End PyStr.

(** ** Python floats: binary64 *)

Module PyFloat.

Definition float : Type := spec_float.

Definition prec : Z := 53.
Definition emax : Z := 1024.

Definition nan : float := S754_nan.
Definition inf (neg : bool) : float := S754_infinity neg.

Definition is_nan (x : float) : bool :=
  match x with S754_nan => true | _ => false end.

Definition is_zero (x : float) : bool :=
  match x with S754_zero _ => true | _ => false end.

Definition is_inf (x : float) : bool :=
  match x with S754_infinity _ => true | _ => false end.

Definition eqb : float -> float -> bool := SFeqb.
Definition leb : float -> float -> bool := SFleb.
Definition ltb : float -> float -> bool := SFltb.

(** [float(n)] for an [int], rounded to nearest even; an infinite result
    stands for Python's [OverflowError]. *)
Definition of_Z (z : Z) : float := binary_normalize prec emax z 0 false.

(** The number of decimal digits of a positive integer is at most
    [decimal_bound]. *)
Definition decimal_bound (m : Z) : Z := Z.log2 m / 3 + 1.

(** The binary64 nearest to [m * 10 ^ e10] for [m >= 0], ties to even. *)
Definition of_decimal (neg : bool) (m e10 : Z) : float :=
  match m with
  | Zpos p =>
      if 310 <? e10 then S754_infinity neg
      else if decimal_bound m + e10 <? -330 then S754_zero neg
      else if 0 <=? e10 then binary_normalize prec emax (if neg then - (m * 10 ^ e10) else m * 10 ^ e10) 0 neg
      else
        let '(q, e, l) := SFdiv_core_binary prec emax m 0 (10 ^ (- e10)) 0 in
        binary_round_aux prec emax neg q e l
  | _ => S754_zero neg
  end.

(** [a / b] for two [int]s with [b > 0]: the correctly rounded quotient. *)
Definition int_truediv (a b : Z) : float :=
  match a with
  | Z0 => S754_zero false
  | _ =>
      let '(q, e, l) := SFdiv_core_binary prec emax (Z.abs a) 0 b 0 in
      binary_round_aux prec emax (a <? 0) q e l
  end.

Definition div (x y : float) : float := SFdiv prec emax x y.
Definition mul (x y : float) : float := SFmul prec emax x y.

(** [int(x)]: truncation towards zero; [None] for an infinity or a NaN
    (Python raises [OverflowError], respectively [ValueError]). *)
Definition trunc (x : float) : option Z :=
  match x with
  | S754_zero _ => Some 0
  | S754_finite s m e =>
      let a := if 0 <=? e then Z.shiftl (Zpos m) e else Z.shiftr (Zpos m) (- e) in
      Some (if s then - a else a)
  | _ => None
  end.

(** The fractional part that C's [modf] returns, with the sign of [x]. *)
Definition modf_frac (x : float) : float :=
  match x with
  | S754_finite s m e =>
      if 0 <=? e then S754_zero s
      else binary_normalize prec emax
             (let r := Z.land (Zpos m) (Z.ones (- e)) in if s then - r else r) e s
  | _ => x
  end.

(** Rounding of a quotient [num / den] ([den > 0], [num >= 0]) to the
    nearest integer, ties to even. *)
Definition round_half_even (num den : Z) : Z :=
  let q := num / den in
  let r := num mod den in
  match Z.compare (2 * r) den with
  | Lt => q
  | Gt => q + 1
  | Eq => if Z.even q then q else q + 1
  end.

(** [round(|x| * 10^k)] for a finite [x], computed on the exact value. *)
Definition scaled_abs (k : Z) (x : float) : Z :=
  match x with
  | S754_finite _ m e =>
      if 0 <=? e then Zpos m * 2 ^ e * 10 ^ k
      else round_half_even (Zpos m * 10 ^ k) (2 ^ (- e))
  | _ => 0
  end.

Definition sign (x : float) : bool :=
  match x with
  | S754_zero s | S754_infinity s | S754_finite s _ _ => s
  | S754_nan => false
  end.

(** Thousands separators: a comma before every group of three digits,
    counted from the right. *)
Fixpoint group_rev (l : list ascii) : list ascii :=
  match l with
  | a :: b :: c :: ((_ :: _) as rest) => a :: b :: c :: ","%char :: group_rev rest
  | _ => l
  end.

Definition group3 (s : string) : string :=
  string_of_list_ascii (rev (group_rev (rev (list_ascii_of_string s)))).

(** The body of [format(x, ',.2f')]. *)
Definition format_2f (x : float) : string :=
  match x with
  | S754_nan => "nan"
  | S754_infinity s => if s then "-inf" else "inf"
  | _ =>
      let n := scaled_abs 2 x in
      (if sign x then "-" else "") +:+
      group3 (PyStr.digits (n / 100)) +:+ "." +:+ PyStr.zfill 2 (PyStr.digits (n mod 100))
  end.

(** *** Reading a float from ASCII text *)

Definition is_digit (c : ascii) : bool :=
  ((48 <=? PyStr.code c) && (PyStr.code c <=? 57))%N.

Definition digit_value (c : ascii) : Z := Z.of_N (PyStr.code c) - 48.

(** The longest prefix of digits, as digit count and value, and the rest. *)
Fixpoint span_digits (s : string) (count value : Z) : Z * Z * string :=
  match s with
  | String c s' =>
      if is_digit c then span_digits s' (count + 1) (10 * value + digit_value c)
      else (count, value, s)
  | EmptyString => (count, value, s)
  end.

Definition read_sign (s : string) : bool * string :=
  match s with
  | String "-" s' => (true, s')
  | String "+" s' => (false, s')
  | _ => (false, s)
  end.

(** The optional exponent part: [e], an optional sign and at least one
    digit; anything else leaves the text unread. *)
Definition read_exponent (s : string) : Z * string :=
  match s with
  | String c s' =>
      if Ascii.eqb (PyStr.lower_char c) "e" then
        let '(neg, s1) := read_sign s' in
        let '(n, v, s2) := span_digits s1 0 0 in
        if n =? 0 then (0, s) else (if neg then - v else v, s2)
      else (0, s)
  | EmptyString => (0, s)
  end.

(** [digits [. digits] [exponent]] or [. digits [exponent]], to the end. *)
Definition read_decimal (neg : bool) (s : string) : option float :=
  let '(n1, v1, s1) := span_digits s 0 0 in
  let '(n2, v2, s2) :=
    match s1 with
    | String "." s1' => span_digits s1' 0 v1
    | _ => (0, v1, s1)
    end in
  if n1 + n2 =? 0 then None
  else
    let '(ex, s3) := read_exponent s2 in
    match s3 with
    | EmptyString => Some (of_decimal neg v2 (ex - n2))
    | _ => None
    end.

(** Underscores may only stand between two digits; they are dropped. *)
Fixpoint drop_underscores (prev : ascii) (s : string) : option string :=
  match s with
  | EmptyString => if Ascii.eqb prev "_" then None else Some EmptyString
  | String c s' =>
      if Ascii.eqb c "_" then
        if is_digit prev then drop_underscores c s' else None
      else if Ascii.eqb prev "_" && negb (is_digit c) then None
      else option_map (String c) (drop_underscores c s')
  end.

(** The space characters C's [isspace] knows. *)
Definition c_spaces : list string :=
  map PyStr.of_bytes [ [9]; [10]; [11]; [12]; [13]; [32] ]%N.

Definition c_strip (s : string) : string :=
  let s1 := PyStr.drop_while c_spaces (String.length s) s in
  String.rev (PyStr.drop_while c_spaces (String.length s1) (String.rev s1)).

(** A number in decimal notation, [inf], [infinity] or [nan], with an
    optional sign and surrounded by optional blanks.  [underscores] tells
    whether digit-separating underscores are accepted. *)
Definition of_ascii (underscores : bool) (s : string) : option float :=
  match (if underscores then drop_underscores "000" (c_strip s) else Some (c_strip s)) with
  | None => None
  | Some t =>
      let '(neg, body) := read_sign t in
      let word := PyStr.lower body in
      if String.eqb word "inf" || String.eqb word "infinity" then Some (inf neg)
      else if String.eqb word "nan" then Some nan
      else read_decimal neg body
  end.

End PyFloat.

(** ** The host of the program *)

(** Text encodings [json.detect_encoding] distinguishes besides UTF-8. *)
Inductive wide_encoding := UTF16 | UTF16BE | UTF16LE | UTF32 | UTF32BE | UTF32LE.

Class Host := {
  (** offset of local time from UTC, in seconds, at a UTC instant *)
  utcoffset : Z -> Z;
  (** [repr] of a float that is not a NaN *)
  float_repr : PyFloat.float -> string;
  (** [float] on text that has characters outside ASCII *)
  float_of_unicode : string -> option PyFloat.float;
  (** whether [re.compile] accepts a pattern *)
  re_valid : string -> bool;
  (** [re.search] with [re.IGNORECASE], for an accepted pattern *)
  re_search_ignorecase : string -> string -> bool;
  (** decoding of UTF-16 and UTF-32 bytes to text *)
  decode_wide : wide_encoding -> string -> option string;
  (** nesting depth at which the decoder raises [RecursionError] *)
  recursion_limit : nat;
  (** [sys.int_max_str_digits]; zero for no limit *)
  int_max_str_digits : nat;
  (** whether [strftime] writes [%Y] with four digits for a year below
      1000: the C library decides, and glibc does not, where CPython up to
      3.12 writes 987 and not 0987 *)
  strftime_pads_year : bool
}.

(** ** Python values and exceptions *)

(** The scalars a cell of the data frame holds.  A missing entry is the
    float NaN, as pandas stores it. *)
Inductive pyval :=
  | VNone
  | VBool (b : bool)
  | VInt (z : Z)
  | VFloat (x : PyFloat.float)
  | VStr (s : string).

Definition NaN : pyval := VFloat PyFloat.nan.

Inductive exn :=
  | JSONDecodeError
  | UnicodeDecodeError
  | ValueError
  | OverflowError
  | TypeError
  | RecursionError
  | ReError.

Inductive outcome (A : Type) :=
  | Return (a : A)
  | Raise (e : exn).

Arguments Return {A} a.
Arguments Raise {A} e.

Definition bind {A B : Type} (m : outcome A) (k : A -> outcome B) : outcome B :=
  match m with
  | Return a => k a
  | Raise e => Raise e
  end.

Notation "'do' x <- m ; k" := (bind m (fun x => k))
  (at level 10, x name, m at level 100, k at level 200).

(** [try: body  except: handler] with a bare [except]. *)
Definition try_except {A : Type} (body : outcome A) (handler : exn -> A) : A :=
  match body with
  | Return a => a
  | Raise e => handler e
  end.


(** [pd.isna] on a scalar *)
Definition isna (v : pyval) : bool :=
  match v with
  | VNone => true
  | VFloat x => PyFloat.is_nan x
  | _ => false
  end.

(** Whether a float has exactly the value of an integer. *)
Definition float_eq_int (x : PyFloat.float) (z : Z) : bool :=
  match x with
  | S754_zero _ => z =? 0
  | S754_finite s m e =>
      let a := if s then Zneg m else Zpos m in
      if 0 <=? e then z =? a * 2 ^ e else z * 2 ^ (- e) =? a
  | _ => false
  end.

Definition int_of_bool (b : bool) : Z := if b then 1 else 0.

(** Python's [==] on scalars: [bool], [int] and [float] compare by value. *)
Definition py_eq (a b : pyval) : bool :=
  match a, b with
  | VNone, VNone => true
  | VStr s, VStr t => String.eqb s t
  | VBool x, VBool y => Bool.eqb x y
  | VBool x, VInt z | VInt z, VBool x => int_of_bool x =? z
  | VInt x, VInt y => x =? y
  | VBool x, VFloat y | VFloat y, VBool x => float_eq_int y (int_of_bool x)
  | VInt x, VFloat y | VFloat y, VInt x => float_eq_int y x
  | VFloat x, VFloat y => PyFloat.eqb x y
  | _, _ => false
  end.

(** [float(s)] for a [str] *)
Definition py_float `{Host} (s : string) : outcome PyFloat.float :=
  match (if PyStr.is_ascii s then PyFloat.of_ascii true s else float_of_unicode s) with
  | Some x => Return x
  | None => Raise ValueError
  end.

(** [format(value, ',.2f')]: an [int] (or [bool]) is converted to a float. *)
Definition format_comma_2f (value : pyval) : outcome string :=
  match value with
  | VFloat x => Return (PyFloat.format_2f x)
  | VInt z =>
      if PyFloat.is_inf (PyFloat.of_Z z) then Raise OverflowError
      else Return (PyFloat.format_2f (PyFloat.of_Z z))
  | VBool b => Return (PyFloat.format_2f (PyFloat.of_Z (int_of_bool b)))
  | VNone | VStr _ => Raise TypeError
  end.

(** [pd.isna(value) or value == '' or value == 0], the test both
    formatting functions start with *)
Definition is_blank (value : pyval) : bool :=
  isna value || py_eq value (VStr "") || py_eq value (VInt 0).

(** [if isinstance(value, str): value = float(value)] *)
Definition numeric_value `{Host} (value : pyval) : outcome pyval :=
  match value with
  | VStr s => do x <- py_float s; Return (VFloat x)
  | _ => Return value
  end.

(** ** [format_currency] *)

Definition rupee : string := "₹".

Definition format_currency_try `{Host} (value : pyval) : outcome string :=
  if is_blank value then
    Return (rupee +:+ "0.00")
  else
    do value <- numeric_value value;
    do body <- format_comma_2f value;
    Return (rupee +:+ body).

Definition format_currency `{Host} (value : pyval) : string :=
  try_except (format_currency_try value) (fun _ => "N/A").

(** ** [convert_timestamp] *)

Module Calendar.

(** Within an era of 400 years, which has 146097 days and begins on a
    first of March: the year of the era and the day of that year, the
    year too beginning in March. *)
Definition year_day_of_era (doe : Z) : Z * Z :=
  let yoe := (doe - doe / 1460 + doe / 36524 - doe / 146096) / 365 in
  (yoe, doe - (365 * yoe + yoe / 4 - yoe / 100)).

(** Month and day of the month of a day of a year that begins in March. *)
Definition month_day (doy : Z) : Z * Z :=
  let mp := (5 * doy + 2) / 153 in
  (if mp <? 10 then mp + 3 else mp - 9, doy - (153 * mp + 2) / 5 + 1).

(** Year, month and day of a day number counted from 1970-01-01, in the
    proleptic Gregorian calendar. *)
Definition civil_from_days (days : Z) : Z * Z * Z :=
  let z := days + 719468 in
  let era := z / 146097 in
  let doe := z mod 146097 in
  let '(yoe, doy) := year_day_of_era doe in
  let '(m, d) := month_day doy in
  (yoe + era * 400 + (if m <=? 2 then 1 else 0), m, d).

Record datetime := {
  year : Z; month : Z; day : Z; hour : Z; minute : Z; second : Z
}.

Definition of_seconds (t : Z) : datetime :=
  let '(y, m, d) := civil_from_days (t / 86400) in
  let r := t mod 86400 in
  {| year := y; month := m; day := d;
     hour := r / 3600; minute := r mod 3600 / 60; second := r mod 60 |}.

Definition pad (width : nat) (n : Z) : string := PyStr.zfill width (PyStr.of_Z n).

(** What [%Y] gives for a year from 1 to 9999: the year in decimal, with
    zeros before it up to four digits where the host pads. *)
Definition year_text `{Host} (y : Z) : string :=
  if strftime_pads_year then pad 4 y else PyStr.of_Z y.

(** [dt.strftime("%Y-%m-%d %H:%M:%S")] *)
Definition strftime `{Host} (dt : datetime) : string :=
  year_text (year dt) +:+ "-" +:+ pad 2 (month dt) +:+ "-" +:+ pad 2 (day dt) +:+ " " +:+
  pad 2 (hour dt) +:+ ":" +:+ pad 2 (minute dt) +:+ ":" +:+ pad 2 (second dt).

End Calendar.

(** The whole seconds of a float time stamp, as [datetime.fromtimestamp]
    takes them: the fraction is rounded to microseconds, ties to even, and
    may carry into or borrow from the seconds. *)
Definition timestamp_seconds (t : PyFloat.float) : outcome Z :=
  match PyFloat.trunc t with
  | None => Raise (if PyFloat.is_nan t then ValueError else OverflowError)
  | Some intpart =>
      let p := PyFloat.mul (PyFloat.modf_frac t) (PyFloat.of_Z 1000000) in
      let us := PyFloat.scaled_abs 0 p in
      let sec :=
        if 1000000 <=? us then (if PyFloat.sign p then intpart - 1 else intpart + 1)
        else if PyFloat.sign p && (0 <? us) then intpart - 1
        else intpart in
      if (- 2 ^ 63 <=? sec) && (sec <? 2 ^ 63) then Return sec
      else Raise OverflowError
  end.

(** Local time at a UTC instant, as [localtime] gives it. *)
Definition localtime `{Host} (u : Z) : Calendar.datetime :=
  Calendar.of_seconds (u + utcoffset u).

(** The years a [datetime] can hold: [MINYEAR] to [MAXYEAR]. *)
Definition year_in_range (dt : Calendar.datetime) : bool :=
  (1 <=? Calendar.year dt) && (Calendar.year dt <=? 9999).

(** [max_fold_seconds]: 24 hours. *)
Definition max_fold_seconds : Z := 86400.

(** [datetime.fromtimestamp(t)] in the local time zone of the host.  The
    year of the local time has to lie between 1 and 9999.  To find out
    whether the local time is the second of two equal ones, CPython then
    takes the local time 24 hours before, and, when the offset from UTC
    has gone down since, the local time that much before [t]; the year of
    a local time it takes has to lie between 1 and 9999 as well, so that
    an instant within the first day of the year 1 raises too. *)
Definition fromtimestamp `{Host} (t : PyFloat.float) : outcome Calendar.datetime :=
  do sec <- timestamp_seconds t;
  let dt := localtime sec in
  if year_in_range dt then
    if year_in_range (localtime (sec - max_fold_seconds)) then
      let transition := utcoffset sec - utcoffset (sec - max_fold_seconds) in
      if (transition <? 0) && negb (year_in_range (localtime (sec + transition)))
      then Raise ValueError
      else Return dt
    else Raise ValueError
  else Raise ValueError.

(** [timestamp / 1000] *)
Definition div_1000 (timestamp : pyval) : outcome PyFloat.float :=
  let int_case z :=
    let q := PyFloat.int_truediv z 1000 in
    if PyFloat.is_inf q then Raise OverflowError else Return q in
  match timestamp with
  | VFloat x => Return (PyFloat.div x (PyFloat.of_Z 1000))
  | VInt z => int_case z
  | VBool b => int_case (int_of_bool b)
  | VNone | VStr _ => Raise TypeError
  end.

Definition convert_timestamp_try `{Host} (timestamp : pyval) : outcome string :=
  if is_blank timestamp then
    Return "N/A"
  else
    do timestamp <- numeric_value timestamp;
    do seconds <- div_1000 timestamp;
    do dt <- fromtimestamp seconds;
    Return (Calendar.strftime dt).

Definition convert_timestamp `{Host} (timestamp : pyval) : string :=
  try_except (convert_timestamp_try timestamp) (fun _ => "Invalid").

(** ** The [json] decoder *)

Inductive json :=
  | JNull
  | JBool (b : bool)
  | JInt (z : Z)
  | JFloat (x : PyFloat.float)
  | JStr (s : string)
  | JArr (items : list json)
  | JObj (members : list (string * json)).

Module Json.

(** *** Text encodings *)

(** Well-formed UTF-8.  [pending] continuation bytes are still due, the
    next of them within [lo..hi]; [surrogates] admits the encodings of
    U+D800..U+DFFF, as the error handler [surrogatepass] does. *)
Fixpoint utf8_ok (surrogates : bool) (pending : nat) (lo hi : N) (s : string) : bool :=
  match s with
  | EmptyString => Nat.eqb pending 0
  | String c s' =>
      let b := PyStr.code c in
      match pending with
      | S p => ((lo <=? b) && (b <=? hi))%N && utf8_ok surrogates p 128 191 s'
      | O =>
          if (b <? 128)%N then utf8_ok surrogates 0 128 191 s'
          else if ((194 <=? b) && (b <=? 223))%N then utf8_ok surrogates 1 128 191 s'
          else if (b =? 224)%N then utf8_ok surrogates 2 160 191 s'
          else if (b =? 237)%N then utf8_ok surrogates 2 128 (if surrogates then 191 else 159)%N s'
          else if ((225 <=? b) && (b <=? 239))%N then utf8_ok surrogates 2 128 191 s'
          else if (b =? 240)%N then utf8_ok surrogates 3 144 191 s'
          else if ((241 <=? b) && (b <=? 243))%N then utf8_ok surrogates 3 128 191 s'
          else if (b =? 244)%N then utf8_ok surrogates 3 128 143 s'
          else false
      end
  end.

(** [content.decode('utf-8')]: under the representation of text by its
    UTF-8 bytes, decoding checks the bytes and keeps them. *)
Definition decode_utf8 (content : string) : outcome string :=
  if utf8_ok false 0 128 191 content then Return content else Raise UnicodeDecodeError.

Definition bom_utf8 : string := PyStr.of_bytes [239; 187; 191]%N.

Inductive encoding := UTF8 | UTF8SIG | Wide (w : wide_encoding).

Definition starts_with (p : list N) (b : string) : bool :=
  match PyStr.strip_prefix (PyStr.of_bytes p) b with Some _ => true | None => false end.

Definition byte_at (b : string) (i : nat) : N :=
  match String.get i b with Some c => PyStr.code c | None => 0%N end.

(** [json.detect_encoding] *)
Definition detect_encoding (b : string) : encoding :=
  if starts_with [0; 0; 254; 255]%N b || starts_with [255; 254; 0; 0]%N b then Wide UTF32
  else if starts_with [254; 255]%N b || starts_with [255; 254]%N b then Wide UTF16
  else if starts_with [239; 187; 191]%N b then UTF8SIG
  else if (4 <=? String.length b)%nat then
    if (byte_at b 0 =? 0)%N then
      (if (byte_at b 1 =? 0)%N then Wide UTF32BE else Wide UTF16BE)
    else if (byte_at b 1 =? 0)%N then
      (if (byte_at b 2 =? 0)%N && (byte_at b 3 =? 0)%N then Wide UTF32LE else Wide UTF16LE)
    else UTF8
  else if (String.length b =? 2)%nat then
    if (byte_at b 0 =? 0)%N then Wide UTF16BE
    else if (byte_at b 1 =? 0)%N then Wide UTF16LE
    else UTF8
  else UTF8.

(** [b.decode(detect_encoding(b), 'surrogatepass')] *)
Definition decode_detected `{Host} (b : string) : outcome string :=
  match detect_encoding b with
  | UTF8 =>
      if utf8_ok true 0 128 191 b then Return b else Raise UnicodeDecodeError
  | UTF8SIG =>
      match PyStr.strip_prefix bom_utf8 b with
      | Some rest => if utf8_ok true 0 128 191 rest then Return rest else Raise UnicodeDecodeError
      | None => Raise UnicodeDecodeError
      end
  | Wide w =>
      match decode_wide w b with
      | Some text => Return text
      | None => Raise UnicodeDecodeError
      end
  end.

(** The UTF-8 encoding of a code point. *)
Definition encode_utf8 (cp : N) : string :=
  (if cp <? 128 then PyStr.of_bytes [cp]
   else if cp <? 2048 then PyStr.of_bytes [192 + cp / 64; 128 + cp mod 64]
   else if cp <? 65536 then
     PyStr.of_bytes [224 + cp / 4096; 128 + cp / 64 mod 64; 128 + cp mod 64]
   else
     PyStr.of_bytes [240 + cp / 262144; 128 + cp / 4096 mod 64;
                     128 + cp / 64 mod 64; 128 + cp mod 64])%N.

(** *** The scanner *)

Definition is_json_space (c : ascii) : bool :=
  let b := PyStr.code c in ((b =? 32) || (b =? 9) || (b =? 10) || (b =? 13))%N.

Fixpoint skip_space (s : string) : string :=
  match s with
  | String c s' => if is_json_space c then skip_space s' else s
  | EmptyString => s
  end.

Definition hex_value (c : ascii) : option N :=
  let b := PyStr.code c in
  (if (48 <=? b) && (b <=? 57) then Some (b - 48)
   else if (65 <=? b) && (b <=? 70) then Some (b - 55)
   else if (97 <=? b) && (b <=? 102) then Some (b - 87)
   else None)%N.

(** Four hexadecimal digits. *)
Definition hex4 (s : string) : option (N * string) :=
  match s with
  | String a (String b (String c (String d rest))) =>
      match hex_value a, hex_value b, hex_value c, hex_value d with
      | Some x, Some y, Some z, Some w => Some (((x * 16 + y) * 16 + z) * 16 + w, rest)%N
      | _, _, _, _ => None
      end
  | _ => None
  end.

(** A low surrogate written [\uXXXX]. *)
Definition low_surrogate (s : string) : option (N * string) :=
  match s with
  | String a (String b rest) =>
      if Ascii.eqb a "\" && Ascii.eqb b "u" then
        match hex4 rest with
        | Some (u, rest') => if ((56320 <=? u) && (u <=? 57343))%N then Some (u, rest') else None
        | None => None
        end
      else None
  | _ => None
  end.

Definition simple_escape (c : ascii) : option ascii :=
  if Ascii.eqb c PyStr.double_quote then Some PyStr.double_quote
  else if Ascii.eqb c "\" then Some "\"%char
  else if Ascii.eqb c "/" then Some "/"%char
  else if Ascii.eqb c "b" then Some (ascii_of_N 8)
  else if Ascii.eqb c "f" then Some (ascii_of_N 12)
  else if Ascii.eqb c "n" then Some (ascii_of_N 10)
  else if Ascii.eqb c "r" then Some (ascii_of_N 13)
  else if Ascii.eqb c "t" then Some (ascii_of_N 9)
  else None.

(** The text of a string literal after its opening quote, and what
    follows the closing quote (strict mode: no raw control characters). *)
Fixpoint scanstring (fuel : nat) (s : string) : outcome (string * string) :=
  match fuel, s with
  | S fuel', String c s' =>
      if Ascii.eqb c PyStr.double_quote then Return (EmptyString, s')
      else if Ascii.eqb c "\" then
        match s' with
        | String e s'' =>
            if Ascii.eqb e "u" then
              match hex4 s'' with
              | Some (u, rest) =>
                  let '(cp, rest) :=
                    if ((55296 <=? u) && (u <=? 56319))%N then
                      match low_surrogate rest with
                      | Some (u2, rest') => ((65536 + (u - 55296) * 1024 + (u2 - 56320))%N, rest')
                      | None => (u, rest)
                      end
                    else (u, rest) in
                  do r <- scanstring fuel' rest;
                  Return (encode_utf8 cp +:+ fst r, snd r)
              | None => Raise JSONDecodeError
              end
            else
              match simple_escape e with
              | Some x => do r <- scanstring fuel' s''; Return (String x (fst r), snd r)
              | None => Raise JSONDecodeError
              end
        | EmptyString => Raise JSONDecodeError
        end
      else if (PyStr.code c <? 32)%N then Raise JSONDecodeError
      else do r <- scanstring fuel' s'; Return (String c (fst r), snd r)
  | _, _ => Raise JSONDecodeError
  end.

(** The integer part of a number: an optional minus sign, then a single
    zero or a run of digits (a leading zero ends the run). *)
Definition read_integer (s : string) : option (bool * Z * Z * string) :=
  let '(neg, s1) :=
    match s with
    | String "-" s' => (true, s')
    | _ => (false, s)
    end in
  match s1 with
  | String "0" s2 => Some (neg, 1, 0, s2)
  | _ =>
      let '(n, v, s2) := PyFloat.span_digits s1 0 0 in
      if n =? 0 then None else Some (neg, n, v, s2)
  end.

(** The optional fraction: a point and at least one digit. *)
Definition read_fraction (v : Z) (s : string) : option (Z * Z * string) :=
  match s with
  | String "." s' =>
      let '(n, v', s2) := PyFloat.span_digits s' 0 v in
      if n =? 0 then None else Some (n, v', s2)
  | _ => None
  end.

(** The optional exponent: [e] or [E], an optional sign and at least one
    digit. *)
Definition read_exponent (s : string) : option (Z * string) :=
  let '(ex, rest) := PyFloat.read_exponent s in
  if (String.length rest <? String.length s)%nat then Some (ex, rest) else None.

Definition read_number `{Host} (s : string) : option (outcome (json * string)) :=
  match read_integer s with
  | None => None
  | Some (neg, n, v, s1) =>
      let '(nfrac, v2, s2) :=
        match read_fraction v s1 with
        | Some r => r
        | None => (0, v, s1)
        end in
      match read_exponent s2, nfrac with
      | None, 0 =>
          if negb (Nat.eqb int_max_str_digits 0) && (Z.of_nat int_max_str_digits <? n)
          then Some (Raise ValueError)
          else Some (Return (JInt (if neg then - v else v), s1))
      | None, _ => Some (Return (JFloat (PyFloat.of_decimal neg v2 (- nfrac)), s2))
      | Some (ex, s3), _ => Some (Return (JFloat (PyFloat.of_decimal neg v2 (ex - nfrac)), s3))
      end
  end.

(** [d[k] = v] on a dictionary kept in insertion order *)
Fixpoint dict_set (k : string) (v : json) (d : list (string * json)) : list (string * json) :=
  match d with
  | [] => [(k, v)]
  | (k', v') :: d' =>
      if String.eqb k k' then (k, v) :: d' else (k', v') :: dict_set k v d'
  end.

Definition keyword (w : string) (v : json) (s : string) : option (outcome (json * string)) :=
  match PyStr.strip_prefix w s with
  | Some rest => Some (Return (v, rest))
  | None => None
  end.

Definition first_of {A : Type} (a b : option A) : option A :=
  match a with Some _ => a | None => b end.

(** [scan_once]: one JSON value at the head of [s].  [depth] is the number
    of containers that may still be entered. *)
Fixpoint scan_once `{Host} (fuel depth : nat) (s : string) {struct fuel} : outcome (json * string) :=
  match fuel with
  | O => Raise RecursionError
  | S fuel' =>
      match s with
      | EmptyString => Raise JSONDecodeError
      | String c s' =>
          if Ascii.eqb c PyStr.double_quote then
            do r <- scanstring (String.length s) s'; Return (JStr (fst r), snd r)
          else if Ascii.eqb c "{" then
            match depth with
            | O => Raise RecursionError
            | S depth' =>
                match skip_space s' with
                | String "}" rest => Return (JObj [], rest)
                | body => scan_members fuel' depth' body []
                end
            end
          else if Ascii.eqb c "[" then
            match depth with
            | O => Raise RecursionError
            | S depth' =>
                match skip_space s' with
                | String "]" rest => Return (JArr [], rest)
                | body => scan_items fuel' depth' body []
                end
            end
          else
            match first_of (keyword "null" JNull s)
                 (first_of (keyword "true" (JBool true) s)
                 (first_of (keyword "false" (JBool false) s)
                 (first_of (read_number s)
                 (first_of (keyword "NaN" (JFloat PyFloat.nan) s)
                 (first_of (keyword "Infinity" (JFloat (PyFloat.inf false)) s)
                           (keyword "-Infinity" (JFloat (PyFloat.inf true)) s)))))) with
            | Some r => r
            | None => Raise JSONDecodeError
            end
      end
  end

with scan_items `{Host} (fuel depth : nat) (s : string) (acc : list json) {struct fuel}
  : outcome (json * string) :=
  match fuel with
  | O => Raise RecursionError
  | S fuel' =>
      do r <- scan_once fuel' depth s;
      let acc := (acc ++ [fst r])%list in
      match skip_space (snd r) with
      | String "]" rest => Return (JArr acc, rest)
      | String "," rest => scan_items fuel' depth (skip_space rest) acc
      | _ => Raise JSONDecodeError
      end
  end

with scan_members `{Host} (fuel depth : nat) (s : string) (acc : list (string * json)) {struct fuel}
  : outcome (json * string) :=
  match fuel with
  | O => Raise RecursionError
  | S fuel' =>
      match s with
      | String c s' =>
          if Ascii.eqb c PyStr.double_quote then
            do k <- scanstring (String.length s) s';
            match skip_space (snd k) with
            | String ":" rest =>
                do r <- scan_once fuel' depth (skip_space rest);
                let acc := dict_set (fst k) (fst r) acc in
                match skip_space (snd r) with
                | String "}" rest' => Return (JObj acc, rest')
                | String "," rest' => scan_members fuel' depth (skip_space rest') acc
                | _ => Raise JSONDecodeError
                end
            | _ => Raise JSONDecodeError
            end
          else Raise JSONDecodeError
      | EmptyString => Raise JSONDecodeError
      end
  end.

(** [JSONDecoder.decode]: one value between optional blanks, nothing else. *)
Definition decode `{Host} (s : string) : outcome json :=
  do r <- scan_once (2 * String.length s + 2) recursion_limit (skip_space s);
  match skip_space (snd r) with
  | EmptyString => Return (fst r)
  | _ => Raise JSONDecodeError
  end.

(** [json.loads(s)] for a [str] *)
Definition loads_str `{Host} (s : string) : outcome json :=
  match PyStr.strip_prefix bom_utf8 s with
  | Some _ => Raise JSONDecodeError
  | None => decode s
  end.

(** [json.loads(b)] for [bytes] *)
Definition loads_bytes `{Host} (b : string) : outcome json :=
  do text <- decode_detected b;
  decode text.

End Json.

(** ** [load_json_file] *)

(** The messages the program hands to [st.error]. *)
Inductive diagnostic :=
  | ErrorLoadingFile (e : exn)   (* "Error loading file: ..." *)
  | NoValidJsonData.             (* "No valid JSON data found in the file" *)

(** The loop over the lines of a JSONL file: a line that is not blank is
    decoded and appended; a line the decoder rejects is passed over. *)
Fixpoint load_lines `{Host} (lines : list string) (json_objects : list json)
  : outcome (list json) :=
  match lines with
  | [] => Return json_objects
  | line :: lines' =>
      if negb (String.eqb (PyStr.strip line) "") then
        match Json.loads_str line with
        | Return v => load_lines lines' (json_objects ++ [v])%list
        | Raise JSONDecodeError => load_lines lines' json_objects
        | Raise e => Raise e
        end
      else load_lines lines' json_objects
  end.

(** The body of the outer [try] of [load_json_file]. *)
Definition load_json_file_try `{Host} (content : string) : outcome (list json) :=
  match Json.loads_bytes content with
  | Return data =>
      match data with
      | JArr items => Return items
      | _ => Return [data]
      end
  | Raise JSONDecodeError =>
      do text <- Json.decode_utf8 content;
      let lines := PyStr.split PyStr.line_feed (PyStr.strip text) in
      load_lines lines []
  | Raise e => Raise e
  end.

(** [load_json_file(file)], for the bytes [file.read()] returns: the list
    it returns and the diagnostics it shows. *)
Definition load_json_file `{Host} (content : string) : list json * list diagnostic :=
  match load_json_file_try content with
  | Return data => (data, [])
  | Raise e => ([], [ErrorLoadingFile e])
  end.

(** The upload branch of [main] up to the construction of the data frame:
    the data to work on, if any, and every diagnostic shown. *)
Definition load_upload `{Host} (content : string) : option (list json) * list diagnostic :=
  let '(data, shown) := load_json_file content in
  match data with
  | [] => (None, shown ++ [NoValidJsonData])%list
  | _ => (Some data, shown)
  end.


(** The lines of a JSONL text and the records they hold: blank lines and
    lines the decoder rejects contribute nothing, every other line one
    record, in the order of the lines. *)
Inductive lines_hold `{Host} : list string -> list json -> Prop :=
  | hold_nil : lines_hold [] []
  | hold_blank line lines records :
      PyStr.strip line = "" ->
      lines_hold lines records ->
      lines_hold (line :: lines) records
  | hold_invalid line lines records :
      PyStr.strip line <> "" ->
      Json.loads_str line = Raise JSONDecodeError ->
      lines_hold lines records ->
      lines_hold (line :: lines) records
  | hold_valid line lines record records :
      PyStr.strip line <> "" ->
      Json.loads_str line = Return record ->
      lines_hold lines records ->
      lines_hold (line :: lines) (record :: records).


(** ** Data frames *)

(** A frame has named columns and rows; a row gives every column a cell. *)
Record DataFrame := {
  columns : list string;
  rows : list (gmap string pyval)
}.

Definition cell (r : gmap string pyval) (col : string) : pyval :=
  default NaN (r !! col).

(** ['col' in df.columns] *)
Definition has_column (df : DataFrame) (col : string) : bool :=
  bool_decide (col ∈ columns df).

(** [df[col]] *)
Definition column (df : DataFrame) (col : string) : list pyval :=
  map (fun r => cell r col) (rows df).

(** [df[mask]] for the mask a predicate on rows computes *)
Definition select (df : DataFrame) (mask : gmap string pyval -> bool) : DataFrame :=
  {| columns := columns df; rows := filter (fun r => Is_true (mask r)) (rows df) |}.

(** [series.dropna()] *)
Definition dropna (values : list pyval) : list pyval :=
  filter (fun v => Is_true (negb (isna v))) values.

(** *** [pd.DataFrame(data)] for a list of flat JSON objects *)

Definition scalar_of_json (j : json) : option pyval :=
  match j with
  | JNull => Some VNone
  | JBool b => Some (VBool b)
  | JInt z => Some (VInt z)
  | JFloat x => Some (VFloat x)
  | JStr s => Some (VStr s)
  | JArr _ | JObj _ => None
  end.

Fixpoint members_of_json (members : list (string * json)) : option (list (string * pyval)) :=
  match members with
  | [] => Some []
  | (k, j) :: members' =>
      match scalar_of_json j, members_of_json members' with
      | Some v, Some rest => Some ((k, v) :: rest)
      | _, _ => None
      end
  end.

(** An instrument record: a JSON object whose members are scalars. *)
Definition record_of_json (j : json) : option (list (string * pyval)) :=
  match j with
  | JObj members => members_of_json members
  | _ => None
  end.

Fixpoint records_of_json (data : list json) : option (list (list (string * pyval))) :=
  match data with
  | [] => Some []
  | j :: data' =>
      match record_of_json j, records_of_json data' with
      | Some r, Some rest => Some (r :: rest)
      | _, _ => None
      end
  end.

Fixpoint assoc (k : string) (r : list (string * pyval)) : option pyval :=
  match r with
  | [] => None
  | (k', v) :: r' => if String.eqb k k' then Some v else assoc k r'
  end.

(** The keys of the records, each once, in the order of first appearance. *)
Definition add_keys (seen : list string) (r : list (string * pyval)) : list string :=
  fold_left (fun acc kv => if bool_decide (fst kv ∈ acc) then acc else (acc ++ [fst kv])%list) r seen.

Definition union_keys (records : list (list (string * pyval))) : list string :=
  fold_left add_keys records [].

Definition is_str (v : pyval) : bool := match v with VStr _ => true | _ => false end.
Definition is_bool (v : pyval) : bool := match v with VBool _ => true | _ => false end.
Definition is_int (v : pyval) : bool := match v with VInt _ => true | _ => false end.
Definition is_none (v : pyval) : bool := match v with VNone => true | _ => false end.

(** The storage pandas chooses for a column of scalars: a column holding a
    string or a boolean, only integers, or only [None] keeps its values;
    any other column becomes [float64], where an integer is converted and
    [None] is NaN. *)
Definition infer_objects (cells : list pyval) : list pyval :=
  if existsb is_str cells || existsb is_bool cells
     || forallb is_int cells || forallb is_none cells
  then cells
  else map (fun v => match v with
                     | VInt z => VFloat (PyFloat.of_Z z)
                     | VNone => NaN
                     | _ => v
                     end) cells.

Definition frame_of_records (records : list (list (string * pyval))) : DataFrame :=
  let cols := union_keys records in
  let stored :=
    map (fun col => (col, infer_objects (map (fun r => default NaN (assoc col r)) records))) cols in
  {| columns := cols;
     rows := map (fun i => list_to_map (map (fun cs => (fst cs, nth i (snd cs) NaN)) stored))
                 (seq 0 (length records)) |}.

(** [pd.DataFrame(data)]; [None] when [data] is not a list of instrument
    records. *)
Definition make_frame (data : list json) : option DataFrame :=
  option_map frame_of_records (records_of_json data).

(** *** Column operations *)

(** [str(v)], which [series.astype(str)] applies to every cell *)
Definition astype_str `{Host} (v : pyval) : string :=
  match v with
  | VNone => "None"
  | VBool b => if b then "True" else "False"
  | VInt z => PyStr.of_Z z
  | VFloat x => if PyFloat.is_nan x then "nan" else float_repr x
  | VStr s => s
  end.

(** [pd.to_numeric(series, errors='coerce')] on one cell, as a float: what
    does not read as a number is NaN.  For a column that [pd.to_numeric]
    keeps as integers, see [integer_values], this is the float an integer
    becomes where the code converts it with [float] or compares it with
    one. *)
Definition to_numeric (v : pyval) : PyFloat.float :=
  match v with
  | VNone => PyFloat.nan
  | VBool b => PyFloat.of_Z (int_of_bool b)
  | VInt z => PyFloat.of_Z z
  | VFloat x => x
  | VStr s => default PyFloat.nan (PyFloat.of_ascii false s)
  end.

Definition numeric_values (df : DataFrame) (col : string) : list PyFloat.float :=
  filter (fun x => Is_true (negb (PyFloat.is_nan x))) (map to_numeric (column df col)).

(** [series.unique()] on floats: the first of each run of equal values *)
Fixpoint unique_floats (values : list PyFloat.float) : list PyFloat.float :=
  match values with
  | [] => []
  | x :: values' =>
      x :: filter (fun y => Is_true (negb (PyFloat.eqb x y))) (unique_floats values')
  end.

Definition float_min (values : list PyFloat.float) : PyFloat.float :=
  match values with
  | [] => PyFloat.nan
  | x :: values' => fold_left (fun m y => if PyFloat.ltb y m then y else m) values' x
  end.

Definition float_max (values : list PyFloat.float) : PyFloat.float :=
  match values with
  | [] => PyFloat.nan
  | x :: values' => fold_left (fun m y => if PyFloat.ltb m y then y else m) values' x
  end.

(** The integer a cell stands for in [pd.to_numeric]: an [int], a [bool],
    or a string that is a decimal integer, with an optional sign and
    surrounded by optional blanks. *)
Definition as_integer (v : pyval) : option Z :=
  match v with
  | VInt z => Some z
  | VBool b => Some (int_of_bool b)
  | VStr s =>
      let '(neg, body) := PyFloat.read_sign (PyFloat.c_strip s) in
      let '(n, v, rest) := PyFloat.span_digits body 0 0 in
      if (0 <? n) && String.eqb rest "" then Some (if neg then - v else v) else None
  | VNone | VFloat _ => None
  end.

Fixpoint integers_of (cells : list pyval) : option (list Z) :=
  match cells with
  | [] => Some []
  | v :: cells' =>
      match as_integer v, integers_of cells' with
      | Some z, Some zs => Some (z :: zs)
      | _, _ => None
      end
  end.

(** Whether integers fit one integer column: all of them in the range of
    [int64], or all of them in that of [uint64]. *)
Definition fits_int64 (zs : list Z) : bool :=
  forallb (fun z => (- 2 ^ 63 <=? z) && (z <? 2 ^ 63)) zs
  || forallb (fun z => (0 <=? z) && (z <? 2 ^ 64)) zs.

(** The values of [pd.to_numeric(series, errors='coerce')] when it yields
    integers: every cell stands for an integer and they fit one integer
    column.  A cell that is a float, null, or a string that is no integer
    makes it yield floats, as do integers that do not fit. *)
Definition integer_values (cells : list pyval) : option (list Z) :=
  match integers_of cells with
  | Some zs => if fits_int64 zs then Some zs else None
  | None => None
  end.

(** [len(pd.to_numeric(series, errors='coerce').dropna().unique())]:
    integers are told apart as integers, floats as floats. *)
Definition numeric_nunique (cells : list pyval) : nat :=
  match integer_values cells with
  | Some zs => length (remove_dups zs)
  | None =>
      length (unique_floats
                (filter (fun x => Is_true (negb (PyFloat.is_nan x))) (map to_numeric cells)))
  end.

(** [series.min()] and [series.max()] on integers *)
Definition list_min (zs : list Z) : Z :=
  match zs with
  | [] => 0
  | z :: zs' => fold_left Z.min zs' z
  end.

Definition list_max (zs : list Z) : Z :=
  match zs with
  | [] => 0
  | z :: zs' => fold_left Z.max zs' z
  end.

(** [int(x)] *)
Definition py_int (x : PyFloat.float) : outcome Z :=
  match PyFloat.trunc x with
  | Some z => Return z
  | None => Raise (if PyFloat.is_nan x then ValueError else OverflowError)
  end.

(** *** [series.str.contains(pat, case=False, na=False)] *)

(** The characters with a meaning of their own in a regular expression. *)
Definition is_meta (c : ascii) : bool :=
  PyStr.contains (String c EmptyString) ".^$*+?{}[]\|()".

Fixpoint is_literal (pat : string) : bool :=
  match pat with
  | EmptyString => true
  | String c pat' => negb (is_meta c) && is_literal pat'
  end.

(** The pattern is compiled once, as a regular expression that ignores
    case, and searched for in every string.  A pattern of ASCII characters
    none of which is special matches where it occurs as a substring up to
    case; on ASCII text that is decided here, everything else by the [re]
    engine of the host.  A pattern [re.compile] rejects raises. *)
Definition str_contains `{Host} (pat : string) : outcome (string -> bool) :=
  if is_literal pat && PyStr.is_ascii pat then
    Return (fun text =>
              if PyStr.is_ascii text then PyStr.contains (PyStr.lower pat) (PyStr.lower text)
              else re_search_ignorecase pat text)
  else if re_valid pat then Return (re_search_ignorecase pat)
  else Raise ReError.

(** ** The sidebar filters of [main] *)

Inductive weekly_choice := AllOptions | WeeklyOnly | MonthlyOnly.

(** What the user has set on the widgets of the sidebar.  A choice that a
    select box does not offer, or a range outside the bounds of a slider,
    stands for the widget in its initial state. *)
Record Selection := {
  pick_exchange : string;
  pick_type : string;
  pick_segment : string;
  pick_underlying : string;
  pick_lot : option (Z * Z);
  pick_strike : option (PyFloat.float * PyFloat.float);
  pick_weekly : weekly_choice;
  search_term : string
}.

(** [st.sidebar.selectbox(label, options)]: the option chosen, the first
    one initially. *)
Definition selectbox (options : list string) (pick : string) : string :=
  if bool_decide (pick ∈ options) then pick else default "" (head options).

(** [st.sidebar.slider(label, min_value, max_value, value=(min, max))] on
    integers: the range chosen within the bounds, all of it initially. *)
Definition slider_int (min_value max_value : Z) (pick : option (Z * Z)) : Z * Z :=
  match pick with
  | Some (lo, hi) =>
      if (min_value <=? lo) && (lo <=? hi) && (hi <=? max_value) then (lo, hi)
      else (min_value, max_value)
  | None => (min_value, max_value)
  end.

(** The same slider on floats. *)
Definition slider_float (min_value max_value : PyFloat.float)
    (pick : option (PyFloat.float * PyFloat.float)) : PyFloat.float * PyFloat.float :=
  match pick with
  | Some (lo, hi) =>
      if PyFloat.leb min_value lo && PyFloat.leb lo hi && PyFloat.leb hi max_value then (lo, hi)
      else (min_value, max_value)
  | None => (min_value, max_value)
  end.

(** The values a select box is built from: the cells of the column that
    are not null, as strings, without those that are blank. *)
Definition category_values `{Host} (df : DataFrame) (col : string) : list string :=
  filter (fun v => Is_true (negb (String.eqb (PyStr.strip v) "")))
         (map astype_str (dropna (column df col))).

(** [['All'] + sorted(values.unique().tolist())] *)
Definition category_options (values : list string) : list string :=
  "All" :: merge_sort String.le (remove_dups values).

(** One of the four blocks "Exchange filter" to "Underlying type filter":
    the options the select box shows, if it is shown, and the frame that
    goes on to the next block. *)
Definition category_filter `{Host} (col pick : string) (df : DataFrame)
  : option (list string) * DataFrame :=
  if has_column df col then
    let values := category_values df col in
    match values with
    | [] => (None, df)
    | _ =>
        let options := category_options values in
        let selected := selectbox options pick in
        if negb (String.eqb selected "All") then
          (Some options,
           select df (fun r => String.eqb (PyStr.strip (astype_str (cell r col))) selected))
        else (Some options, df)
    end
  else (None, df).

(** The block "Lot size filter".  Where [pd.to_numeric] yields integers,
    the bounds of the slider are the least and the greatest of them, and
    a row is kept when its integer lies within the range, all compared as
    integers.  Where it yields floats, the bounds are the least and the
    greatest float cut off by [int], and a row is kept when its float lies
    within the range, the ends of the range compared as floats. *)
Definition lot_size_filter (pick : option (Z * Z)) (df : DataFrame)
  : outcome (option (Z * Z) * DataFrame) :=
  if has_column df "lot_size" then
    match integer_values (column df "lot_size") with
    | Some lot_size_values =>
        if (1 <? length (remove_dups lot_size_values))%nat then
          let min_lot := list_min lot_size_values in
          let max_lot := list_max lot_size_values in
          if negb (min_lot =? max_lot) then
            let lot_range := slider_int min_lot max_lot pick in
            Return (Some (min_lot, max_lot),
                    select df (fun r =>
                      match as_integer (cell r "lot_size") with
                      | Some z => (fst lot_range <=? z) && (z <=? snd lot_range)
                      | None => false
                      end))
          else Return (None, df)
        else Return (None, df)
    | None =>
        let lot_size_values := numeric_values df "lot_size" in
        if (1 <? length (unique_floats lot_size_values))%nat then
          do min_lot <- py_int (float_min lot_size_values);
          do max_lot <- py_int (float_max lot_size_values);
          if negb (min_lot =? max_lot) then
            let lot_range := slider_int min_lot max_lot pick in
            Return (Some (min_lot, max_lot),
                    select df (fun r =>
                      let x := to_numeric (cell r "lot_size") in
                      PyFloat.leb (PyFloat.of_Z (fst lot_range)) x
                      && PyFloat.leb x (PyFloat.of_Z (snd lot_range))
                      && negb (PyFloat.is_nan x)))
          else Return (None, df)
        else Return (None, df)
    end
  else Return (None, df).

(** The block "Strike price filter".  The distinct values are counted as
    [pd.to_numeric] yields them, integers as integers.  The bounds are
    floats, [float(values.min())] and [float(values.max())]: the least and
    the greatest of the values as floats, the conversion of an integer to
    a float keeping the order.  The rows are compared with the floats of
    the range as floats. *)
Definition strike_price_filter (pick : option (PyFloat.float * PyFloat.float)) (df : DataFrame)
  : option (PyFloat.float * PyFloat.float) * DataFrame :=
  if has_column df "strike_price" then
    let strike_price_values := numeric_values df "strike_price" in
    if (1 <? numeric_nunique (column df "strike_price"))%nat then
      let min_strike := float_min strike_price_values in
      let max_strike := float_max strike_price_values in
      if negb (PyFloat.eqb min_strike max_strike) then
        let strike_range := slider_float min_strike max_strike pick in
        (Some (min_strike, max_strike),
         select df (fun r =>
           let x := to_numeric (cell r "strike_price") in
           PyFloat.leb (fst strike_range) x
           && PyFloat.leb x (snd strike_range)
           && negb (PyFloat.is_nan x)))
      else (None, df)
    else (None, df)
  else (None, df).

(** The block "Weekly filter": whether the radio buttons are shown, and
    the frame that goes on. *)
Definition weekly_filter (pick : weekly_choice) (df : DataFrame) : bool * DataFrame :=
  if has_column df "weekly" then
    match dropna (column df "weekly") with
    | [] => (false, df)
    | _ =>
        match pick with
        | WeeklyOnly => (true, select df (fun r => py_eq (cell r "weekly") (VBool true)))
        | MonthlyOnly => (true, select df (fun r => py_eq (cell r "weekly") (VBool false)))
        | AllOptions => (true, df)
        end
    end
  else (false, df).

(** The block "Search filter". *)
Definition search_filter `{Host} (term : string) (df : DataFrame) : outcome DataFrame :=
  if negb (String.eqb term "") && has_column df "trading_symbol" then
    do found <- str_contains term;
    Return (select df (fun r => found (astype_str (cell r "trading_symbol"))))
  else Return df.

(** What the sidebar offers: the options of each select box, the bounds
    of each slider, whether the weekly buttons are there; [None] for a
    widget that is not shown. *)
Record Controls := {
  exchanges : option (list string);
  instrument_types : option (list string);
  segments : option (list string);
  underlying_types : option (list string);
  lot_bounds : option (Z * Z);
  strike_bounds : option (PyFloat.float * PyFloat.float);
  weekly_offered : bool
}.

(** The section "Sidebar filters" of [main], from the frame built from
    the upload to the frame that is displayed: each block works on the
    frame the block before it has left. *)
Definition sidebar_filters `{Host} (sel : Selection) (df : DataFrame)
  : outcome (Controls * DataFrame) :=
  let '(c_exchange, df) := category_filter "exchange" (pick_exchange sel) df in
  let '(c_type, df) := category_filter "instrument_type" (pick_type sel) df in
  let '(c_segment, df) := category_filter "segment" (pick_segment sel) df in
  let '(c_underlying, df) := category_filter "underlying_type" (pick_underlying sel) df in
  do lot <- lot_size_filter (pick_lot sel) df;
  let '(c_lot, df) := lot in
  let '(c_strike, df) := strike_price_filter (pick_strike sel) df in
  let '(c_weekly, df) := weekly_filter (pick_weekly sel) df in
  do df <- search_filter (search_term sel) df;
  Return ({| exchanges := c_exchange; instrument_types := c_type; segments := c_segment;
             underlying_types := c_underlying; lot_bounds := c_lot;
             strike_bounds := c_strike; weekly_offered := c_weekly |}, df).

(** The frame that is displayed and exported. *)
Definition filtered `{Host} (sel : Selection) (df : DataFrame) : outcome DataFrame :=
  do r <- sidebar_filters sel df; Return (snd r).

(** The widgets shown. *)
Definition controls `{Host} (sel : Selection) (df : DataFrame) : outcome Controls :=
  do r <- sidebar_filters sel df; Return (fst r).

(** The selection of a sidebar nobody has touched. *)
Definition untouched : Selection :=
  {| pick_exchange := "All"; pick_type := "All"; pick_segment := "All";
     pick_underlying := "All"; pick_lot := None; pick_strike := None;
     pick_weekly := AllOptions; search_term := "" |}.

(** ** Display and export *)

Definition available_columns : list string :=
  [ "instrument_key"; "name"; "trading_symbol"; "instrument_type"; "exchange"; "segment";
    "underlying_symbol"; "underlying_type"; "expiry_date"; "strike_price_formatted";
    "lot_size"; "minimum_lot"; "tick_size"; "exchange_token"; "weekly" ].

(** [df[new] = df[col].apply(f)] *)
Definition assign_apply (df : DataFrame) (new col : string) (f : pyval -> string) : DataFrame :=
  {| columns := if bool_decide (new ∈ columns df) then columns df else (columns df ++ [new])%list;
     rows := map (fun r => <[new := VStr (f (cell r col))]> r) (rows df) |}.

(** [df[cols]] *)
Definition project (df : DataFrame) (cols : list string) : DataFrame :=
  {| columns := cols;
     rows := map (fun r => list_to_map (map (fun col => (col, cell r col)) cols)) (rows df) |}.

(** The table [st.dataframe] receives. *)
Definition display_table `{Host} (df : DataFrame) : DataFrame :=
  let display_df := df in
  let display_df :=
    if has_column display_df "expiry"
    then assign_apply display_df "expiry_date" "expiry" convert_timestamp
    else display_df in
  let display_df :=
    if has_column display_df "strike_price"
    then assign_apply display_df "strike_price_formatted" "strike_price" format_currency
    else display_df in
  let display_columns := List.filter (has_column display_df) available_columns in
  project display_df display_columns.

(** [df.to_csv(index=False)], as the header and the cells of each record;
    how a cell is written out as text is left aside. *)
Definition to_csv (df : DataFrame) : list string * list (list pyval) :=
  (columns df, map (fun r => map (cell r) (columns df)) (rows df)).


(** [df.to_dict('records')]: every row as the list of its cells, by
    column. *)
Definition to_dict_records (df : DataFrame) : list (list (string * pyval)) :=
  map (fun r => map (fun col => (col, cell r col)) (columns df)) (rows df).

(** [term] occurs in [text] when the case of letters is ignored: a part
    of [text] equals [term] once both are in lower case. *)
Definition occurs_ignoring_case (term text : string) : Prop :=
  exists pre mid post,
    text = pre +:+ mid +:+ post /\ PyStr.lower mid = PyStr.lower term.

(** ** Relations between frames *)

(** [out] has the columns of [df] and some of its rows, unchanged and in
    the same order. *)
Definition narrows (out df : DataFrame) : Prop :=
  columns out = columns df /\ rows out `sublist_of` rows df.

(** The frame the six blocks before "Weekly filter" leave. *)
Definition before_weekly `{Host} (sel : Selection) (df : DataFrame) : outcome DataFrame :=
  let df := snd (category_filter "exchange" (pick_exchange sel) df) in
  let df := snd (category_filter "instrument_type" (pick_type sel) df) in
  let df := snd (category_filter "segment" (pick_segment sel) df) in
  let df := snd (category_filter "underlying_type" (pick_underlying sel) df) in
  do lot <- lot_size_filter (pick_lot sel) df;
  Return (snd (strike_price_filter (pick_strike sel) (snd lot))).

(** A selection with another choice of the weekly buttons, and with
    another search term. *)
Definition with_weekly (sel : Selection) (choice : weekly_choice) : Selection :=
  {| pick_exchange := pick_exchange sel; pick_type := pick_type sel;
     pick_segment := pick_segment sel; pick_underlying := pick_underlying sel;
     pick_lot := pick_lot sel; pick_strike := pick_strike sel;
     pick_weekly := choice; search_term := search_term sel |}.

Definition with_search (sel : Selection) (term : string) : Selection :=
  {| pick_exchange := pick_exchange sel; pick_type := pick_type sel;
     pick_segment := pick_segment sel; pick_underlying := pick_underlying sel;
     pick_lot := pick_lot sel; pick_strike := pick_strike sel;
     pick_weekly := pick_weekly sel; search_term := term |}.

Definition with_exchange (sel : Selection) (choice : string) : Selection :=
  {| pick_exchange := choice; pick_type := pick_type sel;
     pick_segment := pick_segment sel; pick_underlying := pick_underlying sel;
     pick_lot := pick_lot sel; pick_strike := pick_strike sel;
     pick_weekly := pick_weekly sel; search_term := search_term sel |}.

(** What a select box on a column offers when it works on [df]. *)
Definition category_control `{Host} (df : DataFrame) (col : string) : option (list string) :=
  if has_column df col then
    match category_values df col with
    | [] => None
    | values => Some (category_options values)
    end
  else None.

(** ** The shape of the rendered text *)

Module Shape.

Fixpoint all_digits (s : string) : bool :=
  match s with
  | EmptyString => true
  | String c s' => PyFloat.is_digit c && all_digits s'
  end.

(** Groups of three digits, each after a comma, then a point and two
    digits to the end. *)
Fixpoint groups (l : list ascii) : bool :=
  match l with
  | sep :: a :: b :: rest =>
      if Ascii.eqb sep "," then
        match rest with
        | c :: rest' =>
            PyFloat.is_digit a && PyFloat.is_digit b && PyFloat.is_digit c && groups rest'
        | [] => false
        end
      else if Ascii.eqb sep "." then
        match rest with
        | [] => PyFloat.is_digit a && PyFloat.is_digit b
        | _ :: _ => false
        end
      else false
  | _ => false
  end.

(** One to three digits, then [groups]. *)
Definition amount (l : list ascii) : bool :=
  match l with
  | a :: l1 =>
      PyFloat.is_digit a &&
      (groups l1 ||
       match l1 with
       | b :: l2 =>
           PyFloat.is_digit b &&
           (groups l2 ||
            match l2 with
            | c :: l3 => PyFloat.is_digit c && groups l3
            | [] => false
            end)
       | [] => false
       end)
  | [] => false
  end.

(** An amount with thousands separators and two decimals, and a minus
    sign before it or none: [1,234.50], [-0.05], [12.00]. *)
Definition money (s : string) : bool :=
  match list_ascii_of_string s with
  | c :: l => if Ascii.eqb c "-" then amount l else amount (c :: l)
  | [] => false
  end.

(** [n] digits and nothing else. *)
Definition digits_only (n : nat) (s : string) : bool :=
  Nat.eqb (String.length s) n && all_digits s.

(** A year of [n] digits, then [-MM-DD HH:MM:SS]. *)
Definition date_time_of (n : nat) (s : string) : bool :=
  digits_only n (substring 0 n s) && String.eqb (substring n 1 s) "-" &&
  digits_only 2 (substring (n + 1) 2 s) && String.eqb (substring (n + 3) 1 s) "-" &&
  digits_only 2 (substring (n + 4) 2 s) && String.eqb (substring (n + 6) 1 s) " " &&
  digits_only 2 (substring (n + 7) 2 s) && String.eqb (substring (n + 9) 1 s) ":" &&
  digits_only 2 (substring (n + 10) 2 s) && String.eqb (substring (n + 12) 1 s) ":" &&
  digits_only 2 (substring (n + 13) 2 s) && Nat.eqb (String.length s) (n + 15).


End Shape.

(** The frame to display for the records of an upload and a selection,
    as records. *)
Definition filtered_records `{Host} (sel : Selection) (records : list (list (string * pyval)))
  : outcome (list (list (string * pyval))) :=
  do out <- filtered sel (frame_of_records records);
  Return (to_dict_records out).

(** ** A host for the examples *)

Module Sample.

(** A float written out in full.  Python's [repr] gives the shortest text
    that reads back as the same float; for a whole number below [10^16]
    that is this text. *)
Definition repr_in_full (x : PyFloat.float) : string :=
  match x with
  | S754_nan => "nan"
  | S754_infinity s => if s then "-inf" else "inf"
  | S754_zero s => if s then "-0.0" else "0.0"
  | S754_finite s m e =>
      (if s then "-" else "") +:+
      (if 0 <=? e then PyStr.digits (Zpos m * 2 ^ e) +:+ ".0"
       else
         let n := Zpos m * 5 ^ (- e) in
         let whole := n / 10 ^ (- e) in
         let part := n mod 10 ^ (- e) in
         if part =? 0 then PyStr.digits whole +:+ ".0"
         else PyStr.digits whole +:+ "." +:+
              String.rev (PyStr.drop_while ["0"] (Z.to_nat (- e))
                            (String.rev (PyStr.zfill (Z.to_nat (- e)) (PyStr.digits part)))))
  end.

(** Indian Standard Time, the zone of the exchanges the data comes from;
    an [re] engine that takes literal patterns only; UTF-8 input only;
    CPython 3.11 on glibc, which does not pad the year. *)
Definition host : Host :=
  {| utcoffset := fun _ => 19800;
     float_repr := repr_in_full;
     float_of_unicode := fun _ => None;
     re_valid := is_literal;
     re_search_ignorecase := fun pat text => PyStr.contains (PyStr.lower pat) (PyStr.lower text);
     decode_wide := fun _ _ => None;
     recursion_limit := 1000;
     int_max_str_digits := 4300;
     strftime_pads_year := false |}.


(** JSON text written with apostrophes in the place of double quotes. *)
Fixpoint json_text (s : string) : string :=
  match s with
  | EmptyString => EmptyString
  | String c s' =>
      String (if Ascii.eqb c "'" then PyStr.double_quote else c) (json_text s')
  end.



(** A JSON upload: an array of two records. *)
Definition json_upload : string :=
  json_text "[{'exchange': 'NSE', 'lot_size': 50}, {'exchange': 'BSE', 'lot_size': 75}]".

(** The data set of the worked example of the specification. *)
Definition three_records : list (list (string * pyval)) :=
  [ [("exchange", VStr "NSE"); ("lot_size", VInt 50); ("weekly", VBool false)];
    [("exchange", VStr "BSE"); ("lot_size", VInt 75); ("weekly", VBool true)];
    [("exchange", VStr "NSE"); ("lot_size", VInt 50); ("weekly", VBool true)] ].

(** Records whose instrument type goes with the exchange. *)
Definition two_exchanges : list (list (string * pyval)) :=
  [ [("exchange", VStr "NSE"); ("instrument_type", VStr "FUT")];
    [("exchange", VStr "BSE"); ("instrument_type", VStr "CE")] ].

(** Records one of which has a lot size that is not a number. *)
Definition mixed_lots : list (list (string * pyval)) :=
  [ [("exchange", VStr "NSE"); ("lot_size", VInt 50)];
    [("exchange", VStr "BSE"); ("lot_size", VInt 75)];
    [("exchange", VStr "NSE"); ("lot_size", VStr "n/a")] ].

(** Records with booleans, numbers, a string and a null for [weekly]. *)
Definition weekly_mixed : list (list (string * pyval)) :=
  [ [("weekly", VBool true)]; [("weekly", VInt 1)]; [("weekly", VBool false)];
    [("weekly", VInt 0)]; [("weekly", VStr "yes")]; [("weekly", VNone)] ].

(** Records with the lot sizes 0.5 and 1.5. *)
Definition fractional_lots : list (list (string * pyval)) :=
  [ [("lot_size", VFloat (PyFloat.of_decimal false 5 (-1)))];
    [("lot_size", VFloat (PyFloat.of_decimal false 15 (-1)))] ].

(** Records without a trading symbol. *)
Definition unnamed : list (list (string * pyval)) :=
  [ [("name", VStr "NIFTY")]; [("name", VStr "BANKNIFTY")] ].

(** Records with trading symbols. *)
Definition symbols : list (list (string * pyval)) :=
  [ [("trading_symbol", VStr "NIFTY 27 NOV 36 FUT")];
    [("trading_symbol", VStr "Reliance")];
    [("trading_symbol", VStr "BankNifty FUT")] ].

(** The exchange NSE and weekly contracts only. *)
Definition nse_weekly : Selection :=
  with_weekly (with_exchange untouched "NSE") WeeklyOnly.

End Sample.

(** ** Proof automation *)

Create HintDb frames.

(** Case analysis on the comparisons inside [SFcompare]. *)
Ltac float_order :=
  unfold PyFloat.leb, PyFloat.ltb, SFleb, SFltb, SFcompare;
  repeat match goal with
         | |- context [Pos.compare_cont Eq ?a ?b] =>
             change (Pos.compare_cont Eq a b) with (Pos.compare a b)
         end;
  repeat match goal with
         | |- context [Z.compare ?a ?b] => destruct (Z.compare_spec a b)
         | |- context [Pos.compare ?a ?b] => destruct (Pos.compare_spec a b)
         end;
  simpl; intros; subst; try reflexivity; try discriminate; try lia.

(** ** The overview, the quick analysis and the raw view of [main] *)

(** [series.isna().all()] *)
Definition isna_all (values : list pyval) : bool := forallb isna values.

(** [series.unique()] on the cells of a column: the first of each group of
    equal values, equal in the sense of [==]. *)
Fixpoint unique_values (values : list pyval) : list pyval :=
  match values with
  | [] => []
  | v :: values' =>
      v :: filter (fun w => Is_true (negb (py_eq v w))) (unique_values values')
  end.

(** [series.nunique()]: the number of distinct values that are not null *)
Definition nunique (values : list pyval) : nat :=
  length (unique_values (dropna values)).

(** [df[col].nunique() if col in df.columns and not df[col].isna().all()
    else 0] *)
Definition unique_count (df : DataFrame) (col : string) : nat :=
  if has_column df col && negb (isna_all (column df col))
  then nunique (column df col)
  else 0%nat.

(** The four metrics of the section "Dataset Overview". *)
Record Overview := {
  total_records : nat;
  unique_instruments : nat;
  unique_exchanges : nat;
  unique_types : nat
}.

Definition dataset_overview (df : DataFrame) : Overview :=
  {| total_records := length (rows df);
     unique_instruments := unique_count df "name";
     unique_exchanges := unique_count df "exchange";
     unique_types := unique_count df "instrument_type" |}.

(** One more occurrence of [v] in a table of counts: the entry of the
    first key equal to [v] grows by one, or [v] is entered at the end. *)
Fixpoint count_one (v : pyval) (counts : list (pyval * nat)) : list (pyval * nat) :=
  match counts with
  | [] => [(v, 1%nat)]
  | (k, n) :: counts' =>
      if py_eq k v then (k, S n) :: counts' else (k, n) :: count_one v counts'
  end.

(** [series.value_counts()]: how often each value that is not null
    occurs.  pandas orders the entries by falling count; the bar chart is
    keyed by value, and the order of the entries is left aside here, where
    they stand in the order of first occurrence. *)
Definition value_counts (values : list pyval) : list (pyval * nat) :=
  fold_left (fun counts v => count_one v counts) (dropna values) [].

(** What the left column of the section "Quick Analysis" shows: the bar
    chart of the instrument types, or the note that there is no data,
    from the inner or from the outer [else]. *)
Inductive type_panel :=
  | TypeChart (type_counts : list (pyval * nat))
  | NoTypeData (inner : bool).

Definition instrument_type_panel (df : DataFrame) : type_panel :=
  if has_column df "instrument_type" && negb (isna_all (column df "instrument_type")) then
    let type_counts := value_counts (column df "instrument_type") in
    match type_counts with
    | [] => NoTypeData true
    | _ => TypeChart type_counts
    end
  else NoTypeData false.

(** What the expander "View Raw JSON Data" shows. *)
Inductive raw_item :=
  | RawJson (record : list (string * pyval))
  | RawDivider.

(** [df.head(n)] *)
Definition head_rows (n : nat) (df : DataFrame) : DataFrame :=
  {| columns := columns df; rows := take n (rows df) |}.

(** The loop [for i, record in enumerate(records)], from index [i] on:
    every record is shown, and a divider after it while [i < 4]. *)
Fixpoint raw_json_items (i : nat) (records : list (list (string * pyval))) : list raw_item :=
  match records with
  | [] => []
  | record :: records' =>
      (RawJson record :: (if (i <? 4)%nat then [RawDivider] else []))
      ++ raw_json_items (S i) records'
  end.

Definition raw_json_view (df : DataFrame) : list raw_item :=
  raw_json_items 0 (to_dict_records (head_rows 5 df)).

Definition is_raw_json (item : raw_item) : bool :=
  match item with RawJson _ => true | RawDivider => false end.

(** What a cell holds for the value [v] of the record: [v], or the float
    of the integer [v], or NaN for [None]. *)
Definition stored_as (v stored : pyval) : Prop :=
  stored = v \/
  (exists z, v = VInt z /\ stored = VFloat (PyFloat.of_Z z)) \/
  (v = VNone /\ stored = NaN).

(** The record an item of the raw view shows, if it is one. *)
Definition shown_record (item : raw_item) : option (list (string * pyval)) :=
  match item with RawJson record => Some record | RawDivider => None end.

(** Two entries of a table of counts with keys that are not equal. *)
Definition distinct_keys (a b : pyval * nat) : Prop := py_eq (fst a) (fst b) = false.

(** ** More sample data *)

Module Views.

(** Records with strike prices, one of which is not a number. *)
Definition strikes : list (list (string * pyval)) :=
  [ [("name", VStr "NIFTY"); ("strike_price", VInt 22000)];
    [("name", VStr "NIFTY"); ("strike_price", VStr "n/a")];
    [("name", VStr "BANKNIFTY"); ("strike_price", VInt 48000)] ].

(** A record with an expiry and a strike price. *)
Definition option_record : list (list (string * pyval)) :=
  [ [("trading_symbol", VStr "NIFTY 27 NOV 36 CE");
     ("expiry", VInt 2111423399000);
     ("strike_price", VFloat (PyFloat.of_decimal false 225005 (-1)))] ].

End Views.

(** * Properties *)

Example strip_example :
  PyStr.strip (PyStr.of_bytes [32; 9; 194; 160; 78; 83; 69; 32; 10]%N) = "NSE".
Proof. reflexivity. Qed.

Example split_example :
  PyStr.split PyStr.line_feed (PyStr.of_bytes [97; 10; 10; 98; 10]%N) = ["a"; ""; "b"; ""].
Proof. reflexivity. Qed.

Example of_Z_example : PyStr.of_Z (-1205) = "-1205" /\ PyStr.of_Z 0 = "0".
Proof. split; reflexivity. Qed.

Example float_examples :
  PyFloat.of_ascii true "0.1" = Some (S754_finite false 7205759403792794 (-56)) /\
  PyFloat.of_ascii true " 1_000.5e-1 " = PyFloat.of_ascii true "100.05" /\
  PyFloat.of_ascii true "1__0" = None /\
  PyFloat.of_ascii true "abc" = None /\
  PyFloat.of_ascii true "1e400" = Some (PyFloat.inf false) /\
  PyFloat.of_ascii true "2.5" = Some (S754_finite false 5629499534213120 (-51)) /\
  PyFloat.of_Z 1000 = S754_finite false 8796093022208000 (-43).
Proof. vm_compute. repeat split. Qed.

Example format_examples :
  option_map PyFloat.format_2f (PyFloat.of_ascii true "1234.5") = Some "1,234.50" /\
  option_map PyFloat.format_2f (PyFloat.of_ascii true "2.675") = Some "2.67" /\
  option_map PyFloat.format_2f (PyFloat.of_ascii true "-1234567.891") = Some "-1,234,567.89" /\
  option_map PyFloat.format_2f (PyFloat.of_ascii true "0.125") = Some "0.12" /\
  option_map PyFloat.format_2f (PyFloat.of_ascii true "-0.001") = Some "-0.00" /\
  option_map PyFloat.format_2f (PyFloat.of_ascii true "999.995") = Some "1,000.00" /\
  option_map PyFloat.format_2f (PyFloat.of_ascii true "1e21") = Some "1,000,000,000,000,000,000,000.00" /\
  PyFloat.format_2f (PyFloat.of_Z 123456) = "123,456.00".
Proof. vm_compute. repeat split. Qed.

(** ** Every block of the sidebar narrows the frame *)

Lemma narrows_refl df : narrows df df.
Proof. split; reflexivity. Qed.

Lemma narrows_trans a b c : narrows a b -> narrows b c -> narrows a c.
Proof.
  intros [Hc1 Hr1] [Hc2 Hr2]. split.
  - congruence.
  - etransitivity; eassumption.
Qed.

Lemma select_narrows df mask : narrows (select df mask) df.
Proof. split; [reflexivity | apply sublist_filter]. Qed.

Lemma has_column_narrows out df col :
  narrows out df -> has_column out col = has_column df col.
Proof. intros [Hc _]. unfold has_column. rewrite Hc. reflexivity. Qed.

#[local] Hint Resolve narrows_refl select_narrows : frames.

Lemma category_filter_narrows `{Host} col pick df :
  narrows (snd (category_filter col pick df)) df.
Proof.
  unfold category_filter.
  destruct (has_column df col); [| auto with frames].
  destruct (category_values df col); [auto with frames |].
  destruct (negb _); simpl; auto with frames.
Qed.

Lemma lot_size_filter_narrows pick df r :
  lot_size_filter pick df = Return r -> narrows (snd r) df.
Proof.
  unfold lot_size_filter.
  destruct (has_column df "lot_size"); [| intros [= <-]; auto with frames].
  destruct (integer_values _) as [ints |].
  - destruct (_ <? _)%nat; [| intros [= <-]; auto with frames].
    cbv zeta. destruct (negb _); intros [= <-]; simpl; auto with frames.
  - destruct (_ <? _)%nat; [| intros [= <-]; auto with frames].
    destruct (py_int (float_min _)) as [min_lot |]; [| discriminate].
    destruct (py_int (float_max _)) as [max_lot |]; [| discriminate].
    simpl. destruct (negb _); intros [= <-]; simpl; auto with frames.
Qed.

Lemma strike_price_filter_narrows pick df :
  narrows (snd (strike_price_filter pick df)) df.
Proof.
  unfold strike_price_filter.
  destruct (has_column df "strike_price"); [| auto with frames].
  destruct (_ <? _)%nat; [| auto with frames].
  destruct (negb _); simpl; auto with frames.
Qed.

Lemma weekly_filter_narrows pick df :
  narrows (snd (weekly_filter pick df)) df.
Proof.
  unfold weekly_filter.
  destruct (has_column df "weekly"); [| auto with frames].
  destruct (dropna _); [auto with frames |].
  destruct pick; simpl; auto with frames.
Qed.

Lemma search_filter_narrows `{Host} term df out :
  search_filter term df = Return out -> narrows out df.
Proof.
  unfold search_filter.
  destruct (negb _ && _); [| intros [= <-]; auto with frames].
  destruct (str_contains term); [| discriminate].
  simpl. intros [= <-]. auto with frames.
Qed.

(** The frames between the blocks, named after the block they leave. *)
Lemma sidebar_filters_inv `{Host} sel df c out :
  sidebar_filters sel df = Return (c, out) ->
  let d1 := snd (category_filter "exchange" (pick_exchange sel) df) in
  let d2 := snd (category_filter "instrument_type" (pick_type sel) d1) in
  let d3 := snd (category_filter "segment" (pick_segment sel) d2) in
  let d4 := snd (category_filter "underlying_type" (pick_underlying sel) d3) in
  exists c_lot d5,
    lot_size_filter (pick_lot sel) d4 = Return (c_lot, d5) /\
    let d6 := snd (strike_price_filter (pick_strike sel) d5) in
    let d7 := snd (weekly_filter (pick_weekly sel) d6) in
    search_filter (search_term sel) d7 = Return out /\
    c = {| exchanges := fst (category_filter "exchange" (pick_exchange sel) df);
           instrument_types := fst (category_filter "instrument_type" (pick_type sel) d1);
           segments := fst (category_filter "segment" (pick_segment sel) d2);
           underlying_types := fst (category_filter "underlying_type" (pick_underlying sel) d3);
           lot_bounds := c_lot;
           strike_bounds := fst (strike_price_filter (pick_strike sel) d5);
           weekly_offered := fst (weekly_filter (pick_weekly sel) d6) |}.
Proof.
  unfold sidebar_filters. cbv zeta.
  destruct (category_filter "exchange" _ df) as [c1 d1]. simpl.
  destruct (category_filter "instrument_type" _ d1) as [c2 d2]. simpl.
  destruct (category_filter "segment" _ d2) as [c3 d3]. simpl.
  destruct (category_filter "underlying_type" _ d3) as [c4 d4]. simpl.
  destruct (lot_size_filter _ d4) as [[c5 d5] |]; [| discriminate]. simpl.
  destruct (strike_price_filter _ d5) as [c6 d6] eqn:E6. simpl.
  destruct (weekly_filter _ d6) as [c7 d7] eqn:E7. simpl.
  destruct (search_filter _ d7) as [d8 |] eqn:E8; [| discriminate]. simpl.
  intros [= <- <-].
  exists c5, d5. split; [reflexivity |].
  rewrite E6. simpl. rewrite E7. simpl. split; [exact E8 | reflexivity].
Qed.

Lemma filtered_narrows `{Host} sel df out :
  filtered sel df = Return out -> narrows out df.
Proof.
  unfold filtered.
  destruct (sidebar_filters sel df) as [[c out'] |] eqn:E; [| discriminate].
  simpl. intros [= <-].
  apply sidebar_filters_inv in E. destruct E as (c_lot & d5 & Hlot & Hsearch & _).
  apply search_filter_narrows in Hsearch.
  apply lot_size_filter_narrows in Hlot. simpl in Hlot.
  eapply narrows_trans; [exact Hsearch |].
  eapply narrows_trans; [apply weekly_filter_narrows |].
  eapply narrows_trans; [apply strike_price_filter_narrows |].
  eapply narrows_trans; [exact Hlot |].
  repeat (eapply narrows_trans; [apply category_filter_narrows |]).
  apply narrows_refl.
Qed.

(** ** Display and export enumerate the rows of the frame *)

Lemma lookup_tabulated (f : string -> pyval) (cols : list string) (col : string) :
  col ∈ cols ->
  (list_to_map (map (fun c => (c, f c)) cols) : gmap string pyval) !! col = Some (f col).
Proof.
  induction cols as [| c cols IH]; intros Hin.
  - inversion Hin.
  - simpl. destruct (decide (c = col)) as [-> | Hne].
    + apply lookup_insert_eq.
    + rewrite lookup_insert_ne by assumption.
      apply IH. inversion Hin; subst; [congruence | assumption].
Qed.

Lemma cell_project r cols col :
  col ∈ cols ->
  cell (list_to_map (map (fun c => (c, cell r c)) cols)) col = cell r col.
Proof.
  intros Hin. unfold cell at 1.
  rewrite (lookup_tabulated (cell r)) by assumption. reflexivity.
Qed.

Lemma cell_insert_ne r new v col :
  col <> new -> cell (<[new := v]> r) col = cell r col.
Proof. intros Hne. unfold cell. rewrite lookup_insert_ne by congruence. reflexivity. Qed.



(** ** Constraints added on the last two blocks *)

Lemma filter_sublist_mono {A} (P : A -> Prop) `{!forall x, Decision (P x)} (l1 l2 : list A) :
  l1 `sublist_of` l2 -> filter P l1 `sublist_of` filter P l2.
Proof.
  induction 1 as [| x l1 l2 _ IH | x l1 l2 _ IH].
  - constructor.
  - rewrite !filter_cons. destruct (decide (P x)); [constructor |]; exact IH.
  - rewrite filter_cons. destruct (decide (P x)); [constructor |]; exact IH.
Qed.

Lemma select_mono a b mask : narrows a b -> narrows (select a mask) (select b mask).
Proof.
  intros [Hc Hr]. split; [exact Hc |]. simpl. apply filter_sublist_mono, Hr.
Qed.

(** The search block keeps the rows of a narrower frame among those it
    keeps of a wider one. *)
Lemma search_filter_mono `{Host} term a b a' :
  narrows a b -> search_filter term a = Return a' ->
  exists b', search_filter term b = Return b' /\ narrows a' b'.
Proof.
  intros Hab. unfold search_filter.
  rewrite (has_column_narrows a b) by exact Hab.
  destruct (negb _ && _).
  - destruct (str_contains term) as [found |]; [| discriminate].
    simpl. intros [= <-]. eexists. split; [reflexivity |].
    apply select_mono, Hab.
  - intros [= <-]. exists b. split; [reflexivity | exact Hab].
Qed.

Lemma filtered_after_strike `{Host} sel df :
  filtered sel df =
  (do d6 <- before_weekly sel df;
   search_filter (search_term sel) (snd (weekly_filter (pick_weekly sel) d6))).
Proof.
  unfold filtered, sidebar_filters, before_weekly. cbv zeta.
  destruct (category_filter "exchange" _ df) as [c1 d1]. simpl.
  destruct (category_filter "instrument_type" _ d1) as [c2 d2]. simpl.
  destruct (category_filter "segment" _ d2) as [c3 d3]. simpl.
  destruct (category_filter "underlying_type" _ d3) as [c4 d4]. simpl.
  destruct (lot_size_filter _ d4) as [[c5 d5] |]; [| reflexivity]. simpl.
  destruct (strike_price_filter _ d5) as [c6 d6]. simpl.
  destruct (weekly_filter _ d6) as [c7 d7]. simpl.
  destruct (search_filter _ d7); reflexivity.
Qed.

(** C8, as amended.  The filtered frame is a subsequence of the frame the
    filters start from, so it has at most as many rows.  A constraint added
    on the weekly buttons or in the search box, the two blocks that come
    last, never brings a row in: the result with the constraint is a
    subsequence of the result without it. *)
Theorem filtered_is_subset_and_late_constraints_narrow `{Host}
    (sel : Selection) (df out : DataFrame) :
  filtered sel df = Return out ->
  rows out `sublist_of` rows df /\
  (length (rows out) <= length (rows df))%nat /\
  (exists out0, filtered (with_weekly sel AllOptions) df = Return out0 /\
                rows out `sublist_of` rows out0) /\
  (exists out0, filtered (with_search sel "") df = Return out0 /\
                rows out `sublist_of` rows out0).
Proof.
  intros Hf. pose proof (filtered_narrows _ _ _ Hf) as [_ Hsub].
  split; [exact Hsub |]. split; [apply sublist_length, Hsub |].
  rewrite filtered_after_strike in Hf.
  destruct (before_weekly sel df) as [d6 |] eqn:E6; [| discriminate].
  simpl in Hf. split.
  - destruct (search_filter_mono _ _ d6 _ (weekly_filter_narrows (pick_weekly sel) d6) Hf)
      as (out0 & Hout0 & _ & Hrows).
    exists out0. split; [| exact Hrows].
    rewrite filtered_after_strike.
    change (before_weekly (with_weekly sel AllOptions) df) with (before_weekly sel df).
    rewrite E6. simpl.
    replace (snd (weekly_filter AllOptions d6)) with d6; [exact Hout0 |].
    unfold weekly_filter. destruct (has_column d6 "weekly"); [| reflexivity].
    destruct (dropna _); reflexivity.
  - exists (snd (weekly_filter (pick_weekly sel) d6)). split.
    + rewrite filtered_after_strike.
      change (before_weekly (with_search sel "") df) with (before_weekly sel df).
      rewrite E6. reflexivity.
    + apply search_filter_narrows in Hf. apply Hf.
Qed.

(** ** What a widget offers depends on the blocks before it *)





(** X6.  The options of a select box: ["All"], then the values of the
    column that are not null and not blank, as strings, each once, in
    ascending order. *)
Lemma category_control_options `{Host} df col options :
  category_control df col = Some options ->
  exists sorted,
    options = "All" :: sorted /\
    Sorted String.le sorted /\
    NoDup sorted /\
    (forall v, v ∈ sorted <->
       exists r, r ∈ rows df /\ isna (cell r col) = false /\
                 v = astype_str (cell r col) /\ PyStr.strip v <> "").
Proof.
  unfold category_control. destruct (has_column df col); [| discriminate].
  destruct (category_values df col) as [| v0 vs] eqn:E; [discriminate |].
  intros [= <-]. rewrite <- E. clear E v0 vs.
  exists (merge_sort String.le (remove_dups (category_values df col))).
  split; [reflexivity |]. split; [apply Sorted_merge_sort; apply _ |]. split.
  - rewrite merge_sort_Permutation. apply NoDup_remove_dups.
  - intros v. rewrite merge_sort_Permutation, elem_of_remove_dups.
    unfold category_values, dropna, column.
    rewrite list_elem_of_filter, list_elem_of_fmap. split.
    + intros [Hne (x & -> & Hx)].
      apply list_elem_of_filter in Hx as [Hna Hx].
      apply list_elem_of_fmap in Hx as (r & -> & Hr).
      exists r. repeat split; try assumption.
      * destruct (isna (cell r col)); [contradiction | reflexivity].
      * intros Hb. rewrite Hb in Hne. exact Hne.
    + intros (r & Hr & Hna & -> & Hne). split.
      * destruct (String.eqb_spec (PyStr.strip (astype_str (cell r col))) ""); [contradiction | exact I].
      * exists (cell r col). split; [reflexivity |].
        apply list_elem_of_filter. split; [rewrite Hna; exact I |].
        apply list_elem_of_fmap. exists r. split; [reflexivity | exact Hr].
Qed.


(** ** The worked example of the specification *)

Example three_records_by_exchange :
  @filtered_records Sample.host (with_exchange untouched "NSE") Sample.three_records =
  Return [ [("exchange", VStr "NSE"); ("lot_size", VInt 50); ("weekly", VBool false)];
           [("exchange", VStr "NSE"); ("lot_size", VInt 50); ("weekly", VBool true)] ].
Proof. vm_compute. reflexivity. Qed.

Example three_records_by_exchange_and_weekly :
  @filtered_records Sample.host Sample.nse_weekly Sample.three_records =
  Return [ [("exchange", VStr "NSE"); ("lot_size", VInt 50); ("weekly", VBool true)] ].
Proof. vm_compute. reflexivity. Qed.

(** ** The claims on the filters at concrete inputs *)


(** C8, refuted as stated.  With nothing chosen, the lot size slider is
    shown for the sizes 50 and 75 and the record whose lot size is not a
    number is dropped.  With the exchange NSE chosen in addition, one lot
    size is left, no slider is shown, and that record is kept: the more
    constrained selection shows a record the less constrained one does
    not. *)
Lemma exchange_constraint_brings_a_record_in :
  exists a b,
    @filtered_records Sample.host untouched Sample.mixed_lots = Return a /\
    @filtered_records Sample.host (with_exchange untouched "NSE") Sample.mixed_lots = Return b /\
    ~ (b ⊆ a).
Proof.
  eexists _, _. split; [vm_compute; reflexivity |]. split; [vm_compute; reflexivity |].
  intros Hsub.
  specialize (Hsub [("exchange", VStr "NSE"); ("lot_size", VStr "n/a")]).
  assert (Hin : [("exchange", VStr "NSE"); ("lot_size", VStr "n/a")] ∈
                [[("exchange", VStr "NSE"); ("lot_size", VInt 50)];
                 [("exchange", VStr "NSE"); ("lot_size", VStr "n/a")]])
    by (right; left).
  apply Hsub in Hin.
  repeat (apply elem_of_cons in Hin as [Hin | Hin]; [discriminate |]).
  inversion Hin.
Qed.

Lemma filtered_is_subset_and_late_constraints_narrow_witness :
  let df := frame_of_records Sample.three_records in
  let out := frame_of_records [ [("exchange", VStr "NSE"); ("lot_size", VInt 50); ("weekly", VBool true)] ] in
  @filtered Sample.host Sample.nse_weekly df = Return out /\
  (length (rows out) <= length (rows df))%nat /\
  exists out0, @filtered Sample.host (with_weekly Sample.nse_weekly AllOptions) df = Return out0 /\
               rows out `sublist_of` rows out0.
Proof.
  intros df out.
  assert (Hf : @filtered Sample.host Sample.nse_weekly df = Return out)
    by (vm_compute; reflexivity).
  pose proof (@filtered_is_subset_and_late_constraints_narrow Sample.host _ _ _ Hf)
    as (_ & Hlen & Hweekly & _).
  split; [exact Hf |]. split; [exact Hlen | exact Hweekly].
Defined.



(** C3, on an input where the code departs from it.  Python's [==] holds
    between [1] and [True] and between [0] and [False], so the mask
    [df['weekly'] == True] also selects the record whose value is the
    number 1, and [df['weekly'] == False] the one whose value is the number
    0.  The string and the null are in neither result. *)
Theorem weekly_masks_select_numbers :
  @filtered_records Sample.host (with_weekly untouched WeeklyOnly) Sample.weekly_mixed =
    Return [ [("weekly", VBool true)]; [("weekly", VInt 1)] ] /\
  @filtered_records Sample.host (with_weekly untouched MonthlyOnly) Sample.weekly_mixed =
    Return [ [("weekly", VBool false)]; [("weekly", VInt 0)] ].
Proof. split; vm_compute; reflexivity. Qed.

(** C9, on an input where the code departs from it.  The bounds of the lot
    size slider are [int(min)] and [int(max)], here 0 and 1 for the sizes
    0.5 and 1.5; with the slider untouched the record of size 1.5, a
    number, is dropped. *)
Theorem full_lot_range_drops_a_number :
  (do c <- @controls Sample.host untouched (frame_of_records Sample.fractional_lots);
   Return (lot_bounds c)) = Return (Some (0, 1)) /\
  @filtered_records Sample.host untouched Sample.fractional_lots =
    Return [ [("lot_size", VFloat (PyFloat.of_decimal false 5 (-1)))] ].
Proof. split; vm_compute; reflexivity. Qed.

(** ** [load_json_file] *)

Lemma load_lines_hold `{Host} lines records :
  lines_hold lines records ->
  forall acc, load_lines lines acc = Return (acc ++ records)%list.
Proof.
  induction 1 as [| line lines records Hblank _ IH
                  | line lines records Hfull Hbad _ IH
                  | line lines record records Hfull Hgood _ IH]; intros acc; simpl.
  - rewrite app_nil_r. reflexivity.
  - rewrite Hblank. simpl. apply IH.
  - destruct (String.eqb_spec (PyStr.strip line) ""); [contradiction |].
    simpl. rewrite Hbad. apply IH.
  - destruct (String.eqb_spec (PyStr.strip line) ""); [contradiction |].
    simpl. rewrite Hgood, IH, <- app_assoc. reflexivity.
Qed.







(** C7, as amended.  [load_json_file] returns a list whatever happens in
    it, and it reports at most one diagnostic, the exception that ended it,
    in which case the list is empty.  When the bytes parse neither as one
    JSON text nor, line by line, as any record, the list is empty and
    [load_json_file] reports nothing; when an exception other than a JSON
    decoding error ends it, as for bytes that are not text, it reports that
    exception.  [main] reports once more for every empty list, so that the
    user sees one diagnostic in the first case and two in the second. *)
Theorem load_json_file_always_returns `{Host} (content : string) :
  ((exists data, load_json_file_try content = Return data /\
                 load_json_file content = (data, [])) \/
   (exists e, load_json_file_try content = Raise e /\
              load_json_file content = ([], [ErrorLoadingFile e]))) /\
  (forall text,
     Json.loads_bytes content = Raise JSONDecodeError ->
     Json.decode_utf8 content = Return text ->
     lines_hold (PyStr.split PyStr.line_feed (PyStr.strip text)) [] ->
     load_json_file content = ([], []) /\
     load_upload content = (None, [NoValidJsonData])) /\
  (forall e,
     Json.loads_bytes content = Raise e -> e <> JSONDecodeError ->
     load_json_file content = ([], [ErrorLoadingFile e]) /\
     load_upload content = (None, [ErrorLoadingFile e; NoValidJsonData])) /\
  (fst (load_json_file content) = [] ->
   fst (load_upload content) = None /\
   (1 <= length (snd (load_upload content)) <= 2)%nat).
Proof.
  split; [| split; [| split]].
  - unfold load_json_file.
    destruct (load_json_file_try content) as [data | e]; [left | right]; eauto.
  - intros text Hwhole Htext Hlines.
    assert (Hload : load_json_file content = ([], [])).
    { unfold load_json_file, load_json_file_try. rewrite Hwhole, Htext. simpl.
      rewrite (load_lines_hold _ _ Hlines). reflexivity. }
    split; [exact Hload |]. unfold load_upload. rewrite Hload. reflexivity.
  - intros e He Hne.
    assert (Hload : load_json_file content = ([], [ErrorLoadingFile e])).
    { unfold load_json_file, load_json_file_try. rewrite He.
      destruct e; try reflexivity. contradiction. }
    split; [exact Hload |]. unfold load_upload. rewrite Hload. reflexivity.
  - unfold load_upload, load_json_file.
    destruct (load_json_file_try content) as [data | e]; simpl.
    + intros ->. simpl. split; [reflexivity | lia].
    + intros _. simpl. split; [reflexivity | lia].
Qed.

Lemma load_json_file_always_returns_witness :
  @Json.loads_bytes Sample.host (PyStr.of_bytes [255]%N) = Raise UnicodeDecodeError /\
  UnicodeDecodeError <> JSONDecodeError /\
  @load_upload Sample.host (PyStr.of_bytes [255]%N) =
    (None, [ErrorLoadingFile UnicodeDecodeError; NoValidJsonData]).
Proof.
  assert (H1 : @Json.loads_bytes Sample.host (PyStr.of_bytes [255]%N) = Raise UnicodeDecodeError)
    by (vm_compute; reflexivity).
  assert (H2 : UnicodeDecodeError <> JSONDecodeError) by discriminate.
  split; [exact H1 |]. split; [exact H2 |].
  exact (proj2 (proj1 (proj2 (proj2
    (@load_json_file_always_returns Sample.host (PyStr.of_bytes [255]%N)))) _ H1 H2)).
Defined.

(** C7, refuted as stated.  The text [oops] parses neither as a whole nor
    as a line and is UTF-8: [load_json_file] returns the empty list and
    reports nothing.  The byte 255 is not UTF-8: [load_json_file] reports
    the decoding error, and [main] reports the empty list once more, two
    diagnostics in all. *)
Lemma total_failure_is_not_one_diagnostic :
  @Json.loads_bytes Sample.host "oops" = Raise JSONDecodeError /\
  @load_json_file Sample.host "oops" = ([], []) /\
  @Json.loads_bytes Sample.host (PyStr.of_bytes [255]%N) = Raise UnicodeDecodeError /\
  @load_json_file Sample.host (PyStr.of_bytes [255]%N) =
    ([], [ErrorLoadingFile UnicodeDecodeError]) /\
  @load_upload Sample.host (PyStr.of_bytes [255]%N) =
    (None, [ErrorLoadingFile UnicodeDecodeError; NoValidJsonData]).
Proof. repeat split; vm_compute; reflexivity. Qed.

(** ** The text [format_currency] renders *)

Lemma digit_char_is_digit d : 0 <= d < 10 -> PyFloat.is_digit (PyStr.digit_char d) = true.
Proof.
  intros Hd.
  assert (Hcases : d = 0 \/ d = 1 \/ d = 2 \/ d = 3 \/ d = 4 \/ d = 5 \/ d = 6 \/
                   d = 7 \/ d = 8 \/ d = 9) by lia.
  repeat (destruct Hcases as [-> | Hcases]; [reflexivity |]). subst. reflexivity.
Qed.

Lemma digits_fuel_all_digits fuel : forall n acc,
  0 <= n -> Shape.all_digits acc = true ->
  Shape.all_digits (PyStr.digits_fuel fuel n acc) = true.
Proof.
  induction fuel as [| fuel IH]; intros n acc Hn Hacc; simpl; [exact Hacc |].
  assert (Hacc' : Shape.all_digits (String (PyStr.digit_char (n mod 10)) acc) = true).
  { simpl. rewrite digit_char_is_digit by (apply Z.mod_pos_bound; lia). exact Hacc. }
  destruct (n <? 10); [exact Hacc' |].
  apply IH; [apply Z.div_pos; lia | exact Hacc'].
Qed.

Lemma digits_fuel_length fuel : forall n acc,
  (String.length acc <= String.length (PyStr.digits_fuel fuel n acc))%nat.
Proof.
  induction fuel as [| fuel IH]; intros n acc; simpl; [lia |].
  destruct (n <? 10); [simpl; lia |].
  etransitivity; [| apply IH]. simpl. lia.
Qed.

Lemma digits_all_digits n : 0 <= n -> Shape.all_digits (PyStr.digits n) = true.
Proof. intros Hn. apply digits_fuel_all_digits; [exact Hn | reflexivity]. Qed.

Lemma digits_not_empty n : PyStr.digits n <> EmptyString.
Proof.
  unfold PyStr.digits. simpl. intros Hempty.
  destruct (n <? 10); [discriminate |].
  pose proof (digits_fuel_length (Z.to_nat (Z.log2 n)) (n / 10)
                (String (PyStr.digit_char (n mod 10)) EmptyString)) as Hlen.
  rewrite Hempty in Hlen. simpl in Hlen. lia.
Qed.

Lemma list_ascii_app (a b : string) :
  list_ascii_of_string (a +:+ b) = (list_ascii_of_string a ++ list_ascii_of_string b)%list.
Proof. induction a as [| c a IH]; simpl; [reflexivity | rewrite IH; reflexivity]. Qed.

Lemma all_digits_Forall s :
  Shape.all_digits s = true ->
  Forall (fun c => PyFloat.is_digit c = true) (list_ascii_of_string s).
Proof.
  induction s as [| c s IH]; simpl; intros Hs; [constructor |].
  apply andb_true_iff in Hs as [Hc Hs]. constructor; [exact Hc | apply IH, Hs].
Qed.

(** The digits of the whole part, grouped, in front of what follows the
    groups. *)
Lemma group_rev_amount (n : nat) : forall (r tail : list ascii),
  (length r <= n)%nat -> r <> [] ->
  Forall (fun c => PyFloat.is_digit c = true) r ->
  Shape.groups tail = true ->
  Shape.amount (rev (PyFloat.group_rev r) ++ tail) = true.
Proof.
  induction n as [| n IH]; intros r tail Hlen Hne Hr Htail.
  - destruct r; [contradiction | simpl in Hlen; lia].
  - destruct r as [| a [| b [| c [| d r']]]]; [contradiction | | | |].
    + inversion Hr; subst. simpl. rewrite Htail, H1. reflexivity.
    + inversion Hr as [| ? ? Ha Hr1]; subst. inversion Hr1 as [| ? ? Hb _]; subst.
      simpl. rewrite Htail, Ha, Hb, orb_true_r. reflexivity.
    + inversion Hr as [| ? ? Ha Hr1]; subst. inversion Hr1 as [| ? ? Hb Hr2]; subst.
      inversion Hr2 as [| ? ? Hc _]; subst.
      simpl. rewrite Htail, Ha, Hb, Hc, !orb_true_r. reflexivity.
    + inversion Hr as [| ? ? Ha Hr1]; subst. inversion Hr1 as [| ? ? Hb Hr2]; subst.
      inversion Hr2 as [| ? ? Hc Hr3]; subst.
      change (PyFloat.group_rev (a :: b :: c :: d :: r'))
        with (a :: b :: c :: ","%char :: PyFloat.group_rev (d :: r')).
      replace (rev (a :: b :: c :: ","%char :: PyFloat.group_rev (d :: r')) ++ tail)%list
        with (rev (PyFloat.group_rev (d :: r')) ++ (","%char :: c :: b :: a :: tail))%list
        by (simpl rev; rewrite <- !app_assoc; reflexivity).
      apply IH; [simpl in *; lia | discriminate | exact Hr3 |].
      simpl. rewrite Ha, Hb, Hc, Htail. reflexivity.
Qed.

Lemma two_digits_below_100 m :
  0 <= m < 100 ->
  exists a b, PyStr.zfill 2 (PyStr.digits m) = String a (String b EmptyString) /\
              PyFloat.is_digit a = true /\ PyFloat.is_digit b = true.
Proof.
  intros Hm.
  assert (Hall : forallb (fun k =>
            match PyStr.zfill 2 (PyStr.digits (Z.of_nat k)) with
            | String a (String b EmptyString) => PyFloat.is_digit a && PyFloat.is_digit b
            | _ => false
            end) (seq 0 100) = true) by (vm_compute; reflexivity).
  rewrite forallb_forall in Hall.
  specialize (Hall (Z.to_nat m)).
  rewrite Z2Nat.id in Hall by lia.
  assert (Hin : In (Z.to_nat m) (seq 0 100)) by (apply in_seq; lia).
  apply Hall in Hin.
  destruct (PyStr.zfill 2 (PyStr.digits m)) as [| a [| b [| ? ?]]]; try discriminate.
  apply andb_true_iff in Hin as [Ha Hb]. eauto.
Qed.

Lemma round_half_even_nonneg num den :
  0 <= num -> 0 < den -> 0 <= PyFloat.round_half_even num den.
Proof.
  intros Hnum Hden. unfold PyFloat.round_half_even.
  assert (0 <= num / den) by (apply Z.div_pos; lia).
  destruct (_ ?= _); [destruct (Z.even _) | |]; lia.
Qed.

Lemma scaled_abs_nonneg k x : 0 <= k -> 0 <= PyFloat.scaled_abs k x.
Proof.
  intros Hk. destruct x as [| | | s m e]; simpl; try lia.
  assert (0 < 10 ^ k) by (apply Z.pow_pos_nonneg; lia).
  destruct (Z.leb_spec 0 e).
  - assert (0 < 2 ^ e) by (apply Z.pow_pos_nonneg; lia). nia.
  - apply round_half_even_nonneg; [nia | apply Z.pow_pos_nonneg; lia].
Qed.

(** A float that is a number is rendered as an amount: digits in groups
    of three separated by commas, a point, two digits. *)
Lemma format_2f_money x :
  PyFloat.is_nan x = false -> PyFloat.is_inf x = false ->
  Shape.money (PyFloat.format_2f x) = true.
Proof.
  intros Hnan Hinf.
  assert (Hn : 0 <= PyFloat.scaled_abs 2 x) by (apply scaled_abs_nonneg; lia).
  assert (Hbody : PyFloat.format_2f x =
            (if PyFloat.sign x then "-" else "") +:+
            PyFloat.group3 (PyStr.digits (PyFloat.scaled_abs 2 x / 100)) +:+ "." +:+
            PyStr.zfill 2 (PyStr.digits (PyFloat.scaled_abs 2 x mod 100))).
  { destruct x; try discriminate; reflexivity. }
  rewrite Hbody. clear Hbody.
  set (n := PyFloat.scaled_abs 2 x) in *.
  destruct (two_digits_below_100 (n mod 100)) as (a & b & -> & Ha & Hb);
    [apply Z.mod_pos_bound; lia |].
  assert (Hamount : Shape.amount
            (list_ascii_of_string (PyFloat.group3 (PyStr.digits (n / 100))) ++ ["."%char; a; b]) = true).
  { unfold PyFloat.group3. rewrite list_ascii_of_string_of_list_ascii.
    apply (group_rev_amount (length (rev (list_ascii_of_string (PyStr.digits (n / 100)))))).
    - lia.
    - intros Hempty. apply (f_equal (@rev ascii)) in Hempty.
      rewrite rev_involutive in Hempty. simpl in Hempty.
      apply (digits_not_empty (n / 100)).
      rewrite <- (string_of_list_ascii_of_string (PyStr.digits (n / 100))), Hempty. reflexivity.
    - apply Forall_rev, all_digits_Forall, digits_all_digits, Z.div_pos; lia.
    - simpl. rewrite Ha, Hb. reflexivity. }
  unfold Shape.money. rewrite !list_ascii_app. simpl (list_ascii_of_string (String _ _)).
  destruct (PyFloat.sign x); simpl app at 1.
  - simpl. exact Hamount.
  - simpl (list_ascii_of_string ""). simpl app at 1.
    destruct (list_ascii_of_string (PyFloat.group3 (PyStr.digits (n / 100)))) as [| c l] eqn:El.
    + simpl in Hamount. discriminate.
    + change (Shape.amount (c :: (l ++ ["."%char; a; b])%list) = true) in Hamount.
      change ((if Ascii.eqb c "-" then Shape.amount (l ++ ["."%char; a; b])
               else Shape.amount (c :: (l ++ ["."%char; a; b])%list)) = true).
      destruct (Ascii.eqb_spec c "-"); [| exact Hamount].
      subst c. simpl in Hamount. discriminate.
Qed.

Lemma float_eq_int_zero x : float_eq_int x 0 = PyFloat.is_zero x.
Proof.
  destruct x as [s | s | | s m e]; try reflexivity.
  unfold float_eq_int, PyFloat.is_zero.
  destruct (Z.leb_spec 0 e).
  - assert (0 < 2 ^ e) by (apply Z.pow_pos_nonneg; lia).
    apply Z.eqb_neq. destruct s; nia.
  - apply Z.eqb_neq. destruct s; lia.
Qed.

(** What the test at the head of both formatting functions takes for
    missing: [None], NaN, the empty string, and every zero, [False]
    among them. *)
Lemma is_blank_cases value :
  is_blank value = true <->
  value = VNone \/ value = VStr "" \/ value = VInt 0 \/ value = VBool false \/
  exists x, value = VFloat x /\ (PyFloat.is_nan x = true \/ PyFloat.is_zero x = true).
Proof.
  unfold is_blank. destruct value as [| b | z | x | s]; simpl.
  - intuition.
  - destruct b; simpl; split; try discriminate; try tauto.
    intros [| [| [| [| (x & Hx & _)]]]]; discriminate.
  - rewrite Z.eqb_eq. split.
    + intros ->. tauto.
    + intros [| [| [Hz | [| (x & Hx & _)]]]]; try discriminate. congruence.
  - rewrite orb_false_r, float_eq_int_zero, orb_true_iff. split.
    + intros Hx. do 4 right. eauto.
    + intros [| [| [| [| (y & Hy & Hcases)]]]]; try discriminate.
      injection Hy as ->. exact Hcases.
  - rewrite orb_false_r. split.
    + intros Hs. apply String.eqb_eq in Hs. subst. tauto.
    + intros [| [Hs | [| [| (x & Hx & _)]]]]; try discriminate.
      injection Hs as ->. reflexivity.
Qed.

Lemma rupee_not_na body : rupee +:+ body <> "N/A".
Proof. unfold rupee. simpl. discriminate. Qed.

Lemma py_float_raise `{Host} s e : py_float s = Raise e -> e = ValueError.
Proof. unfold py_float. destruct (if PyStr.is_ascii s then _ else _); congruence. Qed.

Lemma is_blank_str s : is_blank (VStr s) = String.eqb s "".
Proof. unfold is_blank. simpl. apply orb_false_r. Qed.

(** C1, as amended.  For a value that is null, NaN, the empty string or a
    zero, [format_currency] yields the rupee sign followed by [0.00].  It
    yields [N/A] exactly for a string that is not empty and does not read
    as a number, and for an integer too large for a float.  Every other
    value is rendered as the rupee sign followed by the float it stands
    for, formatted with [,.2f].  For a float that is finite this text is
    an amount with a comma before every group of three digits, a point and
    exactly two decimals, as for 1234.5, rendered [1,234.50].  For an
    infinite float it is [inf] or [-inf], as for the float infinity and
    for the strings [inf] and [1e400]; for the float a string such as
    [nan] reads as, it is [nan]. *)
Theorem format_currency_cases `{Host} (value : pyval) :
  (is_blank value = true -> format_currency value = rupee +:+ "0.00") /\
  (format_currency value = "N/A" <->
     (exists s, value = VStr s /\ s <> "" /\ py_float s = Raise ValueError) \/
     (exists z, value = VInt z /\ PyFloat.is_inf (PyFloat.of_Z z) = true)) /\
  (is_blank value = false ->
     (forall x, value = VFloat x ->
        format_currency value = rupee +:+ PyFloat.format_2f x) /\
     (forall z, value = VInt z -> PyFloat.is_inf (PyFloat.of_Z z) = false ->
        format_currency value = rupee +:+ PyFloat.format_2f (PyFloat.of_Z z)) /\
     (forall s x, value = VStr s -> py_float s = Return x ->
        format_currency value = rupee +:+ PyFloat.format_2f x) /\
     (value = VBool true -> format_currency value = rupee +:+ "1.00")) /\
  (forall x, PyFloat.is_nan x = false -> PyFloat.is_inf x = false ->
     Shape.money (PyFloat.format_2f x) = true) /\
  format_currency (VFloat (PyFloat.of_decimal false 12345 (-1))) = rupee +:+ "1,234.50" /\
  (forall x, PyFloat.is_inf x = true ->
     PyFloat.format_2f x = (if PyFloat.sign x then "-inf" else "inf") /\
     Shape.money (PyFloat.format_2f x) = false) /\
  (forall x, PyFloat.is_nan x = true ->
     PyFloat.format_2f x = "nan" /\ Shape.money (PyFloat.format_2f x) = false) /\
  format_currency (VFloat (PyFloat.inf false)) = rupee +:+ "inf" /\
  format_currency (VFloat (PyFloat.inf true)) = rupee +:+ "-inf" /\
  format_currency (VStr "inf") = rupee +:+ "inf" /\
  format_currency (VStr "1e400") = rupee +:+ "inf" /\
  format_currency (VStr "nan") = rupee +:+ "nan".
Proof.
  unfold format_currency, format_currency_try.
  split; [| split; [| split; [| split; [| split; [| split; [| split]]]]]].
  - intros ->. reflexivity.
  - destruct (is_blank value) eqn:Hblank.
    + simpl. split.
      * intros Hna. exfalso. exact (rupee_not_na _ Hna).
      * intros [(s & -> & Hs & _) | (z & -> & Hz)]; exfalso.
        -- rewrite is_blank_str in Hblank. apply String.eqb_eq in Hblank. contradiction.
        -- unfold is_blank in Hblank. simpl in Hblank. apply Z.eqb_eq in Hblank.
           subst. discriminate.
    + destruct value as [| b | z | x | s]; simpl.
      * discriminate.
      * split.
        -- intros Hna. exfalso. exact (rupee_not_na _ Hna).
        -- intros [(s & Hs & _) | (z & Hz & _)]; discriminate.
      * destruct (PyFloat.is_inf (PyFloat.of_Z z)) eqn:Hz; simpl.
        -- split; [intros _; right; eauto | reflexivity].
        -- split.
           ++ intros Hna. exfalso. exact (rupee_not_na _ Hna).
           ++ intros [(s & Hs & _) | (z' & Hz' & Hinf)]; [discriminate |].
              injection Hz' as <-. congruence.
      * split.
        -- intros Hna. exfalso. exact (rupee_not_na _ Hna).
        -- intros [(s & Hs & _) | (z & Hz & _)]; discriminate.
      * rewrite is_blank_str in Hblank. apply String.eqb_neq in Hblank.
        destruct (py_float s) as [x | e] eqn:Hs; simpl.
        -- split.
           ++ intros Hna. exfalso. exact (rupee_not_na _ Hna).
           ++ intros [(s' & Hs' & _ & Hraise) | (z & Hz & _)]; [| discriminate].
              injection Hs' as <-. congruence.
        -- split; [| reflexivity]. intros _. left. exists s.
           rewrite (py_float_raise _ _ Hs) in Hs. auto.
  - intros ->. repeat split.
    + intros x ->. reflexivity.
    + intros z -> Hz. simpl. rewrite Hz. reflexivity.
    + intros s x -> Hs. simpl. rewrite Hs. reflexivity.
    + intros ->. reflexivity.
  - apply format_2f_money.
  - reflexivity.
  - intros x Hx. destruct x as [| [|] | |]; try discriminate; split; reflexivity.
  - intros x Hx. destruct x; try discriminate. split; reflexivity.
  - repeat split; vm_compute; reflexivity.
Qed.

(** What [format_currency] makes of the values that stand for no finite
    number. *)
Example format_currency_not_finite :
  @format_currency Sample.host (VStr "inf") = rupee +:+ "inf" /\
  @format_currency Sample.host (VStr "-Infinity") = rupee +:+ "-inf" /\
  @format_currency Sample.host (VStr "1e400") = rupee +:+ "inf" /\
  @format_currency Sample.host (VStr "nan") = rupee +:+ "nan" /\
  @format_currency Sample.host (VFloat (PyFloat.inf true)) = rupee +:+ "-inf".
Proof. repeat split; vm_compute; reflexivity. Qed.

Lemma format_currency_cases_witness :
  is_blank (VStr "1234.5") = false /\
  @py_float Sample.host "1234.5" = Return (PyFloat.of_decimal false 12345 (-1)) /\
  @format_currency Sample.host (VStr "1234.5") = rupee +:+ "1,234.50".
Proof.
  assert (H1 : is_blank (VStr "1234.5") = false) by reflexivity.
  assert (H2 : @py_float Sample.host "1234.5" = Return (PyFloat.of_decimal false 12345 (-1)))
    by (vm_compute; reflexivity).
  split; [exact H1 |]. split; [exact H2 |].
  pose proof (@format_currency_cases Sample.host (VStr "1234.5")) as (_ & _ & Hrender & _).
  destruct (Hrender H1) as (_ & _ & Hstr & _).
  exact (Hstr _ _ eq_refl H2).
Defined.

(** C1, refuted as stated.  For zero, for the empty string and for a
    missing value the result is the rendering of zero, not the text that
    stands for a value that is not there. *)
Lemma format_currency_renders_zero_for_missing :
  @format_currency Sample.host (VInt 0) = rupee +:+ "0.00" /\
  @format_currency Sample.host (VStr "") = rupee +:+ "0.00" /\
  @format_currency Sample.host VNone = rupee +:+ "0.00" /\
  @format_currency Sample.host NaN = rupee +:+ "0.00" /\
  @format_currency Sample.host (VInt 0) <> "N/A".
Proof. repeat split. apply rupee_not_na. Qed.

(** ** The text [convert_timestamp] renders *)

(** A property checked on every number below [a * b], block by block. *)
Lemma checked_below (P : Z -> bool) (a b : nat) :
  forallb (fun q => forallb (fun r => P (Z.of_nat q * Z.of_nat b + Z.of_nat r)) (seq 0 b))
          (seq 0 a) = true ->
  forall n, 0 <= n < Z.of_nat a * Z.of_nat b -> P n = true.
Proof.
  intros Hall n Hn.
  assert (Hb : 0 < Z.of_nat b) by nia.
  rewrite forallb_forall in Hall.
  assert (Hq : In (Z.to_nat (n / Z.of_nat b)) (seq 0 a)).
  { apply in_seq. assert (0 <= n / Z.of_nat b) by (apply Z.div_pos; lia).
    assert (n / Z.of_nat b < Z.of_nat a) by (apply Z.div_lt_upper_bound; lia). lia. }
  apply Hall in Hq. rewrite forallb_forall in Hq.
  assert (Hr : In (Z.to_nat (n mod Z.of_nat b)) (seq 0 b)).
  { apply in_seq. pose proof (Z.mod_pos_bound n (Z.of_nat b) Hb). lia. }
  apply Hq in Hr.
  rewrite !Z2Nat.id in Hr;
    [| apply Z.mod_pos_bound; lia | apply Z.div_pos; lia].
  rewrite (Z.div_mod n (Z.of_nat b)) by lia.
  rewrite (Z.mul_comm (Z.of_nat b)). exact Hr.
Qed.

Lemma month_day_range doe :
  0 <= doe < 146097 ->
  1 <= fst (Calendar.month_day (snd (Calendar.year_day_of_era doe))) <= 12 /\
  1 <= snd (Calendar.month_day (snd (Calendar.year_day_of_era doe))) <= 31.
Proof.
  intros Hdoe.
  pose proof (checked_below (fun n =>
      let md := Calendar.month_day (snd (Calendar.year_day_of_era n)) in
      (1 <=? fst md) && (fst md <=? 12) && (1 <=? snd md) && (snd md <=? 31)) 147 1000) as Hall.
  specialize (Hall ltac:(vm_compute; reflexivity) doe ltac:(lia)).
  cbv beta zeta in Hall.
  repeat (apply andb_true_iff in Hall as [Hall ?]). lia.
Qed.

Lemma of_seconds_fields t :
  1 <= Calendar.month (Calendar.of_seconds t) <= 12 /\
  1 <= Calendar.day (Calendar.of_seconds t) <= 31 /\
  0 <= Calendar.hour (Calendar.of_seconds t) < 24 /\
  0 <= Calendar.minute (Calendar.of_seconds t) < 60 /\
  0 <= Calendar.second (Calendar.of_seconds t) < 60.
Proof.
  unfold Calendar.of_seconds, Calendar.civil_from_days. cbv zeta.
  pose proof (month_day_range ((t / 86400 + 719468) mod 146097)) as Hmd.
  destruct (Calendar.year_day_of_era _) as [yoe doy]. cbn [fst snd] in Hmd.
  destruct (Calendar.month_day doy) as [m d]. cbn [fst snd] in Hmd. simpl.
  assert (0 <= t mod 86400 < 86400) by (apply Z.mod_pos_bound; lia).
  assert (0 <= (t mod 86400) mod 3600 < 3600) by (apply Z.mod_pos_bound; lia).
  assert (0 <= (t mod 86400) mod 60 < 60) by (apply Z.mod_pos_bound; lia).
  destruct Hmd as [Hm Hd]; [apply Z.mod_pos_bound; lia |].
  repeat split; try lia.
  - apply Z.div_pos; lia.
  - apply Z.div_lt_upper_bound; lia.
  - apply Z.div_pos; lia.
  - apply Z.div_lt_upper_bound; lia.
Qed.

Lemma pad_2 n :
  0 <= n < 100 ->
  exists a b, Calendar.pad 2 n = String a (String b EmptyString) /\
              PyFloat.is_digit a = true /\ PyFloat.is_digit b = true.
Proof.
  intros Hn. unfold Calendar.pad, PyStr.of_Z.
  destruct (Z.ltb_spec n 0); [lia |]. apply two_digits_below_100, Hn.
Qed.

Lemma pad_4 y :
  1 <= y <= 9999 ->
  exists a b c d,
    Calendar.pad 4 y = String a (String b (String c (String d EmptyString))) /\
    PyFloat.is_digit a = true /\ PyFloat.is_digit b = true /\
    PyFloat.is_digit c = true /\ PyFloat.is_digit d = true.
Proof.
  intros Hy.
  pose proof (checked_below (fun n =>
      match Calendar.pad 4 n with
      | String a (String b (String c (String d EmptyString))) =>
          PyFloat.is_digit a && PyFloat.is_digit b && PyFloat.is_digit c && PyFloat.is_digit d
      | _ => false
      end) 100 100) as Hall.
  specialize (Hall ltac:(vm_compute; reflexivity) y ltac:(lia)).
  cbv beta in Hall.
  destruct (Calendar.pad 4 y) as [| a [| b [| c [| d [| ? ?]]]]]; try discriminate.
  do 3 (apply andb_true_iff in Hall as [Hall ?]). exists a, b, c, d. auto.
Qed.

(** The digits of a year from 0 to 9999: four of them from 1000 on. *)
Lemma year_digits y :
  0 <= y <= 9999 ->
  exists n, (1 <= n <= 4)%nat /\ Shape.digits_only n (PyStr.of_Z y) = true /\
            (1000 <= y -> n = 4%nat) /\ (y < 1000 -> (n < 4)%nat).
Proof.
  intros Hy.
  pose proof (checked_below (fun n =>
      Shape.all_digits (PyStr.of_Z n) &&
      match String.length (PyStr.of_Z n) with
      | 1%nat => n <? 10
      | 2%nat => (10 <=? n) && (n <? 100)
      | 3%nat => (100 <=? n) && (n <? 1000)
      | 4%nat => 1000 <=? n
      | _ => false
      end) 100 100) as Hall.
  specialize (Hall ltac:(vm_compute; reflexivity) y ltac:(lia)).
  cbv beta in Hall. apply andb_true_iff in Hall as [Hdigits Hlen].
  exists (String.length (PyStr.of_Z y)).
  unfold Shape.digits_only. rewrite Nat.eqb_refl, Hdigits.
  destruct (String.length (PyStr.of_Z y)) as [| [| [| [| [| n]]]]]; try discriminate.
  - split; [lia |]. split; [reflexivity |]. split; lia.
  - apply andb_true_iff in Hlen as [? ?]. split; [lia |]. split; [reflexivity |]. split; lia.
  - apply andb_true_iff in Hlen as [? ?]. split; [lia |]. split; [reflexivity |]. split; lia.
  - split; [lia |]. split; [reflexivity |]. split; lia.
Qed.

Lemma year_text_digits `{Host} y :
  1 <= y <= 9999 ->
  exists n, (1 <= n <= 4)%nat /\ Shape.digits_only n (Calendar.year_text y) = true /\
            (strftime_pads_year = true \/ 1000 <= y -> n = 4%nat) /\
            (strftime_pads_year = false -> y < 1000 -> (n < 4)%nat).
Proof.
  intros Hy. unfold Calendar.year_text. destruct strftime_pads_year.
  - destruct (pad_4 y Hy) as (a & b & c & d & -> & Ha & Hb & Hc & Hd).
    exists 4%nat. split; [lia |]. split.
    + unfold Shape.digits_only. simpl. rewrite Ha, Hb, Hc, Hd. reflexivity.
    + split; [reflexivity | discriminate].
  - destruct (year_digits y) as (n & Hn & Hdigits & Hfour & Hshort); [lia |].
    exists n. split; [exact Hn |]. split; [exact Hdigits |]. split.
    + intros [Hpad | Hyear]; [discriminate | exact (Hfour Hyear)].
    + intros _. exact Hshort.
Qed.

(** A date with a year from 1 to 9999 is written with the digits of the
    year, four of them from the year 1000 on and for every year where the
    host pads, then [-MM-DD HH:MM:SS]. *)
Lemma strftime_date_time `{Host} t :
  1 <= Calendar.year (Calendar.of_seconds t) <= 9999 ->
  exists n, (1 <= n <= 4)%nat /\
            Shape.date_time_of n (Calendar.strftime (Calendar.of_seconds t)) = true /\
            (strftime_pads_year = true \/ 1000 <= Calendar.year (Calendar.of_seconds t) ->
             n = 4%nat) /\
            (strftime_pads_year = false -> Calendar.year (Calendar.of_seconds t) < 1000 ->
             (n < 4)%nat).
Proof.
  intros Hy.
  destruct (of_seconds_fields t) as (Hm & Hd & Hh & Hmi & Hs).
  destruct (year_text_digits _ Hy) as (n & Hn & Hyear & Hfour & Hshort).
  exists n. split; [exact Hn |]. split; [| split; assumption].
  unfold Calendar.strftime.
  destruct (pad_2 (Calendar.month (Calendar.of_seconds t))) as (m1 & m2 & -> & Hm1 & Hm2); [lia |].
  destruct (pad_2 (Calendar.day (Calendar.of_seconds t))) as (d1 & d2 & -> & Hd1 & Hd2); [lia |].
  destruct (pad_2 (Calendar.hour (Calendar.of_seconds t))) as (h1 & h2 & -> & Hh1 & Hh2); [lia |].
  destruct (pad_2 (Calendar.minute (Calendar.of_seconds t))) as (i1 & i2 & -> & Hi1 & Hi2); [lia |].
  destruct (pad_2 (Calendar.second (Calendar.of_seconds t))) as (s1 & s2 & -> & Hs1 & Hs2); [lia |].
  unfold Shape.digits_only in Hyear. apply andb_true_iff in Hyear as [Hlen Hyear].
  apply Nat.eqb_eq in Hlen.
  destruct (Calendar.year_text (Calendar.year (Calendar.of_seconds t)))
    as [| y1 [| y2 [| y3 [| y4 [| y5 rest]]]]]; simpl in Hlen; subst n; try lia;
    simpl in Hyear; repeat (apply andb_true_iff in Hyear as [? Hyear]);
    unfold Shape.date_time_of, Shape.digits_only; simpl;
    repeat match goal with Hc : PyFloat.is_digit _ = true |- _ => rewrite Hc; clear Hc end;
    reflexivity.
Qed.



Lemma fromtimestamp_inv `{Host} x dt :
  fromtimestamp x = Return dt ->
  exists sec, timestamp_seconds x = Return sec /\
              dt = Calendar.of_seconds (sec + utcoffset sec) /\
              1 <= Calendar.year dt <= 9999 /\
              year_in_range (localtime (sec - max_fold_seconds)) = true.
Proof.
  unfold fromtimestamp.
  destruct (timestamp_seconds x) as [sec |]; [| discriminate]. cbn [bind]. cbv zeta.
  destruct (year_in_range (localtime sec)) eqn:Hyear; [| discriminate].
  destruct (year_in_range (localtime (sec - max_fold_seconds))) eqn:Hprobe; [| discriminate].
  destruct (_ && _); [discriminate |].
  intros [= <-]. exists sec. split; [reflexivity |]. split; [reflexivity |].
  split; [| exact Hprobe].
  unfold year_in_range in Hyear. apply andb_true_iff in Hyear as [H1 H2]. lia.
Qed.




(** The expiry of the sample record of the program, in the zone of the
    exchange. *)
Example convert_timestamp_sample :
  @convert_timestamp Sample.host (VInt 2111423399000) = "2036-11-27 23:59:59" /\
  @convert_timestamp Sample.host (VStr "2111423399000") = "2036-11-27 23:59:59" /\
  @convert_timestamp Sample.host (VInt 0) = "N/A" /\
  @convert_timestamp Sample.host (VInt (-1)) = "1970-01-01 05:29:59".
Proof. repeat split; vm_compute; reflexivity. Qed.

(** A year below 1000 is written without zeros before it where the host
    does not pad; the first second of the year 1, local time, is within
    the 24 hours for which the conversion raises, as are the first second
    of the year 1 in UTC and the last second of the first day, local time,
    and the second after that is converted. *)
Example convert_timestamp_early_years :
  @convert_timestamp Sample.host (VInt (-31000000000000)) = "987-08-25 22:23:20" /\
  @convert_timestamp Sample.host (VInt (-62135616600000)) = "Invalid" /\
  @convert_timestamp Sample.host (VInt (-62135596800000)) = "Invalid" /\
  @convert_timestamp Sample.host (VInt (-62135530201000)) = "Invalid" /\
  @convert_timestamp Sample.host (VInt (-62135530200000)) = "1-01-02 00:00:00".
Proof. repeat split; vm_compute; reflexivity. Qed.



(** ** The search block *)

Lemma strip_prefix_Some p s rest :
  PyStr.strip_prefix p s = Some rest <-> s = p +:+ rest.
Proof.
  revert s. induction p as [| a p IH]; intros s; simpl.
  - split; [intros [= ->]; reflexivity | intros ->; reflexivity].
  - destruct s as [| b s]; [split; discriminate |].
    destruct (Ascii.eqb_spec a b) as [-> | Hne].
    + rewrite IH. split; [intros ->; reflexivity | intros [= ->]; reflexivity].
    + split; [discriminate | intros [= <- _]; contradiction].
Qed.

Lemma strip_prefix_None p s :
  PyStr.strip_prefix p s = None -> forall rest, s <> p +:+ rest.
Proof.
  intros Hnone rest Heq. apply strip_prefix_Some in Heq. congruence.
Qed.

Lemma contains_occurs needle hay :
  PyStr.contains needle hay = true <-> exists pre post, hay = pre +:+ needle +:+ post.
Proof.
  induction hay as [| c hay IH]; simpl.
  - destruct (PyStr.strip_prefix needle "") as [rest |] eqn:E.
    + split; [| reflexivity]. intros _. exists "", rest.
      exact (proj1 (strip_prefix_Some _ _ _) E).
    + split; [discriminate |]. intros (pre & post & Heq).
      destruct pre; [| discriminate]. exfalso. exact (strip_prefix_None _ _ E _ Heq).
  - destruct (PyStr.strip_prefix needle (String c hay)) as [rest |] eqn:E.
    + split; [| reflexivity]. intros _. exists "", rest.
      exact (proj1 (strip_prefix_Some _ _ _) E).
    + rewrite IH. split.
      * intros (pre & post & ->). exists (String c pre), post. reflexivity.
      * intros (pre & post & Heq). destruct pre as [| x pre].
        -- exfalso. exact (strip_prefix_None _ _ E _ Heq).
        -- injection Heq as -> ->. eauto.
Qed.

Lemma lower_append a b : PyStr.lower (a +:+ b) = PyStr.lower a +:+ PyStr.lower b.
Proof. induction a as [| c a IH]; simpl; [reflexivity | rewrite IH; reflexivity]. Qed.

Lemma lower_split s : forall a b,
  PyStr.lower s = a +:+ b ->
  exists s1 s2, s = s1 +:+ s2 /\ PyStr.lower s1 = a /\ PyStr.lower s2 = b.
Proof.
  induction s as [| c s IH]; intros a b Heq.
  - destruct a; [| discriminate]. change (EmptyString = b) in Heq. subst b.
    exists "", "". auto.
  - destruct a as [| x a].
    + change (PyStr.lower (String c s) = b) in Heq. subst b.
      exists "", (String c s). auto.
    + change (String (PyStr.lower_char c) (PyStr.lower s) = String x (a +:+ b)) in Heq.
      injection Heq as <- Heq.
      destruct (IH _ _ Heq) as (s1 & s2 & -> & <- & <-).
      exists (String c s1), s2. auto.
Qed.

Lemma contains_lower term text :
  PyStr.contains (PyStr.lower term) (PyStr.lower text) = true <->
  occurs_ignoring_case term text.
Proof.
  rewrite contains_occurs. unfold occurs_ignoring_case. split.
  - intros (a & b & Heq).
    destruct (lower_split _ _ _ Heq) as (pre & rest & -> & <- & Hrest).
    destruct (lower_split _ _ _ Hrest) as (mid & post & -> & Hmid & <-).
    exists pre, mid, post. auto.
  - intros (pre & mid & post & -> & Hmid).
    exists (PyStr.lower pre), (PyStr.lower post).
    rewrite !lower_append, Hmid. reflexivity.
Qed.

(** C4, as amended.  With an empty search term, and with a frame that has
    no column [trading_symbol], the block keeps every row.  With a term
    of ASCII characters none of which is special in a regular expression
    and a frame that has the column, the block keeps the rows a mask
    selects, and the mask holds for a row whose trading symbol is an ASCII
    string exactly when the term occurs in it, the case of letters
    ignored. *)
Theorem search_filter_cases `{Host} (term : string) (df : DataFrame) :
  (term = "" \/ has_column df "trading_symbol" = false ->
   search_filter term df = Return df) /\
  (term <> "" -> has_column df "trading_symbol" = true ->
   is_literal term = true -> PyStr.is_ascii term = true ->
   exists keep,
     search_filter term df = Return (select df keep) /\
     (forall r, r ∈ rows (select df keep) <-> keep r = true /\ r ∈ rows df) /\
     (forall r s, cell r "trading_symbol" = VStr s -> PyStr.is_ascii s = true ->
        (keep r = true <-> occurs_ignoring_case term s))).
Proof.
  unfold search_filter. split.
  - intros [-> | ->]; [reflexivity |]. rewrite andb_false_r. reflexivity.
  - intros Hterm -> Hliteral Hascii.
    destruct (String.eqb_spec term ""); [contradiction |]. simpl.
    unfold str_contains. rewrite Hliteral, Hascii. simpl.
    eexists. split; [reflexivity |]. split.
    + intros r. simpl. rewrite list_elem_of_filter.
      split; intros [Hk Hr]; (split; [| exact Hr]).
      * apply Is_true_true, Hk.
      * apply Is_true_true, Hk.
    + intros r s Hcell Hs. rewrite Hcell. simpl. rewrite Hs.
      apply contains_lower.
Qed.

Example search_by_symbol :
  @filtered_records Sample.host (with_search untouched "nifty") Sample.symbols =
  Return [ [("trading_symbol", VStr "NIFTY 27 NOV 36 FUT")];
           [("trading_symbol", VStr "BankNifty FUT")] ].
Proof. vm_compute. reflexivity. Qed.

Lemma search_filter_cases_witness :
  let df := frame_of_records Sample.symbols in
  "nifty" <> "" /\ has_column df "trading_symbol" = true /\
  is_literal "nifty" = true /\ PyStr.is_ascii "nifty" = true /\
  exists keep, @search_filter Sample.host "nifty" df = Return (select df keep).
Proof.
  intros df.
  assert (H1 : "nifty" <> "") by discriminate.
  assert (H2 : has_column df "trading_symbol" = true) by (vm_compute; reflexivity).
  assert (H3 : is_literal "nifty" = true) by reflexivity.
  assert (H4 : PyStr.is_ascii "nifty" = true) by reflexivity.
  repeat (split; [assumption |]).
  destruct (proj2 (@search_filter_cases Sample.host "nifty" df) H1 H2 H3 H4)
    as (keep & Hkeep & _).
  exists keep. exact Hkeep.
Defined.

(** C4, refuted as stated.  No record of the upload has a trading symbol,
    so the frame has no such column, the block is passed over, and the
    records, whose trading symbol is missing, are all kept although the
    search term is not empty. *)
Lemma search_keeps_records_without_symbol :
  has_column (frame_of_records Sample.unnamed) "trading_symbol" = false /\
  @filtered_records Sample.host (with_search untouched "zzz") Sample.unnamed =
    Return [ [("name", VStr "NIFTY")]; [("name", VStr "BANKNIFTY")] ].
Proof. split; vm_compute; reflexivity. Qed.

(** ** The weekly block *)

(** What Python's [==] takes for equal to [True]: the boolean itself and
    the numbers of value one. *)
Lemma py_eq_true_cases v :
  py_eq v (VBool true) = true <->
  v = VBool true \/ v = VInt 1 \/ exists x, v = VFloat x /\ float_eq_int x 1 = true.
Proof.
  destruct v as [| b | z | x | s].
  - split; [discriminate |]. intros [| [| (x & Hx & _)]]; discriminate.
  - destruct b; simpl; split; auto; try discriminate.
    intros [| [| (x & Hx & _)]]; discriminate.
  - change (py_eq (VInt z) (VBool true)) with (1 =? z). rewrite Z.eqb_eq. split.
    + intros <-. auto.
    + intros [| [Hz | (x & Hx & _)]]; try discriminate. congruence.
  - change (py_eq (VFloat x) (VBool true)) with (float_eq_int x 1).
    split; [eauto |]. intros [| [| (y & Hy & Hone)]]; try discriminate. congruence.
  - split; [discriminate |]. intros [| [| (x & Hx & _)]]; discriminate.
Qed.

(** When the buttons are shown, "Weekly Only" keeps the rows whose value
    equals [True] in the sense of [==], and "Monthly Only" those whose
    value equals [False]. *)
Lemma weekly_filter_keeps pick df :
  fst (weekly_filter pick df) = true ->
  rows (snd (weekly_filter pick df)) =
  match pick with
  | AllOptions => rows df
  | WeeklyOnly => filter (fun r => Is_true (py_eq (cell r "weekly") (VBool true))) (rows df)
  | MonthlyOnly => filter (fun r => Is_true (py_eq (cell r "weekly") (VBool false))) (rows df)
  end.
Proof.
  unfold weekly_filter.
  destruct (has_column df "weekly"); [| discriminate].
  destruct (dropna _); [discriminate |].
  destruct pick; reflexivity.
Qed.

(** ** The strike price block with the slider untouched *)

Lemma float_compare_refl x : PyFloat.is_nan x = false -> PyFloat.leb x x = true.
Proof.
  unfold PyFloat.leb, SFleb, SFcompare.
  destruct x as [s | s | | s m e]; try discriminate; intros _.
  - reflexivity.
  - destruct s; reflexivity.
  - rewrite Z.compare_refl.
    change (Pos.compare_cont Eq m m) with (Pos.compare m m).
    rewrite Pos.compare_refl. destruct s; reflexivity.
Qed.

Lemma float_compare_total x y :
  PyFloat.is_nan x = false -> PyFloat.is_nan y = false ->
  PyFloat.ltb y x = false -> PyFloat.leb x y = true.
Proof.
  destruct x as [[] | [] | | [] mx ex], y as [[] | [] | | [] my ey];
    try discriminate; intros _ _; float_order.
Qed.

Lemma float_compare_lt_le x y : PyFloat.ltb x y = true -> PyFloat.leb x y = true.
Proof.
  unfold PyFloat.ltb, PyFloat.leb, SFltb, SFleb.
  destruct (SFcompare x y) as [[] |]; try discriminate; reflexivity.
Qed.

Lemma float_compare_trans x y z :
  PyFloat.leb x y = true -> PyFloat.leb y z = true -> PyFloat.leb x z = true.
Proof.
  destruct x as [[] | [] | | [] mx ex], y as [[] | [] | | [] my ey],
           z as [[] | [] | | [] mz ez]; float_order.
Qed.

Lemma float_compare_not_nan x y : PyFloat.ltb x y = true -> PyFloat.is_nan x = false.
Proof. destruct x; try reflexivity. discriminate. Qed.

(** The minimum is below and the maximum above every value. *)
Lemma float_min_below values x :
  Forall (fun y => PyFloat.is_nan y = false) values ->
  x ∈ values -> PyFloat.leb (float_min values) x = true.
Proof.
  destruct values as [| v values]; [intros _ Hx; inversion Hx |].
  unfold float_min. intros Hall Hx.
  apply Forall_cons in Hall as [Hv Hall].
  assert (Hgen : forall l m,
            Forall (fun y => PyFloat.is_nan y = false) l -> PyFloat.is_nan m = false ->
            let r := fold_left (fun m y => if PyFloat.ltb y m then y else m) l m in
            PyFloat.is_nan r = false /\ PyFloat.leb r m = true /\
            forall y, y ∈ l -> PyFloat.leb r y = true).
  { induction l as [| y l IH]; intros m Hl Hm; simpl.
    - split; [exact Hm |]. split; [apply float_compare_refl, Hm |].
      intros y Hy. inversion Hy.
    - apply Forall_cons in Hl as [Hy Hl].
      destruct (PyFloat.ltb y m) eqn:Hlt.
      + destruct (IH y Hl Hy) as (Hr & Hry & Hrl).
        split; [exact Hr |]. split.
        * eapply float_compare_trans; [exact Hry | apply float_compare_lt_le, Hlt].
        * intros z Hz. apply elem_of_cons in Hz as [-> | Hz]; [exact Hry | apply Hrl, Hz].
      + destruct (IH m Hl Hm) as (Hr & Hrm & Hrl).
        split; [exact Hr |]. split; [exact Hrm |].
        intros z Hz. apply elem_of_cons in Hz as [-> | Hz]; [| apply Hrl, Hz].
        eapply float_compare_trans; [exact Hrm |].
        apply float_compare_total; assumption. }
  destruct (Hgen values v Hall Hv) as (_ & Hrv & Hrl).
  apply elem_of_cons in Hx as [-> | Hx]; [exact Hrv | apply Hrl, Hx].
Qed.

Lemma float_max_above values x :
  Forall (fun y => PyFloat.is_nan y = false) values ->
  x ∈ values -> PyFloat.leb x (float_max values) = true.
Proof.
  destruct values as [| v values]; [intros _ Hx; inversion Hx |].
  unfold float_max. intros Hall Hx.
  apply Forall_cons in Hall as [Hv Hall].
  assert (Hgen : forall l m,
            Forall (fun y => PyFloat.is_nan y = false) l -> PyFloat.is_nan m = false ->
            let r := fold_left (fun m y => if PyFloat.ltb m y then y else m) l m in
            PyFloat.is_nan r = false /\ PyFloat.leb m r = true /\
            forall y, y ∈ l -> PyFloat.leb y r = true).
  { induction l as [| y l IH]; intros m Hl Hm; simpl.
    - split; [exact Hm |]. split; [apply float_compare_refl, Hm |].
      intros y Hy. inversion Hy.
    - apply Forall_cons in Hl as [Hy Hl].
      destruct (PyFloat.ltb m y) eqn:Hlt.
      + destruct (IH y Hl Hy) as (Hr & Hyr & Hlr).
        split; [exact Hr |]. split.
        * eapply float_compare_trans; [apply float_compare_lt_le, Hlt | exact Hyr].
        * intros z Hz. apply elem_of_cons in Hz as [-> | Hz]; [exact Hyr | apply Hlr, Hz].
      + destruct (IH m Hl Hm) as (Hr & Hmr & Hlr).
        split; [exact Hr |]. split; [exact Hmr |].
        intros z Hz. apply elem_of_cons in Hz as [-> | Hz]; [| apply Hlr, Hz].
        eapply float_compare_trans; [| exact Hmr].
        apply float_compare_total; assumption. }
  destruct (Hgen values v Hall Hv) as (_ & Hvr & Hlr).
  apply elem_of_cons in Hx as [-> | Hx]; [exact Hvr | apply Hlr, Hx].
Qed.

Lemma filter_agree {A} (P Q : A -> Prop)
    `{!forall x, Decision (P x)} `{!forall x, Decision (Q x)} (l : list A) :
  (forall x, x ∈ l -> P x <-> Q x) -> filter P l = filter Q l.
Proof.
  induction l as [| a l IH]; intros Hl; [reflexivity |].
  rewrite !filter_cons.
  assert (Ha : P a <-> Q a) by (apply Hl; left).
  rewrite IH by (intros x Hx; apply Hl; right; exact Hx).
  destruct (decide (P a)), (decide (Q a)); tauto.
Qed.

(** With its slider shown and untouched, the strike price block keeps
    exactly the rows whose strike price is a number, in their order: here
    the full range is the no-op the lot size block fails to be. *)
Lemma strike_price_full_range df bounds out :
  strike_price_filter None df = (Some bounds, out) ->
  rows out =
  filter (fun r => Is_true (negb (PyFloat.is_nan (to_numeric (cell r "strike_price")))))
         (rows df).
Proof.
  unfold strike_price_filter.
  destruct (has_column df "strike_price"); [| discriminate].
  destruct (_ <? _)%nat; [| discriminate].
  destruct (negb (PyFloat.eqb _ _)); [| discriminate].
  intros [= _ <-]. simpl.
  apply filter_agree. intros r Hr.
  set (x := to_numeric (cell r "strike_price")).
  destruct (PyFloat.is_nan x) eqn:Hnan; simpl.
  - rewrite andb_false_r. reflexivity.
  - assert (Hall : Forall (fun y => PyFloat.is_nan y = false)
                          (numeric_values df "strike_price")).
    { apply Forall_forall. intros y Hy. unfold numeric_values in Hy.
      apply list_elem_of_filter in Hy as [Hy _].
      destruct (PyFloat.is_nan y); [contradiction | reflexivity]. }
    assert (Hx : x ∈ numeric_values df "strike_price").
    { unfold numeric_values. apply list_elem_of_filter. split.
      - rewrite Hnan. exact I.
      - unfold column. rewrite <- list_fmap_compose.
        apply list_elem_of_fmap. exists r. split; [reflexivity | exact Hr]. }
    rewrite (float_min_below _ _ Hall Hx), (float_max_above _ _ Hall Hx). reflexivity.
Qed.

(** * Further properties of the code *)

(** ** Every displayed row meets every constraint in force *)

Lemma select_rows df mask r :
  r ∈ rows (select df mask) <-> mask r = true /\ r ∈ rows df.
Proof.
  simpl. rewrite list_elem_of_filter. split; intros [Hm Hr]; (split; [| exact Hr]).
  - apply Is_true_true, Hm.
  - apply Is_true_true, Hm.
Qed.

(** The frames between the blocks, with what each block shows. *)
Lemma sidebar_filters_stages `{Host} sel df c out :
  sidebar_filters sel df = Return (c, out) ->
  exists d1 d2 d3 d4 d5 d6 d7,
    category_filter "exchange" (pick_exchange sel) df = (exchanges c, d1) /\
    category_filter "instrument_type" (pick_type sel) d1 = (instrument_types c, d2) /\
    category_filter "segment" (pick_segment sel) d2 = (segments c, d3) /\
    category_filter "underlying_type" (pick_underlying sel) d3 = (underlying_types c, d4) /\
    lot_size_filter (pick_lot sel) d4 = Return (lot_bounds c, d5) /\
    strike_price_filter (pick_strike sel) d5 = (strike_bounds c, d6) /\
    weekly_filter (pick_weekly sel) d6 = (weekly_offered c, d7) /\
    search_filter (search_term sel) d7 = Return out /\
    narrows out d7 /\ narrows out d6 /\ narrows out d5 /\ narrows out d4 /\
    narrows out d3 /\ narrows out d2 /\ narrows out d1.
Proof.
  intros Hs. apply sidebar_filters_inv in Hs. cbv zeta in Hs.
  destruct Hs as (c_lot & d5 & Hlot & Hsearch & ->).
  set (d1 := snd (category_filter "exchange" (pick_exchange sel) df)) in *.
  set (d2 := snd (category_filter "instrument_type" (pick_type sel) d1)) in *.
  set (d3 := snd (category_filter "segment" (pick_segment sel) d2)) in *.
  set (d4 := snd (category_filter "underlying_type" (pick_underlying sel) d3)) in *.
  set (d6 := snd (strike_price_filter (pick_strike sel) d5)) in *.
  set (d7 := snd (weekly_filter (pick_weekly sel) d6)) in *.
  assert (N7 : narrows out d7) by (eapply search_filter_narrows; exact Hsearch).
  assert (N6 : narrows out d6)
    by (eapply narrows_trans; [exact N7 | apply weekly_filter_narrows]).
  assert (N5 : narrows out d5)
    by (eapply narrows_trans; [exact N6 | apply strike_price_filter_narrows]).
  assert (N4 : narrows out d4)
    by (eapply narrows_trans; [exact N5 | exact (lot_size_filter_narrows _ _ _ Hlot)]).
  assert (N3 : narrows out d3)
    by (eapply narrows_trans; [exact N4 | apply category_filter_narrows]).
  assert (N2 : narrows out d2)
    by (eapply narrows_trans; [exact N3 | apply category_filter_narrows]).
  assert (N1 : narrows out d1)
    by (eapply narrows_trans; [exact N2 | apply category_filter_narrows]).
  exists d1, d2, d3, d4, d5, d6, d7. simpl.
  repeat split; try assumption; try apply N7; try apply N6; try apply N5; try apply N4;
    try apply N3; try apply N2; try apply N1; try (subst d1 d2 d3 d4 d6 d7; apply surjective_pairing).
Qed.

Lemma category_filter_sound `{Host} col pick df options out r :
  category_filter col pick df = (Some options, out) ->
  selectbox options pick <> "All" ->
  r ∈ rows out ->
  PyStr.strip (astype_str (cell r col)) = selectbox options pick.
Proof.
  unfold category_filter.
  destruct (has_column df col); [| discriminate].
  destruct (category_values df col) as [| v vs]; [discriminate |].
  set (opts := category_options (v :: vs)).
  destruct (String.eqb_spec (selectbox opts pick) "All") as [Hall | Hne]; simpl.
  - intros [= <- <-]. contradiction.
  - intros [= <- <-] _ Hr. apply select_rows in Hr as [Hm _].
    apply String.eqb_eq, Hm.
Qed.

(** X1.  When a select box of the sidebar is shown and a value other than
    [All] is selected in it, every row that is displayed has that value
    in the column of the box, as a trimmed string.  This holds for all
    four boxes at once: exchange, instrument type, segment and underlying
    type. *)
Theorem displayed_rows_have_the_selected_categories `{Host}
    (sel : Selection) (df out : DataFrame) (c : Controls) (r : gmap string pyval) :
  sidebar_filters sel df = Return (c, out) ->
  r ∈ rows out ->
  (forall options, exchanges c = Some options ->
     selectbox options (pick_exchange sel) <> "All" ->
     PyStr.strip (astype_str (cell r "exchange")) = selectbox options (pick_exchange sel)) /\
  (forall options, instrument_types c = Some options ->
     selectbox options (pick_type sel) <> "All" ->
     PyStr.strip (astype_str (cell r "instrument_type")) = selectbox options (pick_type sel)) /\
  (forall options, segments c = Some options ->
     selectbox options (pick_segment sel) <> "All" ->
     PyStr.strip (astype_str (cell r "segment")) = selectbox options (pick_segment sel)) /\
  (forall options, underlying_types c = Some options ->
     selectbox options (pick_underlying sel) <> "All" ->
     PyStr.strip (astype_str (cell r "underlying_type")) =
       selectbox options (pick_underlying sel)).
Proof.
  intros Hs Hr.
  destruct (sidebar_filters_stages _ _ _ _ Hs)
    as (d1 & d2 & d3 & d4 & d5 & d6 & d7 & H1 & H2 & H3 & H4 & _ & _ & _ & _ &
        _ & _ & _ & N4 & N3 & N2 & N1).
  repeat split; intros options Hopt Hsel.
  - rewrite Hopt in H1. eapply category_filter_sound; [exact H1 | exact Hsel |].
    exact (sublist_subseteq _ _ (proj2 N1) r Hr).
  - rewrite Hopt in H2. eapply category_filter_sound; [exact H2 | exact Hsel |].
    exact (sublist_subseteq _ _ (proj2 N2) r Hr).
  - rewrite Hopt in H3. eapply category_filter_sound; [exact H3 | exact Hsel |].
    exact (sublist_subseteq _ _ (proj2 N3) r Hr).
  - rewrite Hopt in H4. eapply category_filter_sound; [exact H4 | exact Hsel |].
    exact (sublist_subseteq _ _ (proj2 N4) r Hr).
Qed.

Lemma displayed_rows_have_the_selected_categories_witness :
  let df := frame_of_records Sample.three_records in
  let out := frame_of_records
               [ [("exchange", VStr "NSE"); ("lot_size", VInt 50); ("weekly", VBool true)] ] in
  let c := {| exchanges := Some ["All"; "BSE"; "NSE"]; instrument_types := None;
              segments := None; underlying_types := None; lot_bounds := None;
              strike_bounds := None; weekly_offered := true |} in
  @sidebar_filters Sample.host Sample.nse_weekly df = Return (c, out) /\
  forall r, r ∈ rows out ->
    PyStr.strip (@astype_str Sample.host (cell r "exchange")) = "NSE".
Proof.
  intros df out c.
  assert (Hs : @sidebar_filters Sample.host Sample.nse_weekly df = Return (c, out))
    by (vm_compute; reflexivity).
  split; [exact Hs |]. intros r Hr.
  destruct (@displayed_rows_have_the_selected_categories Sample.host _ _ _ _ r Hs Hr)
    as (Hex & _).
  apply (Hex ["All"; "BSE"; "NSE"] eq_refl). vm_compute. discriminate.
Defined.

(** ** Floats, and columns of integers *)

Lemma float_eqb_leb x y : PyFloat.eqb x y = true -> PyFloat.leb x y = true.
Proof.
  unfold PyFloat.eqb, SFeqb, PyFloat.leb, SFleb.
  destruct (SFcompare x y) as [[] |]; try discriminate; reflexivity.
Qed.

Lemma float_eqb_sym x y : PyFloat.eqb x y = true -> PyFloat.eqb y x = true.
Proof.
  unfold PyFloat.eqb, SFeqb.
  destruct x as [[] | [] | | [] mx ex], y as [[] | [] | | [] my ey]; float_order.
Qed.

Lemma float_compare_antisym x y :
  PyFloat.leb x y = true -> PyFloat.leb y x = true -> PyFloat.eqb x y = true.
Proof.
  unfold PyFloat.eqb, SFeqb.
  destruct x as [[] | [] | | [] mx ex], y as [[] | [] | | [] my ey]; float_order.
Qed.

Lemma float_eqb_refl x : PyFloat.is_nan x = false -> PyFloat.eqb x x = true.
Proof. intros Hx. apply float_compare_antisym; apply float_compare_refl, Hx. Qed.

Lemma float_eqb_trans x y z :
  PyFloat.eqb x y = true -> PyFloat.eqb y z = true -> PyFloat.eqb x z = true.
Proof.
  intros Hxy Hyz. apply float_compare_antisym.
  - eapply float_compare_trans; apply float_eqb_leb; eassumption.
  - eapply float_compare_trans; apply float_eqb_leb, float_eqb_sym; eassumption.
Qed.

Lemma unique_floats_elem x values : x ∈ unique_floats values -> x ∈ values.
Proof.
  induction values as [| v values IH]; simpl; intros Hx; [exact Hx |].
  apply elem_of_cons in Hx as [-> | Hx]; [left | right].
  apply list_elem_of_filter in Hx as [_ Hx]. apply IH, Hx.
Qed.

Lemma unique_floats_cover values z :
  Forall (fun y => PyFloat.is_nan y = false) values ->
  z ∈ values -> exists u, u ∈ unique_floats values /\ PyFloat.eqb u z = true.
Proof.
  induction 1 as [| v values Hv Hall IH]; intros Hz; [inversion Hz |].
  simpl. apply elem_of_cons in Hz as [-> | Hz].
  - exists v. split; [left | apply float_eqb_refl, Hv].
  - destruct (IH Hz) as (u & Hu & Huz).
    destruct (PyFloat.eqb v u) eqn:Hvu.
    + exists v. split; [left | eapply float_eqb_trans; eassumption].
    + exists u. split; [| exact Huz]. right.
      apply list_elem_of_filter. split; [rewrite Hvu; exact I | exact Hu].
Qed.

(** There is more than one distinct value exactly when two of the values
    are not equal. *)
Lemma unique_floats_two values :
  Forall (fun y => PyFloat.is_nan y = false) values ->
  (1 < length (unique_floats values))%nat <->
  exists x y, x ∈ values /\ y ∈ values /\ PyFloat.eqb x y = false.
Proof.
  intros Hall. split.
  - destruct values as [| v values]; simpl; [lia |].
    destruct (filter _ (unique_floats values)) as [| y rest] eqn:Hrest; simpl; [lia |].
    intros _. assert (Hy : y ∈ y :: rest) by left. rewrite <- Hrest in Hy.
    apply list_elem_of_filter in Hy as [Hvy Hy].
    exists v, y. split; [left |]. split; [right; apply unique_floats_elem, Hy |].
    destruct (PyFloat.eqb v y); [contradiction | reflexivity].
  - intros (x & y & Hx & Hy & Hxy).
    destruct values as [| v values]; [inversion Hx |].
    apply Forall_cons in Hall as [Hv Hall].
    assert (Hz : exists z, z ∈ values /\ PyFloat.eqb v z = false).
    { apply elem_of_cons in Hx as [-> | Hx], Hy as [-> | Hy].
      - rewrite float_eqb_refl in Hxy by exact Hv. discriminate.
      - eauto.
      - exists x. split; [exact Hx |].
        destruct (PyFloat.eqb v x) eqn:Hvx; [| reflexivity].
        apply float_eqb_sym in Hvx. congruence.
      - destruct (PyFloat.eqb v x) eqn:Hvx; [| eauto].
        exists y. split; [exact Hy |].
        destruct (PyFloat.eqb v y) eqn:Hvy; [| reflexivity].
        apply float_eqb_sym in Hvx.
        rewrite (float_eqb_trans _ _ _ Hvx Hvy) in Hxy. discriminate. }
    destruct Hz as (z & Hz & Hvz).
    destruct (unique_floats_cover values z Hall Hz) as (u & Hu & Huz).
    assert (Hin : u ∈ filter (fun y => Is_true (negb (PyFloat.eqb v y))) (unique_floats values)).
    { apply list_elem_of_filter. split; [| exact Hu].
      destruct (PyFloat.eqb v u) eqn:Hvu; [| exact I].
      rewrite (float_eqb_trans _ _ _ Hvu Huz) in Hvz. discriminate. }
    simpl. destruct (filter _ (unique_floats values)); [inversion Hin | simpl; lia].
Qed.

(** Two values that are not equal keep the minimum and the maximum apart:
    the test [min_strike != max_strike] never fails. *)
Lemma float_min_max_apart values x y :
  Forall (fun y => PyFloat.is_nan y = false) values ->
  x ∈ values -> y ∈ values -> PyFloat.eqb x y = false ->
  PyFloat.eqb (float_min values) (float_max values) = false.
Proof.
  intros Hall Hx Hy Hxy.
  destruct (PyFloat.eqb (float_min values) (float_max values)) eqn:Heq; [| reflexivity].
  assert (Hle : PyFloat.leb (float_max values) (float_min values) = true)
    by (apply float_eqb_leb, float_eqb_sym, Heq).
  assert (Hany : forall a b, a ∈ values -> b ∈ values -> PyFloat.leb a b = true).
  { intros a b Ha Hb.
    eapply float_compare_trans; [apply float_max_above; eassumption |].
    eapply float_compare_trans; [exact Hle | apply float_min_below; assumption]. }
  rewrite (float_compare_antisym x y) in Hxy by (apply Hany; assumption).
  discriminate.
Qed.

Lemma fold_left_choice {A} (f : A -> A -> A) (l : list A) : forall m,
  (forall a b, f a b = a \/ f a b = b) -> fold_left f l m ∈ m :: l.
Proof.
  induction l as [| y l IH]; intros m Hf; simpl; [left |].
  specialize (IH (f m y) Hf).
  apply elem_of_cons in IH as [-> | IH].
  - destruct (Hf m y) as [-> | ->]; [left | right; left].
  - right. right. exact IH.
Qed.

Lemma float_min_elem values : values <> [] -> float_min values ∈ values.
Proof.
  destruct values as [| v values]; [contradiction |]. intros _.
  unfold float_min. apply fold_left_choice.
  intros a b. destruct (PyFloat.ltb b a); auto.
Qed.

Lemma float_max_elem values : values <> [] -> float_max values ∈ values.
Proof.
  destruct values as [| v values]; [contradiction |]. intros _.
  unfold float_max. apply fold_left_choice.
  intros a b. destruct (PyFloat.ltb a b); auto.
Qed.

Lemma numeric_values_not_nan df col :
  Forall (fun y => PyFloat.is_nan y = false) (numeric_values df col).
Proof.
  apply Forall_forall. intros y Hy. unfold numeric_values in Hy.
  apply list_elem_of_filter in Hy as [Hy _].
  destruct (PyFloat.is_nan y); [contradiction | reflexivity].
Qed.

Lemma numeric_values_elem df col x :
  x ∈ numeric_values df col <->
  PyFloat.is_nan x = false /\ exists r, r ∈ rows df /\ x = to_numeric (cell r col).
Proof.
  unfold numeric_values, column. split.
  - intros Hx. apply list_elem_of_filter in Hx as [Hnan Hx].
    apply list_elem_of_fmap in Hx as (v & -> & Hv).
    apply list_elem_of_fmap in Hv as (r & -> & Hr).
    split; [| eauto]. destruct (PyFloat.is_nan _); [contradiction | reflexivity].
  - intros [Hnan (r & Hr & ->)]. apply list_elem_of_filter.
    split; [rewrite Hnan; exact I |].
    apply list_elem_of_fmap. eexists. split; [reflexivity |].
    apply list_elem_of_fmap. eexists. split; [reflexivity | exact Hr].
Qed.

Lemma numeric_values_narrows out df col x :
  narrows out df -> x ∈ numeric_values out col -> x ∈ numeric_values df col.
Proof.
  intros [_ Hrows]. rewrite !numeric_values_elem.
  intros [Hx (r & Hr & ->)]. split; [exact Hx |].
  exists r. split; [exact (sublist_subseteq _ _ Hrows r Hr) | reflexivity].
Qed.


(** ** Integer columns *)

Lemma shr_1_nonneg mrs : 0 <= shr_m mrs -> 0 <= shr_m (shr_1 mrs).
Proof.
  destruct mrs as [m r s]. simpl. intros Hm.
  destruct m as [| [p | p |] | p]; simpl; lia.
Qed.

Lemma iter_pos_shr_1_nonneg p : forall mrs, 0 <= shr_m mrs -> 0 <= shr_m (SpecFloat.iter_pos shr_1 p mrs).
Proof.
  induction p as [p IH | p IH |]; intros mrs Hm; simpl.
  - apply IH, IH, shr_1_nonneg, Hm.
  - apply IH, IH, Hm.
  - apply shr_1_nonneg, Hm.
Qed.

Lemma shr_fexp_nonneg prec emax m e l :
  0 <= m -> 0 <= shr_m (fst (shr_fexp prec emax m e l)).
Proof.
  intros Hm. unfold shr_fexp, shr.
  assert (H0 : 0 <= shr_m (shr_record_of_loc m l)) by (destruct l as [| []]; exact Hm).
  destruct (_ - e); simpl; try exact H0. apply iter_pos_shr_1_nonneg, H0.
Qed.

Lemma binary_round_aux_not_nan prec emax sx mx ex lx :
  0 <= mx -> binary_round_aux prec emax sx mx ex lx <> S754_nan.
Proof.
  intros Hm. unfold binary_round_aux.
  pose proof (shr_fexp_nonneg prec emax mx ex lx Hm) as H1.
  destruct (shr_fexp prec emax mx ex lx) as [mrs' e']. simpl in H1.
  assert (H2 : 0 <= round_nearest_even (shr_m mrs') (loc_of_shr_record mrs')).
  { unfold round_nearest_even. destruct (loc_of_shr_record mrs') as [| []]; try lia.
    destruct (Z.even _); lia. }
  pose proof (shr_fexp_nonneg prec emax _ e' loc_Exact H2) as H3.
  destruct (shr_fexp prec emax _ e' loc_Exact) as [mrs'' e'']. simpl in H3.
  destruct (shr_m mrs''); try lia; try discriminate.
  destruct (_ <=? _); discriminate.
Qed.

Lemma binary_normalize_not_nan prec emax m e szero :
  binary_normalize prec emax m e szero <> S754_nan.
Proof.
  unfold binary_normalize, binary_round. destruct m; try discriminate;
    destruct (shl_align _ _ _); apply binary_round_aux_not_nan; lia.
Qed.

Lemma of_Z_not_nan z : PyFloat.is_nan (PyFloat.of_Z z) = false.
Proof.
  pose proof (binary_normalize_not_nan PyFloat.prec PyFloat.emax z 0 false) as Hz.
  unfold PyFloat.of_Z. destruct (binary_normalize _ _ _ _ _); try reflexivity.
  contradiction.
Qed.

Lemma float_eqb_not_nan x y :
  PyFloat.eqb x y = true -> PyFloat.is_nan x = false /\ PyFloat.is_nan y = false.
Proof. destruct x, y; try discriminate; split; reflexivity. Qed.

Lemma span_digits_nonneg s : forall count value,
  0 <= count -> 0 <= value ->
  0 <= fst (fst (PyFloat.span_digits s count value)) /\
  0 <= snd (fst (PyFloat.span_digits s count value)).
Proof.
  induction s as [| c s IH]; intros count value Hc Hv; simpl; [lia |].
  destruct (PyFloat.is_digit c) eqn:Hd; simpl; [| lia].
  apply IH; [lia |].
  unfold PyFloat.is_digit in Hd. apply andb_true_iff in Hd as [Hlo _].
  apply N.leb_le in Hlo. unfold PyFloat.digit_value. lia.
Qed.

(** A text of digits is no word for an infinity or a NaN. *)
Lemma span_digits_word body n v :
  PyFloat.span_digits body 0 0 = (n, v, "") -> 0 < n ->
  let word := PyStr.lower body in
  String.eqb word "inf" || String.eqb word "infinity" = false /\ String.eqb word "nan" = false.
Proof.
  destruct body as [| c body].
  - simpl. intros [= <- _]. lia.
  - cbn [PyFloat.span_digits].
    destruct (PyFloat.is_digit c) eqn:Hd; [| intros [= <- _]; lia].
    intros _ _. cbv zeta.
    change (PyStr.lower (String c body))
      with (String (PyStr.lower_char c) (PyStr.lower body)).
    assert (Hc : forall d w, PyFloat.is_digit d = false ->
                             String (PyStr.lower_char c) (PyStr.lower body) <> String d w).
    { intros d w Hd' [= E _]. revert Hd Hd'. rewrite <- E. clear.
      destruct c as [[] [] [] [] [] [] [] []]; vm_compute; congruence. }
    rewrite orb_false_iff, !String.eqb_neq.
    repeat split; apply Hc; reflexivity.
Qed.

Lemma of_ascii_integer s neg body n v :
  PyFloat.read_sign (PyFloat.c_strip s) = (neg, body) ->
  PyFloat.span_digits body 0 0 = (n, v, "") -> 0 < n ->
  PyFloat.of_ascii false s = Some (PyFloat.of_decimal neg v 0).
Proof.
  intros Hsign Hdigits Hn. unfold PyFloat.of_ascii. rewrite Hsign.
  destruct (span_digits_word body n v Hdigits Hn) as [Hinf Hnan]. cbv zeta in *.
  rewrite Hinf, Hnan. unfold PyFloat.read_decimal. rewrite Hdigits.
  replace (n + 0 =? 0) with false by (symmetry; apply Z.eqb_neq; lia).
  simpl. reflexivity.
Qed.

Lemma of_decimal_integer neg v :
  0 <= v ->
  PyFloat.eqb (PyFloat.of_decimal neg v 0) (PyFloat.of_Z (if neg then - v else v)) = true.
Proof.
  intros Hv. unfold PyFloat.of_decimal. destruct v as [| p | p]; [| | lia].
  - destruct neg; reflexivity.
  - replace (310 <? 0) with false by reflexivity.
    assert (Hb : (PyFloat.decimal_bound (Z.pos p) + 0 <? -330) = false).
    { apply Z.ltb_ge. unfold PyFloat.decimal_bound.
      pose proof (Z.log2_nonneg (Z.pos p)).
      assert (0 <= Z.log2 (Z.pos p) / 3) by (apply Z.div_pos; lia). lia. }
    rewrite Hb. replace (0 <=? 0) with true by reflexivity.
    replace (Z.pos p * 10 ^ 0) with (Z.pos p) by lia.
    destruct neg.
    + apply (float_eqb_refl (PyFloat.of_Z (Z.neg p))), of_Z_not_nan.
    + apply (float_eqb_refl (PyFloat.of_Z (Z.pos p))), of_Z_not_nan.
Qed.

(** The float of a cell that stands for an integer is the float of that
    integer. *)
Lemma as_integer_to_numeric v z :
  as_integer v = Some z -> PyFloat.eqb (to_numeric v) (PyFloat.of_Z z) = true.
Proof.
  destruct v as [| b | z' | x | s]; simpl; try discriminate.
  - intros [= <-]. apply float_eqb_refl, of_Z_not_nan.
  - intros [= <-]. apply float_eqb_refl, of_Z_not_nan.
  - destruct (PyFloat.read_sign (PyFloat.c_strip s)) as [neg body] eqn:Hsign.
    destruct (PyFloat.span_digits body 0 0) as [[n v] rest] eqn:Hdigits.
    destruct (Z.ltb_spec 0 n) as [Hn |]; [| discriminate].
    destruct (String.eqb_spec rest "") as [-> |]; [| discriminate].
    simpl. intros [= <-].
    rewrite (of_ascii_integer s neg body n v Hsign Hdigits Hn). simpl.
    apply of_decimal_integer.
    pose proof (span_digits_nonneg body 0 0 ltac:(lia) ltac:(lia)) as [_ Hv].
    rewrite Hdigits in Hv. exact Hv.
Qed.

Lemma as_integer_not_nan v z :
  as_integer v = Some z -> PyFloat.is_nan (to_numeric v) = false.
Proof.
  intros Hv. exact (proj1 (float_eqb_not_nan _ _ (as_integer_to_numeric v z Hv))).
Qed.

Lemma integers_of_Forall2 cells : forall zs,
  integers_of cells = Some zs -> Forall2 (fun v z => as_integer v = Some z) cells zs.
Proof.
  induction cells as [| v cells IH]; simpl; intros zs.
  - intros [= <-]. constructor.
  - destruct (as_integer v) as [z |] eqn:Hv; [| discriminate].
    destruct (integers_of cells) as [zs' |]; [| discriminate].
    intros [= <-]. constructor; [exact Hv | apply IH; reflexivity].
Qed.

Lemma integer_values_Forall2 cells zs :
  integer_values cells = Some zs -> Forall2 (fun v z => as_integer v = Some z) cells zs.
Proof.
  unfold integer_values. destruct (integers_of cells) as [zs' |] eqn:E; [| discriminate].
  destruct (fits_int64 zs'); [| discriminate]. intros [= <-].
  apply integers_of_Forall2, E.
Qed.

Lemma Forall2_elem_l {A B} (P : A -> B -> Prop) l k x :
  Forall2 P l k -> x ∈ l -> exists y, y ∈ k /\ P x y.
Proof.
  induction 1 as [| a b l k Hab _ IH]; intros Hx; [inversion Hx |].
  apply elem_of_cons in Hx as [-> | Hx].
  - exists b. split; [left | exact Hab].
  - destruct (IH Hx) as (y & Hy & Hxy). exists y. split; [right; exact Hy | exact Hxy].
Qed.

Lemma remove_dups_two (l : list Z) a b :
  a ∈ l -> b ∈ l -> a <> b -> (1 < length (remove_dups l))%nat.
Proof.
  intros Ha Hb Hab.
  assert (Hsub : [a; b] ⊆+ remove_dups l).
  { apply NoDup_submseteq.
    - apply NoDup_cons. split; [| apply NoDup_singleton].
      intros Hin. apply list_elem_of_singleton in Hin. contradiction.
    - intros x Hx. apply elem_of_remove_dups.
      apply elem_of_cons in Hx as [-> | Hx]; [exact Ha |].
      apply list_elem_of_singleton in Hx. subst. exact Hb. }
  apply submseteq_length in Hsub. simpl in Hsub. lia.
Qed.

(** Two cells whose floats are not equal are two distinct values. *)
Lemma numeric_nunique_two cells c1 c2 :
  c1 ∈ cells -> c2 ∈ cells ->
  PyFloat.is_nan (to_numeric c1) = false -> PyFloat.is_nan (to_numeric c2) = false ->
  PyFloat.eqb (to_numeric c1) (to_numeric c2) = false ->
  (1 < numeric_nunique cells)%nat.
Proof.
  intros H1 H2 Hn1 Hn2 Hne. unfold numeric_nunique.
  destruct (integer_values cells) as [zs |] eqn:Hints.
  - apply integer_values_Forall2 in Hints.
    destruct (Forall2_elem_l _ _ _ _ Hints H1) as (z1 & Hz1 & Hc1).
    destruct (Forall2_elem_l _ _ _ _ Hints H2) as (z2 & Hz2 & Hc2).
    apply (remove_dups_two zs z1 z2); try assumption.
    intros ->. apply as_integer_to_numeric in Hc1, Hc2.
    rewrite (float_eqb_trans _ _ _ Hc1 (float_eqb_sym _ _ Hc2)) in Hne. discriminate.
  - apply unique_floats_two.
    + apply Forall_forall. intros y Hy. apply list_elem_of_filter in Hy as [Hy _].
      destruct (PyFloat.is_nan y); [contradiction | reflexivity].
    + exists (to_numeric c1), (to_numeric c2).
      split; [| split; [| exact Hne]]; apply list_elem_of_filter;
        (split; [rewrite ?Hn1, ?Hn2; exact I |]);
        apply list_elem_of_fmap; eexists; split; try reflexivity; assumption.
Qed.

(** More than one distinct value leaves a value that is a number. *)
Lemma numeric_nunique_values cells :
  (1 < numeric_nunique cells)%nat ->
  filter (fun x => Is_true (negb (PyFloat.is_nan x))) (map to_numeric cells) <> [].
Proof.
  unfold numeric_nunique.
  destruct (integer_values cells) as [zs |] eqn:Hints.
  - apply integer_values_Forall2 in Hints. intros Hlen.
    destruct Hints as [| c z cells zs Hc _]; [simpl in Hlen; lia |].
    simpl. rewrite filter_cons_True; [discriminate |].
    rewrite (as_integer_not_nan c z Hc). exact I.
  - intros Hlen Hnil. rewrite Hnil in Hlen. simpl in Hlen. lia.
Qed.





Lemma weekly_filter_sound pick df out r :
  weekly_filter pick df = (true, out) ->
  r ∈ rows out ->
  match pick with
  | AllOptions => True
  | WeeklyOnly => py_eq (cell r "weekly") (VBool true) = true
  | MonthlyOnly => py_eq (cell r "weekly") (VBool false) = true
  end.
Proof.
  unfold weekly_filter.
  destruct (has_column df "weekly"); [| discriminate].
  destruct (dropna _); [discriminate |].
  destruct pick; intros [= <-] Hr; [exact I | |];
    apply select_rows in Hr as [Hm _]; exact Hm.
Qed.

Lemma search_filter_sound `{Host} term df out r :
  term <> "" -> has_column df "trading_symbol" = true ->
  search_filter term df = Return out ->
  r ∈ rows out ->
  exists found, str_contains term = Return found /\
                found (astype_str (cell r "trading_symbol")) = true.
Proof.
  intros Hterm Hcol. unfold search_filter. rewrite Hcol.
  destruct (String.eqb_spec term ""); [contradiction |]. simpl.
  destruct (str_contains term) as [found |]; [| discriminate].
  simpl. intros [= <-] Hr. apply select_rows in Hr as [Hm _]. eauto.
Qed.

(** X3.  When the weekly buttons are shown and "Weekly Only" is chosen,
    the weekly value of every row that is displayed equals [True] in the
    sense of [==]; with "Monthly Only" it equals [False].  When a search
    term is entered and the frame has the column [trading_symbol], the
    term, compiled as a pattern, is found in the trading symbol of every
    row that is displayed. *)
Theorem displayed_rows_match_weekly_and_search `{Host}
    (sel : Selection) (df out : DataFrame) (c : Controls) (r : gmap string pyval) :
  sidebar_filters sel df = Return (c, out) ->
  r ∈ rows out ->
  (weekly_offered c = true ->
     match pick_weekly sel with
     | AllOptions => True
     | WeeklyOnly => py_eq (cell r "weekly") (VBool true) = true
     | MonthlyOnly => py_eq (cell r "weekly") (VBool false) = true
     end) /\
  (search_term sel <> "" -> has_column df "trading_symbol" = true ->
     exists found, str_contains (search_term sel) = Return found /\
                   found (astype_str (cell r "trading_symbol")) = true).
Proof.
  intros Hs Hr.
  destruct (sidebar_filters_stages _ _ _ _ Hs)
    as (d1 & d2 & d3 & d4 & d5 & d6 & d7 & _ & _ & _ & _ & _ & _ & Hweekly & Hsearch &
        N7 & _).
  split.
  - intros Hoffered. rewrite Hoffered in Hweekly.
    eapply weekly_filter_sound; [exact Hweekly |].
    exact (sublist_subseteq _ _ (proj2 N7) r Hr).
  - intros Hterm Hcol.
    eapply search_filter_sound; [exact Hterm | | exact Hsearch | exact Hr].
    assert (Hout : narrows out df).
    { apply (filtered_narrows sel). unfold filtered. rewrite Hs. reflexivity. }
    rewrite <- (has_column_narrows out d7) by exact N7.
    rewrite (has_column_narrows out df) by exact Hout. exact Hcol.
Qed.

Lemma displayed_rows_match_weekly_and_search_witness :
  let df := frame_of_records Sample.three_records in
  let out := frame_of_records
               [ [("exchange", VStr "NSE"); ("lot_size", VInt 50); ("weekly", VBool true)] ] in
  let c := {| exchanges := Some ["All"; "BSE"; "NSE"]; instrument_types := None;
              segments := None; underlying_types := None; lot_bounds := None;
              strike_bounds := None; weekly_offered := true |} in
  @sidebar_filters Sample.host Sample.nse_weekly df = Return (c, out) /\
  forall r, r ∈ rows out -> py_eq (cell r "weekly") (VBool true) = true.
Proof.
  intros df out c.
  assert (Hs : @sidebar_filters Sample.host Sample.nse_weekly df = Return (c, out))
    by (vm_compute; reflexivity).
  split; [exact Hs |]. intros r Hr.
  destruct (@displayed_rows_match_weekly_and_search Sample.host _ _ _ _ r Hs Hr)
    as (Hweekly & _).
  exact (Hweekly eq_refl).
Defined.

(** ** Filtering what is already filtered *)

Lemma filter_all {A} (P : A -> Prop) `{!forall x, Decision (P x)} (l : list A) :
  (forall x, x ∈ l -> P x) -> filter P l = l.
Proof.
  induction l as [| a l IH]; intros Hl; [reflexivity |].
  rewrite filter_cons_True by (apply Hl; left).
  rewrite IH; [reflexivity |]. intros x Hx. apply Hl. right. exact Hx.
Qed.

Lemma select_all df mask :
  (forall r, r ∈ rows df -> mask r = true) -> select df mask = df.
Proof.
  intros Hall. destruct df as [cols rs]. unfold select. simpl in *. f_equal.
  apply filter_all. intros r Hr. rewrite (Hall r Hr). exact I.
Qed.

Lemma category_values_elem `{Host} df col v :
  v ∈ category_values df col <->
  exists r, r ∈ rows df /\ isna (cell r col) = false /\
            v = astype_str (cell r col) /\ PyStr.strip v <> "".
Proof.
  unfold category_values, dropna, column.
  rewrite list_elem_of_filter, list_elem_of_fmap. split.
  - intros [Hne (x & -> & Hx)].
    apply list_elem_of_filter in Hx as [Hna Hx].
    apply list_elem_of_fmap in Hx as (r & -> & Hr).
    exists r. repeat split; try assumption.
    + destruct (isna (cell r col)); [contradiction | reflexivity].
    + intros Hb. rewrite Hb in Hne. exact Hne.
  - intros (r & Hr & Hna & -> & Hne). split.
    + destruct (String.eqb_spec (PyStr.strip (astype_str (cell r col))) "");
        [contradiction | exact I].
    + exists (cell r col). split; [reflexivity |].
      apply list_elem_of_filter. split; [rewrite Hna; exact I |].
      apply list_elem_of_fmap. exists r. split; [reflexivity | exact Hr].
Qed.

Lemma category_options_elem values v :
  v ∈ category_options values <-> v = "All" \/ v ∈ values.
Proof.
  unfold category_options.
  rewrite elem_of_cons, merge_sort_Permutation, elem_of_remove_dups. reflexivity.
Qed.

(** A select box returns the choice of the user when it offers it, and
    [All] otherwise. *)
Lemma selectbox_category values pick :
  selectbox (category_options values) pick <> "All" ->
  selectbox (category_options values) pick = pick /\ pick ∈ values.
Proof.
  unfold selectbox. destruct (bool_decide_reflect (pick ∈ category_options values)) as [Hin | Hout].
  - intros Hne. split; [reflexivity |].
    apply category_options_elem in Hin as [-> | Hin]; [contradiction | exact Hin].
  - simpl. contradiction.
Qed.

(** A frame with rows of what a select box has left is left as it is by
    the same select box. *)
Lemma category_filter_fixed `{Host} col pick d out :
  narrows out (snd (category_filter col pick d)) ->
  snd (category_filter col pick out) = out.
Proof.
  intros Hout.
  assert (Hd : narrows out d)
    by (eapply narrows_trans; [exact Hout | apply category_filter_narrows]).
  unfold category_filter at 1.
  destruct (has_column out col) eqn:Hcol; [| reflexivity].
  destruct (category_values out col) as [| v vs] eqn:Hvalues; [reflexivity |].
  rewrite <- Hvalues.
  destruct (String.eqb_spec (selectbox (category_options (category_values out col)) pick) "All")
    as [Hall | Hne]; [reflexivity |]. simpl.
  destruct (selectbox_category _ _ Hne) as [Hsel Hpick]. rewrite Hsel.
  apply select_all. intros r Hr.
  assert (Hpick_d : pick ∈ category_values d col).
  { apply category_values_elem in Hpick as (r0 & Hr0 & Hrest).
    apply category_values_elem. exists r0. split; [| exact Hrest].
    exact (sublist_subseteq _ _ (proj2 Hd) r0 Hr0). }
  assert (Hrd : r ∈ rows (snd (category_filter col pick d)))
    by exact (sublist_subseteq _ _ (proj2 Hout) r Hr).
  unfold category_filter in Hrd.
  rewrite <- (has_column_narrows out d) in Hrd by exact Hd. rewrite Hcol in Hrd.
  destruct (category_values d col) as [| w ws] eqn:Hvd; [inversion Hpick_d |].
  rewrite <- Hvd in *.
  assert (Hsel_d : selectbox (category_options (category_values d col)) pick = pick).
  { unfold selectbox. rewrite bool_decide_eq_true_2; [reflexivity |].
    apply category_options_elem. right. exact Hpick_d. }
  rewrite Hsel_d in Hrd.
  destruct (String.eqb_spec pick "All") as [-> | _].
  - exfalso. apply Hne. rewrite Hsel. reflexivity.
  - simpl in Hrd. apply select_rows in Hrd as [Hm _]. exact Hm.
Qed.

(** X4.  Each of the four select box blocks is idempotent: applied to the
    frame it has left, with the same choice, it leaves that frame as it
    is, whether or not the box is shown again. *)
Theorem category_filter_idempotent `{Host} (col pick : string) (df : DataFrame) :
  snd (category_filter col pick (snd (category_filter col pick df))) =
  snd (category_filter col pick df).
Proof. apply (category_filter_fixed col pick df). apply narrows_refl. Qed.

Lemma weekly_filter_fixed pick d out :
  narrows out (snd (weekly_filter pick d)) ->
  snd (weekly_filter pick out) = out.
Proof.
  intros Hout.
  assert (Hd : narrows out d)
    by (eapply narrows_trans; [exact Hout | apply weekly_filter_narrows]).
  unfold weekly_filter at 1.
  destruct (has_column out "weekly") eqn:Hcol; [| reflexivity].
  destruct (dropna (column out "weekly")) as [| v vs] eqn:Hvalues; [reflexivity |].
  assert (Hoffered : exists w ws, dropna (column d "weekly") = w :: ws).
  { assert (Hv : v ∈ dropna (column out "weekly")) by (rewrite Hvalues; left).
    unfold dropna, column in Hv. apply list_elem_of_filter in Hv as [Hna Hv].
    apply list_elem_of_fmap in Hv as (r & -> & Hr).
    assert (Hin : cell r "weekly" ∈ dropna (column d "weekly")).
    { unfold dropna, column. apply list_elem_of_filter. split; [exact Hna |].
      apply list_elem_of_fmap. exists r. split; [reflexivity |].
      exact (sublist_subseteq _ _ (proj2 Hd) r Hr). }
    destruct (dropna (column d "weekly")) as [| w ws]; [inversion Hin | eauto]. }
  destruct Hoffered as (w & ws & Hw).
  assert (Hrows : forall r, r ∈ rows out -> r ∈ rows (snd (weekly_filter pick d)))
    by (intros r Hr; exact (sublist_subseteq _ _ (proj2 Hout) r Hr)).
  unfold weekly_filter in Hrows.
  rewrite <- (has_column_narrows out d) in Hrows by exact Hd.
  rewrite Hcol, Hw in Hrows.
  destruct pick; simpl in *; [reflexivity | |];
    apply select_all; intros r Hr; apply Hrows, select_rows in Hr as [Hm _]; exact Hm.
Qed.

Lemma search_filter_fixed `{Host} term d d' out :
  search_filter term d = Return d' -> narrows out d' ->
  search_filter term out = Return out.
Proof.
  intros Hsearch Hout.
  assert (Hd : narrows out d)
    by (eapply narrows_trans; [exact Hout | eapply search_filter_narrows; exact Hsearch]).
  unfold search_filter in *.
  rewrite (has_column_narrows out d) by exact Hd.
  destruct (negb (String.eqb term "") && has_column d "trading_symbol"); [| reflexivity].
  destruct (str_contains term) as [found |]; [| discriminate].
  simpl in *. injection Hsearch as <-. f_equal.
  apply select_all. intros r Hr.
  pose proof (sublist_subseteq _ _ (proj2 Hout) r Hr) as Hrd.
  apply select_rows in Hrd as [Hm _]. exact Hm.
Qed.

(** ** The options of a box, the full range of the strike slider *)

Lemma category_control_options_witness :
  let df := frame_of_records Sample.three_records in
  @category_control Sample.host df "exchange" = Some ["All"; "BSE"; "NSE"] /\
  exists sorted,
    ["All"; "BSE"; "NSE"] = "All" :: sorted /\
    Sorted String.le sorted /\
    NoDup sorted /\
    (forall v, v ∈ sorted <->
       exists r, r ∈ rows df /\ isna (cell r "exchange") = false /\
                 v = @astype_str Sample.host (cell r "exchange") /\ PyStr.strip v <> "").
Proof.
  intros df.
  assert (Hc : @category_control Sample.host df "exchange" = Some ["All"; "BSE"; "NSE"])
    by (vm_compute; reflexivity).
  split; [exact Hc |].
  exact (@category_control_options Sample.host df "exchange" _ Hc).
Defined.

Lemma category_filter_all `{Host} col df : snd (category_filter col "All" df) = df.
Proof.
  unfold category_filter. destruct (has_column df col); [| reflexivity].
  destruct (category_values df col) as [| v vs]; [reflexivity |].
  cbv zeta. unfold selectbox, category_options.
  rewrite bool_decide_eq_true_2 by left. reflexivity.
Qed.

Lemma lot_size_filter_none pick df out :
  lot_size_filter pick df = Return (None, out) -> out = df.
Proof.
  unfold lot_size_filter.
  destruct (has_column df "lot_size"); [| congruence].
  destruct (integer_values _) as [ints |].
  - destruct (_ <? _)%nat; [| congruence]. cbv zeta.
    destruct (negb (_ =? _)); [discriminate | congruence].
  - destruct (_ <? _)%nat; [| congruence]. cbv zeta.
    destruct (py_int (float_min _)) as [min_lot |]; [| discriminate]. cbn [bind].
    destruct (py_int (float_max _)) as [max_lot |]; [| discriminate]. cbn [bind].
    destruct (negb (min_lot =? max_lot)); [discriminate | congruence].
Qed.

Lemma strike_price_filter_none pick df out :
  strike_price_filter pick df = (None, out) -> out = df.
Proof.
  unfold strike_price_filter.
  destruct (has_column df "strike_price"); [| congruence].
  destruct (_ <? _)%nat; [| congruence]. cbv zeta.
  destruct (negb (PyFloat.eqb _ _)); [discriminate | congruence].
Qed.

Lemma weekly_filter_all df : snd (weekly_filter AllOptions df) = df.
Proof.
  unfold weekly_filter. destruct (has_column df "weekly"); [| reflexivity].
  destruct (dropna _); reflexivity.
Qed.

(** X7.  With the sidebar untouched and no lot size slider shown, the
    frame that is displayed has the columns of the upload and all of its
    rows, in their order, unless the strike price slider is shown: then
    it has exactly the rows whose strike price is a number. *)
Theorem untouched_sidebar_shows `{Host} (df : DataFrame) (c : Controls) (out : DataFrame) :
  sidebar_filters untouched df = Return (c, out) ->
  lot_bounds c = None ->
  columns out = columns df /\
  rows out =
    match strike_bounds c with
    | Some _ =>
        filter (fun r => Is_true (negb (PyFloat.is_nan (to_numeric (cell r "strike_price")))))
               (rows df)
    | None => rows df
    end.
Proof.
  intros Hs Hlot.
  assert (Hout : narrows out df).
  { apply (filtered_narrows untouched). unfold filtered. rewrite Hs. reflexivity. }
  split; [exact (proj1 Hout) |].
  destruct (sidebar_filters_stages _ _ _ _ Hs)
    as (d1 & d2 & d3 & d4 & d5 & d6 & d7 & H1 & H2 & H3 & H4 & H5 & H6 & H7 & H8 & _).
  simpl in H1, H2, H3, H4, H5, H6, H7, H8.
  apply (f_equal snd) in H1, H2, H3, H4, H7.
  cbn [snd] in H1, H2, H3, H4, H7.
  rewrite category_filter_all in H1. subst d1.
  rewrite category_filter_all in H2. subst d2.
  rewrite category_filter_all in H3. subst d3.
  rewrite category_filter_all in H4. subst d4.
  rewrite Hlot in H5. apply lot_size_filter_none in H5. subst d5.
  rewrite weekly_filter_all in H7.
  unfold search_filter in H8. simpl in H8. injection H8 as H8.
  rewrite <- H8, <- H7.
  destruct (strike_bounds c) as [bounds |].
  - exact (strike_price_full_range _ _ _ H6).
  - apply strike_price_filter_none in H6. rewrite H6. reflexivity.
Qed.

Lemma untouched_sidebar_shows_witness :
  let df := frame_of_records Views.strikes in
  let c := {| exchanges := None; instrument_types := None; segments := None;
              underlying_types := None; lot_bounds := None;
              strike_bounds := Some (PyFloat.of_Z 22000, PyFloat.of_Z 48000);
              weekly_offered := false |} in
  exists out,
    @sidebar_filters Sample.host untouched df = Return (c, out) /\
    rows out =
      filter (fun r => Is_true (negb (PyFloat.is_nan (to_numeric (cell r "strike_price")))))
             (rows df).
Proof.
  intros df c.
  exists (snd (strike_price_filter None df)).
  assert (Hs : @sidebar_filters Sample.host untouched df =
               Return (c, snd (strike_price_filter None df)))
    by (vm_compute; reflexivity).
  split; [exact Hs |].
  exact (proj2 (@untouched_sidebar_shows Sample.host df c _ Hs eq_refl)).
Defined.

(** ** The frame built from the records *)

Lemma assoc_Some_fst k r : is_Some (assoc k r) <-> k ∈ map fst r.
Proof.
  induction r as [| [k' v] r IH]; simpl.
  - split; [intros [x Hx]; discriminate | intros Hin; inversion Hin].
  - destruct (String.eqb_spec k k') as [-> | Hne].
    + split; [intros _; left | intros _; eauto].
    + rewrite IH, elem_of_cons. tauto.
Qed.

Lemma add_keys_spec r : forall seen,
  NoDup seen ->
  NoDup (add_keys seen r) /\
  forall k, k ∈ add_keys seen r <-> k ∈ seen \/ k ∈ map fst r.
Proof.
  unfold add_keys. induction r as [| [k' v] r IH]; intros seen Hseen; simpl.
  - split; [exact Hseen |]. intros k. split; [auto |].
    intros [Hk | Hk]; [exact Hk | inversion Hk].
  - destruct (bool_decide_reflect (k' ∈ seen)) as [Hin | Hout].
    + destruct (IH seen Hseen) as [Hnd Hmem]. split; [exact Hnd |].
      intros k. rewrite Hmem, elem_of_cons.
      split; [tauto |]. intros [Hk | [-> | Hk]]; auto.
    + assert (Hseen' : NoDup (seen ++ [k'])).
      { apply NoDup_app. split; [exact Hseen |]. split; [| apply NoDup_singleton].
        intros x Hx Hx'. apply list_elem_of_singleton in Hx'. subst. contradiction. }
      destruct (IH _ Hseen') as [Hnd Hmem]. split; [exact Hnd |].
      intros k. rewrite Hmem, elem_of_app, list_elem_of_singleton, elem_of_cons. tauto.
Qed.

Lemma union_keys_from records : forall seen,
  NoDup seen ->
  NoDup (fold_left add_keys records seen) /\
  forall k, k ∈ fold_left add_keys records seen <->
            k ∈ seen \/ exists r, r ∈ records /\ is_Some (assoc k r).
Proof.
  induction records as [| r records IH]; intros seen Hseen; simpl.
  - split; [exact Hseen |]. intros k. split; [auto |].
    intros [Hk | (r & Hr & _)]; [exact Hk | inversion Hr].
  - destruct (add_keys_spec r seen Hseen) as [Hnd Hmem].
    destruct (IH _ Hnd) as [Hnd' Hmem']. split; [exact Hnd' |].
    intros k. rewrite Hmem', Hmem, <- assoc_Some_fst. split.
    + intros [[Hk | Hk] | (r' & Hr' & Hk)]; [auto | right | right].
      * exists r. split; [left | exact Hk].
      * exists r'. split; [right; exact Hr' | exact Hk].
    + intros [Hk | (r' & Hr' & Hk)]; [auto |].
      apply elem_of_cons in Hr' as [-> | Hr']; [auto |].
      right. exists r'. auto.
Qed.

(** The columns of the frame: the keys of the records, each once. *)
Lemma union_keys_spec records :
  NoDup (union_keys records) /\
  forall k, k ∈ union_keys records <-> exists r, r ∈ records /\ is_Some (assoc k r).
Proof.
  destruct (union_keys_from records [] (NoDup_nil_2)) as [Hnd Hmem].
  split; [exact Hnd |]. intros k. rewrite (Hmem k). split.
  - intros [Hk | Hk]; [inversion Hk | exact Hk].
  - auto.
Qed.

Lemma lookup_untabulated (f : string -> pyval) (cols : list string) (col : string) :
  col ∉ cols ->
  (list_to_map (map (fun c => (c, f c)) cols) : gmap string pyval) !! col = None.
Proof.
  intros Hout. apply not_elem_of_list_to_map_1.
  rewrite <- list_fmap_compose. simpl.
  change (list_fmap string string (fst ∘ (fun c => (c, f c))) cols) with (id <$> cols).
  rewrite list_fmap_id. exact Hout.
Qed.

Lemma infer_objects_nth cells i :
  stored_as (nth i cells NaN) (nth i (infer_objects cells) NaN).
Proof.
  unfold infer_objects.
  destruct (existsb is_str cells || existsb is_bool cells
            || forallb is_int cells || forallb is_none cells); [left; reflexivity |].
  set (conv := fun v => match v with
                        | VInt z => VFloat (PyFloat.of_Z z)
                        | VNone => NaN
                        | _ => v
                        end).
  change NaN with (conv NaN) at 2. rewrite map_nth.
  destruct (nth i cells NaN) as [| b | z | x | s]; simpl.
  - right. right. split; reflexivity.
  - left. reflexivity.
  - right. left. exists z. split; reflexivity.
  - left. reflexivity.
  - left. reflexivity.
Qed.

(** X8.  [pd.DataFrame(data)] holds the records: one row for each record,
    in their order; one column for each key that occurs in a record, each
    once; and the cell of a row for a column holds the value the record
    has for that key, kept as it is or, in a column stored as floats, an
    integer as its float and [None] as NaN.  For a key the record lacks
    the cell is NaN. *)
Theorem frame_of_records_holds_the_records (records : list (list (string * pyval))) :
  let df := frame_of_records records in
  length (rows df) = length records /\
  total_records (dataset_overview df) = length records /\
  NoDup (columns df) /\
  (forall col, col ∈ columns df <-> exists r, r ∈ records /\ is_Some (assoc col r)) /\
  (forall i record,
     records !! i = Some record ->
     exists row, rows df !! i = Some row /\
       forall col,
         stored_as (default NaN (assoc col record)) (cell row col) /\
         (assoc col record = None -> cell row col = NaN)).
Proof.
  intros df.
  assert (Hlen : length (rows df) = length records).
  { unfold df, frame_of_records. simpl. rewrite length_map, length_seq. reflexivity. }
  destruct (union_keys_spec records) as [Hnd Hmem].
  split; [exact Hlen |]. split; [exact Hlen |]. split; [exact Hnd |].
  split; [exact Hmem |].
  intros i record Hi.
  assert (Hlt : (i < length records)%nat) by (eapply lookup_lt_Some; exact Hi).
  unfold df, frame_of_records. simpl.
  rewrite list_lookup_fmap, lookup_seq_lt by exact Hlt. simpl.
  eexists. split; [reflexivity |]. intros col.
  rewrite map_map. simpl.
  set (f := fun c => nth i (infer_objects (map (fun r => default NaN (assoc c r)) records)) NaN).
  change (map _ (union_keys records)) with (map (fun c => (c, f c)) (union_keys records)).
  assert (Hcell : nth i (map (fun r => default NaN (assoc col r)) records) NaN =
                  default NaN (assoc col record)).
  { apply nth_lookup_Some. rewrite list_lookup_fmap, Hi. reflexivity. }
  destruct (decide (col ∈ union_keys records)) as [Hin | Hout].
  - unfold cell. rewrite (lookup_tabulated f) by exact Hin. simpl.
    unfold f. split.
    + rewrite <- Hcell. apply infer_objects_nth.
    + intros Hnone. pose proof (infer_objects_nth
        (map (fun r => default NaN (assoc col r)) records) i) as Hst.
      rewrite Hcell, Hnone in Hst. simpl in Hst.
      destruct Hst as [Hst | [(z & Hz & _) | (Hz & _)]];
        [exact Hst | discriminate | discriminate].
  - unfold cell. rewrite (lookup_untabulated f) by exact Hout. simpl.
    assert (Hnone : assoc col record = None).
    { destruct (assoc col record) as [v |] eqn:Hv; [| reflexivity].
      exfalso. apply Hout, Hmem. exists record. split; [| rewrite Hv; eauto].
      eapply list_elem_of_lookup_2. exact Hi. }
    rewrite Hnone. split; [left; reflexivity | reflexivity].
Qed.

Lemma frame_of_records_holds_the_records_witness :
  let df := frame_of_records Sample.mixed_lots in
  Sample.mixed_lots !! 0%nat = Some [("exchange", VStr "NSE"); ("lot_size", VInt 50)] /\
  exists row, rows df !! 0%nat = Some row /\
              stored_as (VInt 50) (cell row "lot_size").
Proof.
  intros df.
  assert (H0 : Sample.mixed_lots !! 0%nat =
               Some [("exchange", VStr "NSE"); ("lot_size", VInt 50)])
    by reflexivity.
  split; [exact H0 |].
  destruct (frame_of_records_holds_the_records Sample.mixed_lots)
    as (_ & _ & _ & _ & Hcells).
  destruct (Hcells _ _ H0) as (row & Hrow & Hcols).
  exists row. split; [exact Hrow |]. exact (proj1 (Hcols "lot_size")).
Defined.

(** ** The metrics of the overview *)

Lemma unique_values_length values : (length (unique_values values) <= length values)%nat.
Proof.
  induction values as [| v values IH]; simpl; [lia |].
  pose proof (length_filter (fun w => Is_true (negb (py_eq v w))) (unique_values values)).
  lia.
Qed.

Lemma dropna_length values : (length (dropna values) <= length values)%nat.
Proof. apply length_filter. Qed.

Lemma dropna_nil values : dropna values = [] <-> isna_all values = true.
Proof.
  unfold dropna, isna_all. induction values as [| v values IH]; simpl; [tauto |].
  destruct (isna v) eqn:Hv; simpl.
  - rewrite filter_cons_False by (rewrite Hv; simpl; tauto). exact IH.
  - rewrite filter_cons_True by (rewrite Hv; exact I). split; discriminate.
Qed.

Lemma isna_all_column df col :
  isna_all (column df col) = true <-> forall r, r ∈ rows df -> isna (cell r col) = true.
Proof.
  unfold isna_all, column. rewrite forallb_forall. split.
  - intros Hall r Hr. apply Hall.
    apply (in_map (fun r => cell r col)), list_elem_of_In, Hr.
  - intros Hall v Hv. apply in_map_iff in Hv as (r & <- & Hr).
    apply Hall, list_elem_of_In, Hr.
Qed.

(** X9.  A metric of the overview that counts distinct values never
    exceeds the metric [Total Records]; the test that not every cell is
    null does not change it; and it is zero exactly when the column is
    absent or every cell of it is null. *)
Theorem overview_metric_bounds (df : DataFrame) (col : string) :
  (unique_count df col <= total_records (dataset_overview df))%nat /\
  unique_count df col = (if has_column df col then nunique (column df col) else 0%nat) /\
  (unique_count df col = 0%nat <->
     has_column df col = false \/ forall r, r ∈ rows df -> isna (cell r col) = true).
Proof.
  assert (Hguard : unique_count df col =
                   if has_column df col then nunique (column df col) else 0%nat).
  { unfold unique_count. destruct (has_column df col); [| reflexivity]. simpl.
    destruct (isna_all (column df col)) eqn:Hall; [| reflexivity]. simpl.
    unfold nunique. apply dropna_nil in Hall. rewrite Hall. reflexivity. }
  split; [| split; [exact Hguard |]].
  - rewrite Hguard. simpl. destruct (has_column df col); [| lia].
    unfold nunique.
    pose proof (unique_values_length (dropna (column df col))).
    pose proof (dropna_length (column df col)).
    unfold column in *. rewrite length_map in *. lia.
  - rewrite Hguard, <- isna_all_column, <- dropna_nil.
    destruct (has_column df col); [| tauto]. unfold nunique.
    destruct (dropna (column df col)) as [| v vs]; simpl.
    + tauto.
    + split; [discriminate |]. intros [H0 | H0]; discriminate.
Qed.

(** ** The chart of the instrument types *)

Lemma count_one_sum v counts :
  list_sum (map snd (count_one v counts)) = S (list_sum (map snd counts)).
Proof.
  induction counts as [| [k n] counts IH]; simpl; [reflexivity |].
  destruct (py_eq k v); simpl; [reflexivity |]. rewrite IH. lia.
Qed.

Lemma count_one_not_nil v counts : count_one v counts <> [].
Proof. destruct counts as [| [k n] counts]; simpl; [| destruct (py_eq k v)]; discriminate. Qed.

Lemma count_one_Forall (P : pyval -> Prop) v counts :
  P v ->
  Forall (fun kn => P (fst kn) /\ (0 < snd kn)%nat) counts ->
  Forall (fun kn => P (fst kn) /\ (0 < snd kn)%nat) (count_one v counts).
Proof.
  intros Hv. induction 1 as [| [k n] counts [Hk Hn] Hrest IH]; simpl.
  - constructor; [simpl; split; [exact Hv | lia] | constructor].
  - destruct (py_eq k v).
    + constructor; [simpl in *; split; [exact Hk | lia] | assumption].
    + constructor; [simpl in *; split; [exact Hk | lia] | exact IH].
Qed.

Lemma count_one_apart k n v counts :
  py_eq k v = false ->
  Forall (distinct_keys (k, n)) counts ->
  Forall (distinct_keys (k, n)) (count_one v counts).
Proof.
  intros Hv. induction 1 as [| [k' n'] counts Hk Hrest IH]; simpl.
  - constructor; [exact Hv | constructor].
  - destruct (py_eq k' v); constructor; assumption.
Qed.

Lemma count_one_distinct v counts :
  ForallOrdPairs distinct_keys counts ->
  ForallOrdPairs distinct_keys (count_one v counts).
Proof.
  induction 1 as [| [k n] counts Hk Hrest IH]; simpl.
  - constructor; constructor.
  - destruct (py_eq k v) eqn:Hv.
    + constructor; [| assumption].
      eapply Forall_impl; [exact Hk |]. intros kn Hkn. exact Hkn.
    + constructor; [| exact IH]. apply count_one_apart; assumption.
Qed.

Lemma value_counts_from (P : pyval -> Prop) values : forall counts,
  Forall P values ->
  Forall (fun kn => P (fst kn) /\ (0 < snd kn)%nat) counts ->
  ForallOrdPairs distinct_keys counts ->
  let result := fold_left (fun counts v => count_one v counts) values counts in
  list_sum (map snd result) = (length values + list_sum (map snd counts))%nat /\
  Forall (fun kn => P (fst kn) /\ (0 < snd kn)%nat) result /\
  ForallOrdPairs distinct_keys result /\
  (values <> [] -> result <> []).
Proof.
  induction values as [| v values IH]; intros counts Hvalues Hcounts Hdistinct; simpl.
  - repeat split; try assumption. intros Hne. contradiction.
  - inversion Hvalues as [| ? ? Hv Hrest]; subst.
    destruct (IH (count_one v counts) Hrest
                 (count_one_Forall P v counts Hv Hcounts)
                 (count_one_distinct v counts Hdistinct))
      as (Hsum & Hall & Hord & Hne).
    rewrite count_one_sum in Hsum.
    split; [rewrite Hsum; lia |]. split; [exact Hall |]. split; [exact Hord |].
    intros _. destruct values as [| v' values'].
    + simpl. apply count_one_not_nil.
    + apply Hne. discriminate.
Qed.

(** X10.  The left column of the quick analysis.  When the column
    [instrument_type] is there and not every cell of it is null, the chart
    is shown: its table of counts is not empty, so that the inner [else]
    is never taken; its keys are cells of the column that are not null, no
    two of them equal; every count is positive, and the counts add up to
    the number of cells that are not null.  Otherwise the note of the
    outer [else] is shown. *)
Theorem instrument_type_panel_cases (df : DataFrame) :
  let cells := column df "instrument_type" in
  match instrument_type_panel df with
  | TypeChart type_counts =>
      has_column df "instrument_type" = true /\
      type_counts <> [] /\
      list_sum (map snd type_counts) = length (dropna cells) /\
      Forall (fun kn => (isna (fst kn) = false /\ fst kn ∈ cells) /\ (0 < snd kn)%nat)
             type_counts /\
      ForallOrdPairs distinct_keys type_counts
  | NoTypeData inner =>
      inner = false /\
      (has_column df "instrument_type" = false \/
       forall r, r ∈ rows df -> isna (cell r "instrument_type") = true)
  end.
Proof.
  intros cells. unfold instrument_type_panel. fold cells.
  destruct (has_column df "instrument_type") eqn:Hcol; simpl;
    [| split; [reflexivity | left; reflexivity]].
  destruct (isna_all cells) eqn:Hall; simpl.
  { split; [reflexivity |]. right. apply isna_all_column. exact Hall. }
  assert (Hne : dropna cells <> []).
  { intros Hnil. apply dropna_nil in Hnil. congruence. }
  assert (Hcells : Forall (fun v => isna v = false /\ v ∈ cells) (dropna cells)).
  { apply Forall_forall. intros v Hv. unfold dropna in Hv.
    apply list_elem_of_filter in Hv as [Hna Hv].
    split; [destruct (isna v); [contradiction | reflexivity] | exact Hv]. }
  destruct (value_counts_from _ (dropna cells) [] Hcells (Forall_nil_2 _) (FOP_nil _))
    as (Hsum & Hkeys & Hord & Hfull).
  cbv zeta in *. fold (value_counts cells) in *.
  specialize (Hfull Hne).
  destruct (value_counts cells) as [| kn type_counts] eqn:Hcounts; [contradiction |].
  split; [reflexivity |]. split; [discriminate |].
  split; [rewrite Hsum; simpl; lia |]. split; assumption.
Qed.

(** ** The raw view *)

Lemma to_dict_records_head n df :
  to_dict_records (head_rows n df) = take n (to_dict_records df).
Proof. unfold to_dict_records, head_rows. simpl. symmetry. apply firstn_map. Qed.

Lemma raw_json_items_records records : forall i,
  omap shown_record (raw_json_items i records) = records.
Proof.
  induction records as [| record records IH]; intros i; simpl; [reflexivity |].
  destruct (i <? 4)%nat; simpl; rewrite IH; reflexivity.
Qed.

Lemma raw_json_items_dividers records : forall i,
  length (filter (fun item => Is_true (negb (is_raw_json item))) (raw_json_items i records)) =
  Nat.min (length records) (4 - i).
Proof.
  induction records as [| record records IH]; intros i; [reflexivity |].
  cbn [raw_json_items app length].
  rewrite filter_cons_False by (simpl; tauto).
  destruct (Nat.ltb_spec i 4); cbn [app].
  - rewrite filter_cons_True by exact I. cbn [length]. rewrite IH. lia.
  - rewrite IH. lia.
Qed.

Lemma raw_json_items_last records : forall i,
  records <> [] -> (i + length records <= 4)%nat ->
  last (raw_json_items i records) = Some RawDivider.
Proof.
  induction records as [| record records IH]; intros i Hne Hlen; [contradiction |].
  simpl in *. destruct (Nat.ltb_spec i 4); [| lia]. simpl.
  destruct records as [| record' records']; [reflexivity |].
  rewrite <- (IH (S i)); [| discriminate | simpl in *; lia].
  simpl. destruct (S i <? 4)%nat; reflexivity.
Qed.

(** X11.  The raw view shows the first five records of the displayed
    frame, or all of them when there are fewer, in their order, as
    [to_dict('records')] gives them.  It draws a divider after each of the
    first four records shown: when fewer than five records are shown, a
    divider follows the last one as well. *)
Theorem raw_json_view_shows_first_five (df : DataFrame) :
  omap shown_record (raw_json_view df) = take 5 (to_dict_records df) /\
  length (filter (fun item => Is_true (negb (is_raw_json item))) (raw_json_view df)) =
    Nat.min (length (rows df)) 4 /\
  ((0 < length (rows df) < 5)%nat -> last (raw_json_view df) = Some RawDivider).
Proof.
  unfold raw_json_view. rewrite to_dict_records_head.
  assert (Hlen : length (to_dict_records df) = length (rows df))
    by (unfold to_dict_records; apply length_map).
  split; [apply raw_json_items_records |]. split.
  - rewrite raw_json_items_dividers, length_take, Hlen. lia.
  - intros Hrows. apply raw_json_items_last.
    + intros Hnil. apply (f_equal (@length _)) in Hnil.
      rewrite length_take, Hlen in Hnil. cbn [length] in Hnil. lia.
    + rewrite length_take, Hlen. lia.
Qed.

Lemma raw_json_view_shows_first_five_witness :
  let df := frame_of_records Sample.two_exchanges in
  (0 < length (rows df) < 5)%nat /\
  last (raw_json_view df) = Some RawDivider.
Proof.
  intros df.
  assert (Hrows : (0 < length (rows df) < 5)%nat) by (vm_compute; lia).
  split; [exact Hrows |].
  exact (proj2 (proj2 (raw_json_view_shows_first_five df)) Hrows).
Defined.

(** ** The table that is displayed *)

Lemma has_column_assign_apply df new col f c :
  has_column (assign_apply df new col f) c = has_column df c || String.eqb c new.
Proof.
  unfold has_column, assign_apply. simpl.
  destruct (bool_decide_reflect (new ∈ columns df)) as [Hin | Hout].
  - destruct (String.eqb_spec c new) as [-> | Hne].
    + rewrite bool_decide_eq_true_2 by exact Hin. reflexivity.
    + rewrite orb_false_r. reflexivity.
  - destruct (String.eqb_spec c new) as [-> | Hne].
    + rewrite orb_true_r. apply bool_decide_eq_true_2.
      apply elem_of_app. right. left.
    + rewrite orb_false_r. apply bool_decide_ext.
      rewrite elem_of_app, list_elem_of_singleton. tauto.
Qed.

Lemma cell_insert_eq r new v : cell (<[new := v]> r) new = v.
Proof. unfold cell. rewrite lookup_insert_eq. reflexivity. Qed.

(** The table in closed form: the two derived cells are added to every
    row, and the listed columns that are there are selected. *)
Lemma display_table_unfold `{Host} df :
  let f1 r := if has_column df "expiry"
              then <["expiry_date" := VStr (convert_timestamp (cell r "expiry"))]> r
              else r in
  let f2 r := if has_column df "strike_price"
              then <["strike_price_formatted" :=
                       VStr (format_currency (cell r "strike_price"))]> r
              else r in
  let cols := List.filter
                (fun c => has_column df c
                          || (has_column df "expiry" && String.eqb c "expiry_date")
                          || (has_column df "strike_price"
                              && String.eqb c "strike_price_formatted"))
                available_columns in
  display_table df =
  {| columns := cols;
     rows := map (fun r => list_to_map (map (fun c => (c, cell (f2 (f1 r)) c)) cols))
                 (rows df) |}.
Proof.
  intros f1 f2 cols. unfold display_table. cbv zeta.
  set (d1 := if has_column df "expiry" then _ else df).
  assert (Hc1 : forall c, has_column d1 c =
                          has_column df c
                          || (has_column df "expiry" && String.eqb c "expiry_date")).
  { subst d1. destruct (has_column df "expiry"); intros c.
    - apply has_column_assign_apply.
    - rewrite orb_false_r. reflexivity. }
  assert (Hr1 : rows d1 = map f1 (rows df)).
  { subst d1 f1. destruct (has_column df "expiry"); [reflexivity |].
    symmetry. apply map_id. }
  assert (Hs : has_column d1 "strike_price" = has_column df "strike_price").
  { rewrite Hc1. change (String.eqb "strike_price" "expiry_date") with false.
    rewrite andb_false_r, orb_false_r. reflexivity. }
  rewrite Hs.
  set (d2 := if has_column df "strike_price" then _ else d1).
  assert (Hc2 : forall c, has_column d2 c =
                          has_column d1 c
                          || (has_column df "strike_price"
                              && String.eqb c "strike_price_formatted")).
  { subst d2. destruct (has_column df "strike_price"); intros c.
    - apply has_column_assign_apply.
    - rewrite orb_false_r. reflexivity. }
  assert (Hr2 : rows d2 = map f2 (rows d1)).
  { subst d2 f2. destruct (has_column df "strike_price"); [reflexivity |].
    symmetry. apply map_id. }
  assert (Hcols : List.filter (has_column d2) available_columns = cols).
  { subst cols. apply List.filter_ext. intros c. rewrite Hc2, Hc1. reflexivity. }
  unfold project. rewrite Hcols, Hr2, Hr1, !map_map. reflexivity.
Qed.

Lemma list_filter_sublist {A} (f : A -> bool) (l : list A) : sublist (List.filter f l) l.
Proof.
  induction l as [| a l IH]; simpl; [constructor |].
  destruct (f a); [apply sublist_skip | apply sublist_cons]; exact IH.
Qed.

Lemma display_columns_elem `{Host} df col :
  col ∈ columns (display_table df) <->
  col ∈ available_columns /\
  has_column df col
  || (has_column df "expiry" && String.eqb col "expiry_date")
  || (has_column df "strike_price" && String.eqb col "strike_price_formatted") = true.
Proof.
  rewrite display_table_unfold. cbv zeta. cbn [columns].
  rewrite !list_elem_of_In. apply filter_In.
Qed.

(** X12.  The columns of the table that is displayed are those of the
    fifteen listed columns that the frame has, in the order of the list,
    where [expiry_date] and [strike_price_formatted] count as there
    whenever [expiry] and [strike_price] are.  Neither [expiry] nor
    [strike_price] itself is displayed, and the table has a row for every
    row of the frame. *)
Theorem display_table_columns `{Host} (df : DataFrame) :
  sublist (columns (display_table df)) available_columns /\
  (forall col,
     col ∈ columns (display_table df) <->
     col ∈ available_columns /\
     (has_column df col = true \/
      (col = "expiry_date" /\ has_column df "expiry" = true) \/
      (col = "strike_price_formatted" /\ has_column df "strike_price" = true))) /\
  ("expiry" ∉ columns (display_table df)) /\
  ("strike_price" ∉ columns (display_table df)) /\
  length (rows (display_table df)) = length (rows df).
Proof.
  assert (Hout : forall col, col ∉ available_columns -> col ∉ columns (display_table df)).
  { intros col Hcol Hin. apply display_columns_elem in Hin as [Hin _]. contradiction. }
  split; [| split; [| split; [| split]]].
  - rewrite display_table_unfold. cbv zeta. cbn [columns]. apply list_filter_sublist.
  - intros col. rewrite display_columns_elem.
    rewrite !orb_true_iff, !andb_true_iff, !String.eqb_eq. tauto.
  - apply Hout. unfold available_columns. intros Hin.
    repeat (apply elem_of_cons in Hin as [Hin | Hin]; [discriminate |]).
    inversion Hin.
  - apply Hout. unfold available_columns. intros Hin.
    repeat (apply elem_of_cons in Hin as [Hin | Hin]; [discriminate |]).
    inversion Hin.
  - rewrite display_table_unfold. cbv zeta. cbn [rows]. apply length_map.
Qed.

Lemma convert_timestamp_shape `{Host} value :
  convert_timestamp value = "N/A" \/
  convert_timestamp value = "Invalid" \/
  exists n, (1 <= n <= 4)%nat /\ Shape.date_time_of n (convert_timestamp value) = true /\
            (strftime_pads_year = true -> n = 4%nat).
Proof.
  unfold convert_timestamp, convert_timestamp_try.
  destruct (is_blank value); [left; reflexivity |].
  destruct (numeric_value value) as [v |]; [| right; left; reflexivity].
  cbn [bind]. destruct (div_1000 v) as [x |]; [| right; left; reflexivity].
  cbn [bind]. destruct (fromtimestamp x) as [dt |] eqn:Hdt; [| right; left; reflexivity].
  right. right. cbn [bind try_except].
  destruct (fromtimestamp_inv _ _ Hdt) as (sec & _ & -> & Hyear & _).
  destruct (strftime_date_time _ Hyear) as (n & Hn & Hshape & Hfour & _).
  exists n. split; [exact Hn |]. split; [exact Hshape |]. auto.
Qed.

Lemma format_2f_shape x :
  Shape.money (PyFloat.format_2f x) = true \/
  PyFloat.format_2f x = "nan" \/ PyFloat.format_2f x = "inf" \/ PyFloat.format_2f x = "-inf".
Proof.
  destruct (PyFloat.is_nan x) eqn:Hnan; [destruct x; try discriminate; auto |].
  destruct (PyFloat.is_inf x) eqn:Hinf.
  - destruct x as [| [|] | |]; try discriminate; auto.
  - left. apply format_2f_money; assumption.
Qed.

Lemma format_currency_shape `{Host} value :
  format_currency value = "N/A" \/
  exists body,
    format_currency value = rupee +:+ body /\
    (Shape.money body = true \/ body = "nan" \/ body = "inf" \/ body = "-inf").
Proof.
  unfold format_currency, format_currency_try.
  destruct (is_blank value).
  { right. exists "0.00". split; [reflexivity | left; reflexivity]. }
  destruct (numeric_value value) as [v |]; [| left; reflexivity].
  cbn [bind]. destruct v as [| b | z | x | s]; cbn [format_comma_2f bind try_except].
  - left. reflexivity.
  - right. eexists. split; [reflexivity | apply format_2f_shape].
  - destruct (PyFloat.is_inf (PyFloat.of_Z z)); cbn [bind try_except].
    + left. reflexivity.
    + right. eexists. split; [reflexivity | apply format_2f_shape].
  - right. eexists. split; [reflexivity | apply format_2f_shape].
  - left. reflexivity.
Qed.

(** X13.  The two derived columns of the table.  When the frame has the
    column [expiry], the cell [expiry_date] of every displayed row is
    [convert_timestamp] of the expiry of the row it shows, which is [N/A],
    [Invalid] or a date and time: a year of one to four digits, of four
    where the host pads the year, then [-MM-DD HH:MM:SS].  When it has the
    column [strike_price], the cell [strike_price_formatted] is
    [format_currency] of the strike price of that row, which is [N/A] or
    the rupee sign followed by an amount with two decimals or by [nan],
    [inf] or [-inf]. *)
Theorem display_table_derived_cells `{Host} (df : DataFrame) :
  exists shown : gmap string pyval -> gmap string pyval,
    rows (display_table df) = map shown (rows df) /\
    forall r,
      (has_column df "expiry" = true ->
       cell (shown r) "expiry_date" = VStr (convert_timestamp (cell r "expiry")) /\
       (convert_timestamp (cell r "expiry") = "N/A" \/
        convert_timestamp (cell r "expiry") = "Invalid" \/
        exists n, (1 <= n <= 4)%nat /\
                  Shape.date_time_of n (convert_timestamp (cell r "expiry")) = true /\
                  (strftime_pads_year = true -> n = 4%nat))) /\
      (has_column df "strike_price" = true ->
       cell (shown r) "strike_price_formatted" =
         VStr (format_currency (cell r "strike_price")) /\
       (format_currency (cell r "strike_price") = "N/A" \/
        exists body,
          format_currency (cell r "strike_price") = rupee +:+ body /\
          (Shape.money body = true \/ body = "nan" \/ body = "inf" \/ body = "-inf"))).
Proof.
  pose proof (display_columns_elem df) as Hmem.
  rewrite display_table_unfold in *. cbv zeta in *. cbn [columns rows] in *.
  set (cols := List.filter _ available_columns) in *.
  eexists. split; [reflexivity |]. intros r. split.
  - intros Hexpiry. split; [| apply convert_timestamp_shape].
    rewrite cell_project.
    + rewrite Hexpiry.
      destruct (has_column df "strike_price").
      * rewrite cell_insert_ne by discriminate. apply cell_insert_eq.
      * apply cell_insert_eq.
    + apply Hmem. split.
      * unfold available_columns. do 8 right. left.
      * rewrite Hexpiry. change (String.eqb "expiry_date" "expiry_date") with true.
        rewrite orb_true_r. reflexivity.
  - intros Hstrike. split; [| apply format_currency_shape].
    rewrite cell_project.
    + rewrite Hstrike. rewrite cell_insert_eq.
      destruct (has_column df "expiry"); [| reflexivity].
      rewrite cell_insert_ne by discriminate. reflexivity.
    + apply Hmem. split.
      * unfold available_columns. do 9 right. left.
      * rewrite Hstrike.
        change (String.eqb "strike_price_formatted" "strike_price_formatted") with true.
        rewrite orb_true_r. reflexivity.
Qed.

Lemma display_table_derived_cells_witness :
  let df := frame_of_records Views.option_record in
  has_column df "expiry" = true /\
  has_column df "strike_price" = true /\
  exists shown : gmap string pyval -> gmap string pyval,
    rows (@display_table Sample.host df) = map shown (rows df) /\
    forall r,
      cell (shown r) "expiry_date" = VStr (@convert_timestamp Sample.host (cell r "expiry")) /\
      cell (shown r) "strike_price_formatted" =
        VStr (@format_currency Sample.host (cell r "strike_price")).
Proof.
  intros df.
  assert (H1 : has_column df "expiry" = true) by (vm_compute; reflexivity).
  assert (H2 : has_column df "strike_price" = true) by (vm_compute; reflexivity).
  split; [exact H1 |]. split; [exact H2 |].
  destruct (@display_table_derived_cells Sample.host df) as (shown & Hrows & Hcells).
  exists shown. split; [exact Hrows |]. intros r.
  destruct (Hcells r) as [He Hs].
  split; [exact (proj1 (He H1)) | exact (proj1 (Hs H2))].
Defined.

(** The record of the program's own example, as it is displayed. *)
Example option_record_displayed :
  map (fun r => (cell r "expiry_date", cell r "strike_price_formatted"))
      (rows (@display_table Sample.host (frame_of_records Views.option_record))) =
  [ (VStr "2036-11-27 23:59:59", VStr (rupee +:+ "22,500.50")) ].
Proof. vm_compute. reflexivity. Qed.

(** ** The download *)

(** X14.  The download holds the frame that is displayed, with the
    columns of the upload and not those of the table: its header is the
    columns of the frame built from the upload, its records are records of
    the download of that frame, in their order, and every record has a
    cell for every column. *)
Theorem csv_of_filtered `{Host} (sel : Selection) (df out : DataFrame) :
  filtered sel df = Return out ->
  fst (to_csv out) = columns df /\
  sublist (snd (to_csv out)) (snd (to_csv df)) /\
  Forall (fun record => length record = length (columns df)) (snd (to_csv out)).
Proof.
  intros Hf. destruct (filtered_narrows _ _ _ Hf) as [Hcols Hrows].
  unfold to_csv. simpl. rewrite Hcols. split; [reflexivity |]. split.
  - apply (fmap_sublist (fun r => map (cell r) (columns df))). exact Hrows.
  - apply Forall_forall. intros record Hrecord.
    apply list_elem_of_fmap in Hrecord as (r & -> & _). apply length_map.
Qed.

Lemma csv_of_filtered_witness :
  let df := frame_of_records Sample.three_records in
  let out := frame_of_records
               [ [("exchange", VStr "NSE"); ("lot_size", VInt 50); ("weekly", VBool true)] ] in
  @filtered Sample.host Sample.nse_weekly df = Return out /\
  fst (to_csv out) = ["exchange"; "lot_size"; "weekly"] /\
  Forall (fun record => length record = 3%nat) (snd (to_csv out)).
Proof.
  intros df out.
  assert (Hf : @filtered Sample.host Sample.nse_weekly df = Return out)
    by (vm_compute; reflexivity).
  split; [exact Hf |].
  destruct (@csv_of_filtered Sample.host _ _ _ Hf) as (Hheader & _ & Hcells).
  split; [exact Hheader | exact Hcells].
Defined.

(** ** When the strike price slider is shown *)

Lemma numeric_values_two df col x y :
  x ∈ numeric_values df col -> y ∈ numeric_values df col -> PyFloat.eqb x y = false ->
  (1 < numeric_nunique (column df col))%nat.
Proof.
  intros Hx Hy Hxy. unfold numeric_values in Hx, Hy.
  apply list_elem_of_filter in Hx as [Hnx Hx]. apply list_elem_of_filter in Hy as [Hny Hy].
  apply list_elem_of_fmap in Hx as (c1 & -> & H1). apply list_elem_of_fmap in Hy as (c2 & -> & H2).
  apply (numeric_nunique_two _ c1 c2); try assumption.
  - destruct (PyFloat.is_nan (to_numeric c1)); [contradiction | reflexivity].
  - destruct (PyFloat.is_nan (to_numeric c2)); [contradiction | reflexivity].
Qed.

(** The two tests of the block pass exactly when two of the values are
    not equal as floats. *)
Lemma strike_slider_tests df x y :
  let values := numeric_values df "strike_price" in
  x ∈ values -> y ∈ values -> PyFloat.eqb x y = false ->
  (1 <? numeric_nunique (column df "strike_price"))%nat = true /\
  PyFloat.eqb (float_min values) (float_max values) = false.
Proof.
  intros values Hx Hy Hxy. split.
  - apply Nat.ltb_lt. exact (numeric_values_two df _ x y Hx Hy Hxy).
  - exact (float_min_max_apart values x y (numeric_values_not_nan _ _) Hx Hy Hxy).
Qed.

Lemma strike_slider_tests_inv df :
  let values := numeric_values df "strike_price" in
  (1 < numeric_nunique (column df "strike_price"))%nat ->
  PyFloat.eqb (float_min values) (float_max values) = false ->
  exists x y, x ∈ values /\ y ∈ values /\ PyFloat.eqb x y = false.
Proof.
  intros values Htwo Hne.
  assert (Hvalues : values <> []) by exact (numeric_nunique_values _ Htwo).
  exists (float_min values), (float_max values).
  split; [apply float_min_elem, Hvalues |]. split; [apply float_max_elem, Hvalues | exact Hne].
Qed.

Lemma strike_price_filter_shown pick df :
  let values := numeric_values df "strike_price" in
  (has_column df "strike_price" = true /\
   exists x y, x ∈ values /\ y ∈ values /\ PyFloat.eqb x y = false) ->
  strike_price_filter pick df =
  (Some (float_min values, float_max values),
   select df (fun r =>
     let x := to_numeric (cell r "strike_price") in
     let strike_range := slider_float (float_min values) (float_max values) pick in
     PyFloat.leb (fst strike_range) x && PyFloat.leb x (snd strike_range)
     && negb (PyFloat.is_nan x))).
Proof.
  intros values [Hcol (x & y & Hx & Hy & Hxy)].
  destruct (strike_slider_tests df x y Hx Hy Hxy) as [Htwo Hne]. fold values in Hne.
  unfold strike_price_filter. fold values. rewrite Hcol, Htwo. cbv zeta.
  rewrite Hne. reflexivity.
Qed.

Lemma strike_price_filter_hidden pick df :
  let values := numeric_values df "strike_price" in
  ~ (has_column df "strike_price" = true /\
     exists x y, x ∈ values /\ y ∈ values /\ PyFloat.eqb x y = false) ->
  strike_price_filter pick df = (None, df).
Proof.
  intros values Hnot. unfold strike_price_filter. fold values.
  destruct (has_column df "strike_price"); [| reflexivity].
  destruct (Nat.ltb_spec 1 (numeric_nunique (column df "strike_price"))) as [Htwo | _];
    [| reflexivity].
  cbv zeta. destruct (PyFloat.eqb (float_min values) (float_max values)) eqn:Hne;
    [reflexivity |].
  exfalso. apply Hnot. split; [reflexivity |].
  exact (strike_slider_tests_inv df Htwo Hne).
Qed.

Lemma float_compare_strict x y :
  PyFloat.leb x y = true -> PyFloat.eqb x y = false -> PyFloat.ltb x y = true.
Proof.
  unfold PyFloat.leb, SFleb, PyFloat.eqb, SFeqb, PyFloat.ltb, SFltb.
  destruct (SFcompare x y) as [[] |]; try discriminate; reflexivity.
Qed.

(** A frame with rows of what the strike price block has left is left as
    it is by the same block. *)
Lemma strike_price_filter_fixed pick d out :
  narrows out (snd (strike_price_filter pick d)) ->
  snd (strike_price_filter pick out) = out.
Proof.
  intros Hout.
  assert (Hd : narrows out d)
    by (eapply narrows_trans; [exact Hout | apply strike_price_filter_narrows]).
  pose proof (numeric_values_not_nan out "strike_price") as Hnn.
  pose proof (numeric_values_not_nan d "strike_price") as Hnn_d.
  unfold strike_price_filter at 1.
  destruct (has_column out "strike_price") eqn:Hcol; [| reflexivity].
  destruct (Nat.ltb_spec 1 (numeric_nunique (column out "strike_price")))
    as [Htwo | _]; [| reflexivity].
  cbv zeta.
  destruct (PyFloat.eqb (float_min (numeric_values out "strike_price"))
                        (float_max (numeric_values out "strike_price"))) eqn:Hne_out;
    [reflexivity |].
  cbn [negb snd]. apply select_all. intros r Hr.
  destruct (strike_slider_tests_inv out Htwo Hne_out) as (x & y & Hx & Hy & Hxy).
  assert (Hshown : has_column d "strike_price" = true /\
                   exists x y, x ∈ numeric_values d "strike_price" /\
                               y ∈ numeric_values d "strike_price" /\
                               PyFloat.eqb x y = false).
  { split; [rewrite <- (has_column_narrows out d) by exact Hd; exact Hcol |].
    exists x, y. split; [| split; [| exact Hxy]];
      apply (numeric_values_narrows out d); assumption. }
  pose proof (sublist_subseteq _ _ (proj2 Hout) r Hr) as Hrd.
  rewrite (strike_price_filter_shown pick d Hshown) in Hrd. cbn [snd] in Hrd.
  apply select_rows in Hrd as [Hm _]. cbv zeta in Hm.
  apply andb_true_iff in Hm as [Hm Hnan]. apply andb_true_iff in Hm as [Hlo Hhi].
  set (xr := to_numeric (cell r "strike_price")) in *.
  set (vo := numeric_values out "strike_price") in *.
  set (vd := numeric_values d "strike_price") in *.
  assert (Hxr : xr ∈ vo).
  { apply numeric_values_elem. split; [| eauto].
    destruct (PyFloat.is_nan xr); [discriminate | reflexivity]. }
  assert (Hne : vo <> []) by (intros E; rewrite E in Hxr; inversion Hxr).
  rewrite Hnan, andb_true_r.
  unfold slider_float in *.
  destruct pick as [[a b] |].
  - destruct (PyFloat.leb (float_min vo) a && PyFloat.leb a b && PyFloat.leb b (float_max vo))
      eqn:Hvalid2.
    + assert (Hvalid : PyFloat.leb (float_min vd) a && PyFloat.leb a b
                       && PyFloat.leb b (float_max vd) = true).
      { apply andb_true_iff in Hvalid2 as [Hv Hb]. apply andb_true_iff in Hv as [Ha Hab].
        rewrite Hab, andb_true_r. apply andb_true_iff. split.
        - eapply float_compare_trans; [| exact Ha].
          apply float_min_below; [exact Hnn_d |].
          apply (numeric_values_narrows out d); [exact Hd | apply float_min_elem, Hne].
        - eapply float_compare_trans; [exact Hb |].
          apply float_max_above; [exact Hnn_d |].
          apply (numeric_values_narrows out d); [exact Hd | apply float_max_elem, Hne]. }
      rewrite Hvalid in Hlo, Hhi. cbn [fst snd] in *. rewrite Hlo, Hhi. reflexivity.
    + cbn [fst snd]. rewrite float_min_below, float_max_above by assumption. reflexivity.
  - cbn [fst snd]. rewrite float_min_below, float_max_above by assumption. reflexivity.
Qed.

(** X16.  The strike price slider is shown exactly when the frame has
    the column [strike_price] and two of its strike prices are numbers
    that are not equal as floats.  Its bounds are then the least and the
    greatest of the strike prices that are numbers, both are strike prices
    of rows, and the least is strictly below the greatest.  More than one
    distinct value is needed for that and is not enough: integers that are
    distinct can be one float, and then the test [min_strike != max_strike]
    keeps the slider off the page. *)
Theorem strike_slider_shown_for_two_prices
    (pick : option (PyFloat.float * PyFloat.float)) (df : DataFrame) :
  let values := numeric_values df "strike_price" in
  (fst (strike_price_filter pick df) <> None <->
   has_column df "strike_price" = true /\
   exists x y, x ∈ values /\ y ∈ values /\ PyFloat.eqb x y = false) /\
  (forall lo hi,
     fst (strike_price_filter pick df) = Some (lo, hi) ->
     lo = float_min values /\ hi = float_max values /\
     lo ∈ values /\ hi ∈ values /\ PyFloat.ltb lo hi = true) /\
  (fst (strike_price_filter pick df) <> None ->
   (1 < numeric_nunique (column df "strike_price"))%nat) /\
  (let big := frame_of_records [ [("strike_price", VInt (2 ^ 53))];
                                 [("strike_price", VInt (2 ^ 53 + 1))] ] in
   numeric_nunique (column big "strike_price") = 2%nat /\
   strike_price_filter pick big = (None, big)).
Proof.
  intros values.
  assert (Hiff : fst (strike_price_filter pick df) <> None <->
                 has_column df "strike_price" = true /\
                 exists x y, x ∈ values /\ y ∈ values /\ PyFloat.eqb x y = false).
  { split.
    - intros Hshown.
      destruct (has_column df "strike_price") eqn:Hcol.
      + split; [reflexivity |].
        unfold strike_price_filter in Hshown. fold values in Hshown. rewrite Hcol in Hshown.
        destruct (Nat.ltb_spec 1 (numeric_nunique (column df "strike_price")))
          as [Htwo | _]; [| contradiction].
        cbv zeta in Hshown.
        destruct (PyFloat.eqb (float_min values) (float_max values)) eqn:Hne;
          [contradiction |].
        exact (strike_slider_tests_inv df Htwo Hne).
      + unfold strike_price_filter in Hshown. rewrite Hcol in Hshown. contradiction.
    - intros Hshown. rewrite (strike_price_filter_shown pick df Hshown). discriminate. }
  split; [exact Hiff |]. split; [| split].
  - intros lo hi Hbounds.
    assert (Hshown : has_column df "strike_price" = true /\
                     exists x y, x ∈ values /\ y ∈ values /\ PyFloat.eqb x y = false).
    { apply Hiff. rewrite Hbounds. discriminate. }
    rewrite (strike_price_filter_shown pick df Hshown) in Hbounds.
    cbn [fst] in Hbounds. injection Hbounds as <- <-.
    destruct Hshown as (_ & x & y & Hx & Hy & Hxy). fold values.
    assert (Hne : values <> []) by (intros E; rewrite E in Hx; inversion Hx).
    pose proof (numeric_values_not_nan df "strike_price") as Hnn. fold values in Hnn.
    split; [reflexivity |]. split; [reflexivity |].
    split; [apply float_min_elem, Hne |]. split; [apply float_max_elem, Hne |].
    apply float_compare_strict.
    + apply float_min_below; [exact Hnn | apply float_max_elem, Hne].
    + exact (float_min_max_apart values x y Hnn Hx Hy Hxy).
  - intros Hshown. apply Hiff in Hshown as (_ & x & y & Hx & Hy & Hxy).
    exact (numeric_values_two df _ x y Hx Hy Hxy).
  - cbv zeta. split; [vm_compute; reflexivity |].
    destruct pick as [[a b] |]; reflexivity.
Qed.

Lemma strike_slider_shown_for_two_prices_witness :
  let df := frame_of_records Views.strikes in
  fst (strike_price_filter None df) = Some (PyFloat.of_Z 22000, PyFloat.of_Z 48000) /\
  PyFloat.of_Z 22000 ∈ numeric_values df "strike_price" /\
  PyFloat.ltb (PyFloat.of_Z 22000) (PyFloat.of_Z 48000) = true.
Proof.
  intros df.
  assert (Hb : fst (strike_price_filter None df) =
               Some (PyFloat.of_Z 22000, PyFloat.of_Z 48000))
    by (vm_compute; reflexivity).
  split; [exact Hb |].
  destruct (proj1 (proj2 (strike_slider_shown_for_two_prices None df)) _ _ Hb)
    as (_ & _ & Hlo & _ & Hlt).
  split; [exact Hlo | exact Hlt].
Defined.

(** The lot size block, for integers that are distinct and one float:
    the slider is shown with the integers as its bounds, and a range
    chosen within them is compared with the integers of the rows. *)
Example lot_sizes_beyond_floats :
  let lot z := [("lot_size", VInt z)] in
  let df := frame_of_records [lot (2 ^ 53); lot (2 ^ 53 + 1); lot (2 ^ 53 + 2)] in
  PyFloat.of_Z (2 ^ 53) = PyFloat.of_Z (2 ^ 53 + 1) /\
  lot_size_filter None df = Return (Some (2 ^ 53, 2 ^ 53 + 2), df) /\
  lot_size_filter (Some (2 ^ 53 + 1, 2 ^ 53 + 2)) df =
    Return (Some (2 ^ 53, 2 ^ 53 + 2),
            frame_of_records [lot (2 ^ 53 + 1); lot (2 ^ 53 + 2)]).
Proof. repeat split; vm_compute; reflexivity. Qed.

(** X15.  The strike price block is idempotent: applied to the frame it
    has left, with the same range chosen, it leaves that frame as it is,
    whether or not the slider is shown again and whatever its bounds are
    then. *)
Theorem strike_price_filter_idempotent
    (pick : option (PyFloat.float * PyFloat.float)) (df : DataFrame) :
  snd (strike_price_filter pick (snd (strike_price_filter pick df))) =
  snd (strike_price_filter pick df).
Proof. apply (strike_price_filter_fixed pick df). apply narrows_refl. Qed.

(** X5.  For a frame without the column [lot_size], filtering is
    idempotent: the frame that is displayed for a selection is left as it
    is when the same selection is applied to it. *)
Theorem filtered_is_idempotent_without_lot_size `{Host}
    (sel : Selection) (df out : DataFrame) :
  has_column df "lot_size" = false ->
  filtered sel df = Return out ->
  filtered sel out = Return out.
Proof.
  intros Hlot Hf.
  pose proof (filtered_narrows _ _ _ Hf) as Hout.
  unfold filtered in Hf.
  destruct (sidebar_filters sel df) as [[c out'] |] eqn:Hs; [| discriminate].
  simpl in Hf. injection Hf as ->.
  destruct (sidebar_filters_stages _ _ _ _ Hs)
    as (d1 & d2 & d3 & d4 & d5 & d6 & d7 & H1 & H2 & H3 & H4 & _ & H6 & H7 & H8 &
        N7 & N6 & N5 & N4 & N3 & N2 & N1).
  assert (F1 := category_filter_fixed "exchange" (pick_exchange sel) df out).
  assert (F2 := category_filter_fixed "instrument_type" (pick_type sel) d1 out).
  assert (F3 := category_filter_fixed "segment" (pick_segment sel) d2 out).
  assert (F4 := category_filter_fixed "underlying_type" (pick_underlying sel) d3 out).
  assert (F6 := strike_price_filter_fixed (pick_strike sel) d5 out).
  assert (F7 := weekly_filter_fixed (pick_weekly sel) d6 out).
  rewrite H1 in F1. rewrite H2 in F2. rewrite H3 in F3. rewrite H4 in F4.
  rewrite H6 in F6. rewrite H7 in F7.
  specialize (F1 N1). specialize (F2 N2). specialize (F3 N3). specialize (F4 N4).
  specialize (F6 N6). specialize (F7 N7).
  pose proof (search_filter_fixed _ _ _ _ H8 (narrows_refl out)) as F8.
  unfold filtered, sidebar_filters.
  destruct (category_filter "exchange" _ out) as [c1 o1]. simpl in F1. subst o1.
  destruct (category_filter "instrument_type" _ out) as [c2 o2]. simpl in F2. subst o2.
  destruct (category_filter "segment" _ out) as [c3 o3]. simpl in F3. subst o3.
  destruct (category_filter "underlying_type" _ out) as [c4 o4]. simpl in F4. subst o4.
  unfold lot_size_filter.
  rewrite (has_column_narrows out df) by exact Hout. rewrite Hlot.
  cbn [bind].
  destruct (strike_price_filter _ out) as [c6 o6]. simpl in F6. subst o6.
  destruct (weekly_filter _ out) as [c7 o7]. simpl in F7. subst o7.
  rewrite F8. reflexivity.
Qed.

Lemma filtered_is_idempotent_without_lot_size_witness :
  let df := frame_of_records Views.strikes in
  let out := frame_of_records
               [ [("name", VStr "NIFTY"); ("strike_price", VInt 22000)];
                 [("name", VStr "BANKNIFTY"); ("strike_price", VInt 48000)] ] in
  has_column df "lot_size" = false /\
  @filtered Sample.host untouched df = Return out /\
  @filtered Sample.host untouched out = Return out.
Proof.
  intros df out.
  assert (H1 : has_column df "lot_size" = false) by (vm_compute; reflexivity).
  assert (H2 : @filtered Sample.host untouched df = Return out)
    by (vm_compute; reflexivity).
  repeat (split; [assumption |]).
  exact (@filtered_is_idempotent_without_lot_size Sample.host _ _ _ H1 H2).
Defined.

(** With a column [lot_size] filtering need not be idempotent.  Of the lot
    sizes 0.5, 1.5 and 2.5 the untouched slider, whose bounds are 0 and 2,
    keeps 0.5 and 1.5; applied to these, with the bounds 0 and 1, it keeps
    0.5 only. *)
Example filtered_twice_with_lot_sizes :
  let lot x := [("lot_size", VFloat (PyFloat.of_decimal false x (-1)))] in
  @filtered_records Sample.host untouched [lot 5; lot 15; lot 25] = Return [lot 5; lot 15] /\
  @filtered_records Sample.host untouched [lot 5; lot 15] = Return [lot 5].
Proof. split; vm_compute; reflexivity. Qed.

(** ** A blank upload, a single value, an empty array *)









